(** * sportsreference: NBA team statistics and NHL schedules

    A shallow embedding of [sportsreference/nba/teams.py] and
    [sportsreference/nhl/schedule.py], followed by the properties of the
    row aggregator, the keyed lookups, the typed accessors, and the rows
    and the dates of the schedule.

    Python values are modelled as follows.
    - [str] is [string]; the text is taken to be ASCII (the tables hold
      ASCII digits, letters and punctuation), so case mapping and the
      digit and whitespace classes are the ASCII ones.
    - a field that was not found in a row is [None]: a stored field has
      type [option string].
    - [int] is [Z]; [float] is [Py.pyfloat], whose finite values are the
      binary64 numbers, each given as the rational it is equal to.
    - a raised exception is [Py.Raise] with the exception class; messages
      are not modelled. *)

From Stdlib Require Import List String Ascii ZArith QArith Qreduction Bool Lia.
Import ListNotations.
Local Open Scope string_scope.
Local Open Scope Z_scope.

(** ** The Python built-ins the two modules call *)

Module Py.

Inductive exn : Type := ValueError | TypeError | AttributeError.

Inductive result (A : Type) : Type :=
| Ok (a : A)
| Raise (e : exn).
Arguments Ok {A} a.
Arguments Raise {A} e.

Definition bind {A B : Type} (r : result A) (k : A -> result B) : result B :=
  match r with
  | Ok a => k a
  | Raise e => Raise e
  end.

(** Character classes. *)

Definition code (c : ascii) : N := N_of_ascii c.

Definition is_digit (c : ascii) : bool :=
  ((48 <=? code c) && (code c <=? 57))%N.

(** The whitespace that [int] and [float] skip around a numeral. *)
Definition is_space (c : ascii) : bool :=
  ((code c =? 32) || ((9 <=? code c) && (code c <=? 13)))%N.

(** The class [\s] of a [str] pattern: it also has the separators
    0x1c to 0x1f. *)
Definition is_space_re (c : ascii) : bool :=
  (is_space c || ((28 <=? code c) && (code c <=? 31)))%N.

Definition is_upper (c : ascii) : bool :=
  ((65 <=? code c) && (code c <=? 90))%N.

Definition is_lower (c : ascii) : bool :=
  ((97 <=? code c) && (code c <=? 122))%N.

Definition lower_char (c : ascii) : ascii :=
  if is_upper c then ascii_of_N (code c + 32) else c.

Definition upper_char (c : ascii) : ascii :=
  if is_lower c then ascii_of_N (code c - 32) else c.

Definition digit_value (c : ascii) : Z := Z.of_N (code c) - 48.

(** [str.lower] and [str.upper]. *)

Fixpoint lower (s : string) : string :=
  match s with
  | EmptyString => EmptyString
  | String c r => String (lower_char c) (lower r)
  end.

Fixpoint upper (s : string) : string :=
  match s with
  | EmptyString => EmptyString
  | String c r => String (upper_char c) (upper r)
  end.

(** [str(v)], as the [%s] conversion applies it. *)
Definition str (v : option string) : string :=
  match v with
  | Some s => s
  | None => "None"
  end.

(** [s.replace(c, '')] for a one-character [c]. *)
Fixpoint remove_char (c : ascii) (s : string) : string :=
  match s with
  | EmptyString => EmptyString
  | String a r =>
      if Ascii.eqb a c then remove_char c r else String a (remove_char c r)
  end.

(** The text without the whitespace at its two ends. *)

Fixpoint lstrip (s : string) : string :=
  match s with
  | EmptyString => EmptyString
  | String c r => if is_space c then lstrip r else s
  end.

Fixpoint rstrip (s : string) : string :=
  match s with
  | EmptyString => EmptyString
  | String c r =>
      match rstrip r with
      | EmptyString => if is_space c then EmptyString else String c EmptyString
      | r' => String c r'
      end
  end.

Definition strip (s : string) : string := rstrip (lstrip s).

(** Digit parts of numeric literals: [digit (["_"] digit)*]. *)

Definition is_digitpart_char (c : ascii) : bool :=
  is_digit c || Ascii.eqb c "_".

Fixpoint span_digitpart (s : string) : string * string :=
  match s with
  | EmptyString => (EmptyString, EmptyString)
  | String c r =>
      if is_digitpart_char c
      then let (g, rest) := span_digitpart r in (String c g, rest)
      else (EmptyString, s)
  end.

Fixpoint wf_digitpart_from (after_underscore : bool) (g : string) : bool :=
  match g with
  | EmptyString => negb after_underscore
  | String c r =>
      if is_digit c then wf_digitpart_from false r
      else if Ascii.eqb c "_"
           then negb after_underscore && wf_digitpart_from true r
           else false
  end.

Definition wf_digitpart (g : string) : bool :=
  match g with
  | EmptyString => false
  | String c _ => is_digit c && wf_digitpart_from false g
  end.

Fixpoint digits_value (acc : Z) (g : string) : Z :=
  match g with
  | EmptyString => acc
  | String c r =>
      if is_digit c then digits_value (10 * acc + digit_value c) r
      else digits_value acc r
  end.

Fixpoint count_digits (g : string) : nat :=
  match g with
  | EmptyString => O
  | String c r => if is_digit c then S (count_digits r) else count_digits r
  end.

Definition split_sign (s : string) : bool * string :=
  match s with
  | String "+" r => (false, r)
  | String "-" r => (true, r)
  | _ => (false, s)
  end.

(** The most digits that [int] converts from a text: the default of
    [sys.set_int_max_str_digits] since CPython 3.11.  Every digit
    counts, leading zeros too; underscores, sign and whitespace do
    not. *)
Definition int_max_str_digits : Z := 4300.

(** [int(s)] for a [str] in base 10: surrounding whitespace, a sign, and
    digits that single underscores may separate.  A text that is not of
    this form and a text with more digits than the limit both raise
    [ValueError]. *)
Definition int_of_str (s : string) : result Z :=
  let (neg, body) := split_sign (strip s) in
  if wf_digitpart body
     && (Z.of_nat (count_digits body) <=? int_max_str_digits)
  then Ok (if neg then - digits_value 0 body else digits_value 0 body)
  else Raise ValueError.

(** [int(v)] for a stored field. *)
Definition int (v : option string) : result Z :=
  match v with
  | Some s => int_of_str s
  | None => Raise TypeError
  end.

(** [float(s)]: surrounding whitespace, a sign, and then "inf",
    "infinity" or "nan" in any letter case, or a decimal numeral with an
    optional fraction and exponent.  The number that the numeral denotes
    is rounded to the nearest binary64, ties to the even mantissa, and a
    finite value is that binary64 as a rational; the sign of a zero is
    not kept. *)

Inductive pyfloat : Type :=
| Finite (q : Q)
| Infinite (negative : bool)
| NaN.

Definition part_ok (g : string) : bool :=
  match g with
  | EmptyString => true
  | _ => wf_digitpart g
  end.

Definition is_empty (s : string) : bool :=
  match s with
  | EmptyString => true
  | _ => false
  end.

Definition exponent (s : string) : option Z :=
  match s with
  | EmptyString => Some 0
  | String c r =>
      if Ascii.eqb (lower_char c) "e"
      then let (neg, ds) := split_sign r in
           if wf_digitpart ds
           then Some (if neg then - digits_value 0 ds else digits_value 0 ds)
           else None
      else None
  end.

(** The number [m * 10 ^ e]. *)
Definition scale10 (m e : Z) : Q :=
  if 0 <=? e then inject_Z (m * 10 ^ e)
  else Qred (Qmake m (Z.to_pos (10 ^ (- e)))).

Definition decimal (body : string) : option Q :=
  let (ip, r1) := span_digitpart body in
  let (fp, r2) :=
    match r1 with
    | String "." r => span_digitpart r
    | _ => (EmptyString, r1)
    end in
  if part_ok ip && part_ok fp && negb (is_empty ip && is_empty fp)
  then match exponent r2 with
       | Some e =>
           Some (scale10 (digits_value (digits_value 0 ip) fp)
                         (e - Z.of_nat (count_digits fp)))
       | None => None
       end
  else None.

(** The integer nearest to [num / den], the even one of two that are
    equally near. *)
Definition round_half_even (num den : Z) : Z :=
  let m := num / den in
  match 2 * (num mod den) ?= den with
  | Lt => m
  | Gt => m + 1
  | Eq => if Z.even m then m else m + 1
  end.

(** The number [m * 2 ^ e]. *)
Definition scale2 (m e : Z) : Q :=
  if 0 <=? e then inject_Z (m * 2 ^ e)
  else Qred (Qmake m (Z.to_pos (2 ^ (- e)))).

(** The binary64 nearest to [n / d], for [0 <= n] and [0 < d].  With
    [2 ^ L <= n / d < 2 ^ (L + 1)], the mantissa has 53 bits at the
    exponent [L - 52], or fewer at the least exponent -1074; a value
    that rounds to [2 ^ 1024] or more is an infinity. *)
Definition binary64 (n d : Z) : pyfloat :=
  if n =? 0 then Finite 0
  else
    let t := Z.log2 n - Z.log2 d in
    let L := if d * 2 ^ Z.max 0 t <=? n * 2 ^ Z.max 0 (- t) then t else t - 1 in
    let e := Z.max (L - 52) (- 1074) in
    let m := round_half_even (n * 2 ^ Z.max 0 (- e)) (d * 2 ^ Z.max 0 e) in
    if (0 <=? e) && (2 ^ 1024 <=? m * 2 ^ e) then Infinite false
    else Finite (scale2 m e).

Definition negate (x : pyfloat) : pyfloat :=
  match x with
  | Finite q => Finite (Qopp q)
  | Infinite negative => Infinite (negb negative)
  | NaN => NaN
  end.

Definition float_of_str (s : string) : result pyfloat :=
  let (neg, body) := split_sign (strip s) in
  let name := lower body in
  if String.eqb name "inf" || String.eqb name "infinity"
  then Ok (Infinite neg)
  else if String.eqb name "nan" then Ok NaN
  else match decimal body with
       | Some q =>
           let x := binary64 (Qnum q) (Zpos (Qden q)) in
           Ok (if neg then negate x else x)
       | None => Raise ValueError
       end.

Definition float (v : option string) : result pyfloat :=
  match v with
  | Some s => float_of_str s
  | None => Raise TypeError
  end.

(** [re.findall('\d+', s)]: the maximal runs of digits, left to right. *)
Definition starts_with_digit (s : string) : bool :=
  match s with
  | String c _ => is_digit c
  | EmptyString => false
  end.

Fixpoint findall_digits (s : string) : list string :=
  match s with
  | EmptyString => []
  | String c r =>
      let runs := findall_digits r in
      if is_digit c
      then match runs with
           | run :: runs' =>
               if starts_with_digit r then String c run :: runs'
               else String c EmptyString :: runs
           | [] => [String c EmptyString]
           end
      else runs
  end.

(** [datetime.strptime(s, '%Y-%m-%d %I:%M %p')].  The library turns the
    format into the pattern
    [(\d\d\d\d)-(1[0-2]|0[1-9]|[1-9])-(3[0-1]|[1-2]\d|0[1-9]|[1-9]| [1-9])\s+(1[0-2]|0[1-9]|[1-9]):([0-5]\d|\d)\s+(am|pm)]
    (case ignored), matches it at the start of the text, rejects text that
    is left over, and builds the date.  A matcher lists its matches in the
    order a backtracking engine tries them. *)

Record datetime : Type := mk_datetime {
  year : Z;
  month : Z;
  day : Z;
  hour : Z;
  minute : Z;
  second : Z;
  microsecond : Z
}.

Definition matcher (A : Type) : Type := string -> list (A * string).

Definition m_ret {A : Type} (a : A) : matcher A := fun s => [(a, s)].

Definition m_bind {A B : Type} (p : matcher A) (k : A -> matcher B) : matcher B :=
  fun s => flat_map (fun ar => k (fst ar) (snd ar)) (p s).

Definition m_alt {A : Type} (p q : matcher A) : matcher A :=
  fun s => (p s ++ q s)%list.

Notation "x <~ p ;; k" := (m_bind p (fun x => k))
  (at level 61, p at next level, right associativity).

Definition ch (ok : ascii -> bool) : matcher Z :=
  fun s =>
    match s with
    | String c r => if ok c then [(digit_value c, r)] else []
    | EmptyString => []
    end.

Definition between (lo hi : ascii) (c : ascii) : bool :=
  ((code lo <=? code c) && (code c <=? code hi))%N.

Definition lit (c : ascii) : matcher Z := ch (Ascii.eqb c).

Definition lit_nocase (c : ascii) : matcher Z :=
  ch (fun a => Ascii.eqb (lower_char a) c).

Definition two (p q : ascii -> bool) : matcher Z :=
  a <~ ch p ;; b <~ ch q ;; m_ret (10 * a + b).

(** [\s+], the longest run first. *)
Fixpoint spaces (s : string) : list (Z * string) :=
  match s with
  | String c r => if is_space_re c then (spaces r ++ [(0, r)])%list else []
  | EmptyString => []
  end.

Definition re_Y : matcher Z :=
  a <~ two is_digit is_digit ;; b <~ two is_digit is_digit ;; m_ret (100 * a + b).

(** [1[0-2]|0[1-9]|[1-9]], for [%m] and [%I]. *)
Definition re_m : matcher Z :=
  m_alt (two (Ascii.eqb "1") (between "0" "2"))
 (m_alt (two (Ascii.eqb "0") (between "1" "9"))
        (ch (between "1" "9"))).

Definition re_d : matcher Z :=
  m_alt (two (Ascii.eqb "3") (between "0" "1"))
 (m_alt (two (between "1" "2") is_digit)
 (m_alt (two (Ascii.eqb "0") (between "1" "9"))
 (m_alt (ch (between "1" "9"))
        (_ <~ lit " " ;; ch (between "1" "9"))))).

Definition re_M : matcher Z :=
  m_alt (two (between "0" "5") is_digit) (ch is_digit).

(** [am|pm]: [true] for pm. *)
Definition re_p : matcher bool :=
  m_alt (_ <~ lit_nocase "a" ;; _ <~ lit_nocase "m" ;; m_ret false)
        (_ <~ lit_nocase "p" ;; _ <~ lit_nocase "m" ;; m_ret true).

Definition format_regex : matcher (Z * Z * Z * Z * Z * bool) :=
  Y <~ re_Y ;; _ <~ lit "-" ;; m <~ re_m ;; _ <~ lit "-" ;; d <~ re_d ;;
  _ <~ spaces ;; h <~ re_m ;; _ <~ lit ":" ;; M <~ re_M ;;
  _ <~ spaces ;; p <~ re_p ;; m_ret (Y, m, d, h, M, p).

Definition is_leap (y : Z) : bool :=
  (y mod 4 =? 0) && (negb (y mod 100 =? 0) || (y mod 400 =? 0)).

Definition days_in_month (y m : Z) : Z :=
  if m =? 2 then (if is_leap y then 29 else 28)
  else if (m =? 4) || (m =? 6) || (m =? 9) || (m =? 11) then 30
  else 31.

Definition strptime (data_string : string) : result datetime :=
  match format_regex data_string with
  | [] => Raise ValueError
  | (Y, m, d, h12, M, pm, rest) :: _ =>
      if negb (is_empty rest) then Raise ValueError
      else
        let h := if pm then (if h12 =? 12 then 12 else h12 + 12)
                 else (if h12 =? 12 then 0 else h12) in
        if (1 <=? Y) && (d <=? days_in_month Y m)
        then Ok (mk_datetime Y m d h M 0 0)
        else Raise ValueError
  end.

(** [re.sub] with the two kinds of pattern the schedule uses.  The dot of
    a pattern matches every character but the line feed, so a match never
    leaves its line, and each line is rewritten on its own. *)

Definition line_feed : ascii := "010".

(** The first line of a text and the lines after it. *)
Fixpoint split_lines (s : string) : string * list string :=
  match s with
  | EmptyString => (EmptyString, [])
  | String c r =>
      let (line, rest) := split_lines r in
      if Ascii.eqb c line_feed then (EmptyString, line :: rest)
      else (String c line, rest)
  end.

Fixpoint join_lines (line : string) (rest : list string) : string :=
  match rest with
  | [] => line
  | next :: rest' => line ++ String line_feed (join_lines next rest')
  end.

Definition map_lines (f : string -> string) (s : string) : string :=
  let (line, rest) := split_lines s in
  join_lines (f line) (map f rest).

(** [s] without the prefix [m], when it starts with [m]. *)
Fixpoint strip_prefix (m s : string) : option string :=
  match m, s with
  | EmptyString, _ => Some s
  | String a m', String b s' =>
      if Ascii.eqb a b then strip_prefix m' s' else None
  | String _ _, EmptyString => None
  end.

(** What follows the last occurrence of [m] in [s]. *)
Fixpoint after_last (m s : string) : option string :=
  match s with
  | EmptyString => strip_prefix m EmptyString
  | String c r =>
      match after_last m r with
      | Some t => Some t
      | None => strip_prefix m s
      end
  end.

(** What precedes the first [c] in [s]. *)
Fixpoint before_first (c : ascii) (s : string) : string :=
  match s with
  | EmptyString => EmptyString
  | String a r => if Ascii.eqb a c then EmptyString else String a (before_first c r)
  end.

(** [re.sub('.*' + m, '', s)] for a literal [m] that is not empty: the
    greedy [.*] runs to the last [m] of the line. *)
Definition sub_through_last (m s : string) : string :=
  map_lines (fun line =>
               match after_last m line with
               | Some t => t
               | None => line
               end) s.

(** [re.sub(c + '.*', '', s)] for a character [c]. *)
Definition sub_from_first (c : ascii) (s : string) : string :=
  map_lines (before_first c) s.

(** [sub in s]. *)
Fixpoint contains (sub s : string) : bool :=
  match strip_prefix sub s with
  | Some _ => true
  | None =>
      match s with
      | EmptyString => false
      | String _ r => contains sub r
      end
  end.

(** [l[index]] for an [int] index: a negative index counts from the end,
    and an index outside the list raises [IndexError]. *)
Inductive item (A : Type) : Type :=
| Item (a : A)
| IndexError.
Arguments Item {A} a.
Arguments IndexError {A}.

Definition list_getitem {A : Type} (l : list A) (index : Z) : item A :=
  let n := Z.of_nat (List.length l) in
  let i := if index <? 0 then index + n else index in
  if (0 <=? i) && (i <? n)
  then match nth_error l (Z.to_nat i) with
       | Some a => Item a
       | None => IndexError
       end
  else IndexError.

(** The double quote, for the texts that contain one. *)
Definition dq : string := String "034" EmptyString.

End Py.

(** ** [sportsreference/nba/teams.py] *)

Module nba.

(** *** [class Team] *)

Module Team.

(** The attributes of a [Team], in the order [__init__] creates them. *)
Record t : Type := mk {
  _year : option string;
  _rank : Z;
  _abbreviation : option string;
  _name : option string;
  _games_played : option string;
  _minutes_played : option string;
  _field_goals : option string;
  _field_goal_attempts : option string;
  _field_goal_percentage : option string;
  _three_point_field_goals : option string;
  _three_point_field_goal_attempts : option string;
  _three_point_field_goal_percentage : option string;
  _two_point_field_goals : option string;
  _two_point_field_goal_attempts : option string;
  _two_point_field_goal_percentage : option string;
  _free_throws : option string;
  _free_throw_attempts : option string;
  _free_throw_percentage : option string;
  _offensive_rebounds : option string;
  _defensive_rebounds : option string;
  _total_rebounds : option string;
  _assists : option string;
  _steals : option string;
  _blocks : option string;
  _turnovers : option string;
  _personal_fouls : option string;
  _points : option string;
  _opp_field_goals : option string;
  _opp_field_goal_attempts : option string;
  _opp_field_goal_percentage : option string;
  _opp_three_point_field_goals : option string;
  _opp_three_point_field_goal_attempts : option string;
  _opp_three_point_field_goal_percentage : option string;
  _opp_two_point_field_goals : option string;
  _opp_two_point_field_goal_attempts : option string;
  _opp_two_point_field_goal_percentage : option string;
  _opp_free_throws : option string;
  _opp_free_throw_attempts : option string;
  _opp_free_throw_percentage : option string;
  _opp_offensive_rebounds : option string;
  _opp_defensive_rebounds : option string;
  _opp_total_rebounds : option string;
  _opp_assists : option string;
  _opp_steals : option string;
  _opp_blocks : option string;
  _opp_turnovers : option string;
  _opp_personal_fouls : option string;
  _opp_points : option string
}.

Section parse.

(** [utils._parse_field] and the table [PARSING_SCHEME] are defined
    outside the two modules: a scheme, a row and a field name give the
    text of the field, or [None] when the row has no such cell. *)
Variable Scheme : Type.
Variable PARSING_SCHEME : Scheme.
Variable _parse_field : Scheme -> string -> string -> option string.

(** [_parse_team_data]: every attribute but [_rank] and [_year] is set to
    the field parsed under its name without the leading underscore. *)
Definition _parse_team_data (self : t) (team_data : string) : t :=
  let value := _parse_field PARSING_SCHEME team_data in
  {| _year := _year self;
     _rank := _rank self;
     _abbreviation := value "abbreviation";
     _name := value "name";
     _games_played := value "games_played";
     _minutes_played := value "minutes_played";
     _field_goals := value "field_goals";
     _field_goal_attempts := value "field_goal_attempts";
     _field_goal_percentage := value "field_goal_percentage";
     _three_point_field_goals := value "three_point_field_goals";
     _three_point_field_goal_attempts := value "three_point_field_goal_attempts";
     _three_point_field_goal_percentage := value "three_point_field_goal_percentage";
     _two_point_field_goals := value "two_point_field_goals";
     _two_point_field_goal_attempts := value "two_point_field_goal_attempts";
     _two_point_field_goal_percentage := value "two_point_field_goal_percentage";
     _free_throws := value "free_throws";
     _free_throw_attempts := value "free_throw_attempts";
     _free_throw_percentage := value "free_throw_percentage";
     _offensive_rebounds := value "offensive_rebounds";
     _defensive_rebounds := value "defensive_rebounds";
     _total_rebounds := value "total_rebounds";
     _assists := value "assists";
     _steals := value "steals";
     _blocks := value "blocks";
     _turnovers := value "turnovers";
     _personal_fouls := value "personal_fouls";
     _points := value "points";
     _opp_field_goals := value "opp_field_goals";
     _opp_field_goal_attempts := value "opp_field_goal_attempts";
     _opp_field_goal_percentage := value "opp_field_goal_percentage";
     _opp_three_point_field_goals := value "opp_three_point_field_goals";
     _opp_three_point_field_goal_attempts := value "opp_three_point_field_goal_attempts";
     _opp_three_point_field_goal_percentage := value "opp_three_point_field_goal_percentage";
     _opp_two_point_field_goals := value "opp_two_point_field_goals";
     _opp_two_point_field_goal_attempts := value "opp_two_point_field_goal_attempts";
     _opp_two_point_field_goal_percentage := value "opp_two_point_field_goal_percentage";
     _opp_free_throws := value "opp_free_throws";
     _opp_free_throw_attempts := value "opp_free_throw_attempts";
     _opp_free_throw_percentage := value "opp_free_throw_percentage";
     _opp_offensive_rebounds := value "opp_offensive_rebounds";
     _opp_defensive_rebounds := value "opp_defensive_rebounds";
     _opp_total_rebounds := value "opp_total_rebounds";
     _opp_assists := value "opp_assists";
     _opp_steals := value "opp_steals";
     _opp_blocks := value "opp_blocks";
     _opp_turnovers := value "opp_turnovers";
     _opp_personal_fouls := value "opp_personal_fouls";
     _opp_points := value "opp_points" |}.

Definition __init__ (team_data : string) (rank : Z) (year : option string) : t :=
  _parse_team_data
    {| _year := year;
       _rank := rank;
       _abbreviation := None;
       _name := None;
       _games_played := None;
       _minutes_played := None;
       _field_goals := None;
       _field_goal_attempts := None;
       _field_goal_percentage := None;
       _three_point_field_goals := None;
       _three_point_field_goal_attempts := None;
       _three_point_field_goal_percentage := None;
       _two_point_field_goals := None;
       _two_point_field_goal_attempts := None;
       _two_point_field_goal_percentage := None;
       _free_throws := None;
       _free_throw_attempts := None;
       _free_throw_percentage := None;
       _offensive_rebounds := None;
       _defensive_rebounds := None;
       _total_rebounds := None;
       _assists := None;
       _steals := None;
       _blocks := None;
       _turnovers := None;
       _personal_fouls := None;
       _points := None;
       _opp_field_goals := None;
       _opp_field_goal_attempts := None;
       _opp_field_goal_percentage := None;
       _opp_three_point_field_goals := None;
       _opp_three_point_field_goal_attempts := None;
       _opp_three_point_field_goal_percentage := None;
       _opp_two_point_field_goals := None;
       _opp_two_point_field_goal_attempts := None;
       _opp_two_point_field_goal_percentage := None;
       _opp_free_throws := None;
       _opp_free_throw_attempts := None;
       _opp_free_throw_percentage := None;
       _opp_offensive_rebounds := None;
       _opp_defensive_rebounds := None;
       _opp_total_rebounds := None;
       _opp_assists := None;
       _opp_steals := None;
       _opp_blocks := None;
       _opp_turnovers := None;
       _opp_personal_fouls := None;
       _opp_points := None |}
    team_data.

End parse.

(** The properties.  [int(self._rank)] converts an [int], which cannot
    fail; the other numeric properties convert the stored text.  (The
    [schedule] property builds an object of another module and is left
    out.) *)

Definition rank (self : t) : Py.result Z := Py.Ok (_rank self).

Definition abbreviation (self : t) : option string := _abbreviation self.

Definition name (self : t) : option string := _name self.

Definition games_played (self : t) : Py.result Z := Py.int (_games_played self).

Definition minutes_played (self : t) : Py.result Z :=
  Py.int (_minutes_played self).

Definition field_goals (self : t) : Py.result Z := Py.int (_field_goals self).

Definition field_goal_attempts (self : t) : Py.result Z :=
  Py.int (_field_goal_attempts self).

Definition field_goal_percentage (self : t) : Py.result Py.pyfloat :=
  Py.float (_field_goal_percentage self).

Definition three_point_field_goals (self : t) : Py.result Z :=
  Py.int (_three_point_field_goals self).

Definition three_point_field_goal_attempts (self : t) : Py.result Z :=
  Py.int (_three_point_field_goal_attempts self).

Definition three_point_field_goal_percentage (self : t) : Py.result Py.pyfloat :=
  Py.float (_three_point_field_goal_percentage self).

Definition two_point_field_goals (self : t) : Py.result Z :=
  Py.int (_two_point_field_goals self).

Definition two_point_field_goal_attempts (self : t) : Py.result Z :=
  Py.int (_two_point_field_goal_attempts self).

Definition two_point_field_goal_percentage (self : t) : Py.result Py.pyfloat :=
  Py.float (_two_point_field_goal_percentage self).

Definition free_throws (self : t) : Py.result Z := Py.int (_free_throws self).

Definition free_throw_attempts (self : t) : Py.result Z :=
  Py.int (_free_throw_attempts self).

Definition free_throw_percentage (self : t) : Py.result Py.pyfloat :=
  Py.float (_free_throw_percentage self).

Definition offensive_rebounds (self : t) : Py.result Z :=
  Py.int (_offensive_rebounds self).

Definition defensive_rebounds (self : t) : Py.result Z :=
  Py.int (_defensive_rebounds self).

Definition total_rebounds (self : t) : Py.result Z :=
  Py.int (_total_rebounds self).

Definition assists (self : t) : Py.result Z := Py.int (_assists self).

Definition steals (self : t) : Py.result Z := Py.int (_steals self).

Definition blocks (self : t) : Py.result Z := Py.int (_blocks self).

Definition turnovers (self : t) : Py.result Z := Py.int (_turnovers self).

Definition personal_fouls (self : t) : Py.result Z :=
  Py.int (_personal_fouls self).

Definition points (self : t) : Py.result Z := Py.int (_points self).

Definition opp_field_goals (self : t) : Py.result Z :=
  Py.int (_opp_field_goals self).

Definition opp_field_goal_attempts (self : t) : Py.result Z :=
  Py.int (_opp_field_goal_attempts self).

Definition opp_field_goal_percentage (self : t) : Py.result Py.pyfloat :=
  Py.float (_opp_field_goal_percentage self).

Definition opp_three_point_field_goals (self : t) : Py.result Z :=
  Py.int (_opp_three_point_field_goals self).

Definition opp_three_point_field_goal_attempts (self : t) : Py.result Z :=
  Py.int (_opp_three_point_field_goal_attempts self).

Definition opp_three_point_field_goal_percentage (self : t) : Py.result Py.pyfloat :=
  Py.float (_opp_three_point_field_goal_percentage self).

Definition opp_two_point_field_goals (self : t) : Py.result Z :=
  Py.int (_opp_two_point_field_goals self).

Definition opp_two_point_field_goal_attempts (self : t) : Py.result Z :=
  Py.int (_opp_two_point_field_goal_attempts self).

Definition opp_two_point_field_goal_percentage (self : t) : Py.result Py.pyfloat :=
  Py.float (_opp_two_point_field_goal_percentage self).

Definition opp_free_throws (self : t) : Py.result Z :=
  Py.int (_opp_free_throws self).

Definition opp_free_throw_attempts (self : t) : Py.result Z :=
  Py.int (_opp_free_throw_attempts self).

Definition opp_free_throw_percentage (self : t) : Py.result Py.pyfloat :=
  Py.float (_opp_free_throw_percentage self).

Definition opp_offensive_rebounds (self : t) : Py.result Z :=
  Py.int (_opp_offensive_rebounds self).

Definition opp_defensive_rebounds (self : t) : Py.result Z :=
  Py.int (_opp_defensive_rebounds self).

Definition opp_total_rebounds (self : t) : Py.result Z :=
  Py.int (_opp_total_rebounds self).

Definition opp_assists (self : t) : Py.result Z := Py.int (_opp_assists self).

Definition opp_steals (self : t) : Py.result Z := Py.int (_opp_steals self).

Definition opp_blocks (self : t) : Py.result Z := Py.int (_opp_blocks self).

Definition opp_turnovers (self : t) : Py.result Z :=
  Py.int (_opp_turnovers self).

Definition opp_personal_fouls (self : t) : Py.result Z :=
  Py.int (_opp_personal_fouls self).

Definition opp_points (self : t) : Py.result Z := Py.int (_opp_points self).

End Team.

(** *** [class Teams] *)

Module Teams.

(** The value stored under an abbreviation: [{'data': str, 'rank': int}]. *)
Record stats : Type := mk_stats {
  data : string;
  rank : Z
}.

(** [team_data_dict].  A [dict] keeps its keys in insertion order and
    [values()] follows it, so the dictionary is a list of bindings with
    no key twice.  The key is what [_parse_field] returned, which may be
    [None]. *)
Definition key : Type := option string.

Definition dict : Type := list (key * stats).

Definition key_eqb (a b : key) : bool :=
  match a, b with
  | Some x, Some y => String.eqb x y
  | None, None => true
  | _, _ => false
  end.

(** [d[k]]; [None] stands for [KeyError]. *)
Fixpoint dict_get (d : dict) (k : key) : option stats :=
  match d with
  | [] => None
  | (k', v) :: rest => if key_eqb k' k then Some v else dict_get rest k
  end.

(** [d[k] = v]: a present key keeps its place, a new one goes last. *)
Fixpoint dict_set (d : dict) (k : key) (v : stats) : dict :=
  match d with
  | [] => [(k, v)]
  | (k', v') :: rest =>
      if key_eqb k' k then (k', v) :: rest else (k', v') :: dict_set rest k v
  end.

Definition keys (d : dict) : list key := map fst d.

Definition values (d : dict) : list stats := map snd d.

Section retrieve.

Variable Scheme : Type.
Variable PARSING_SCHEME : Scheme.
Variable _parse_field : Scheme -> string -> string -> option string.

(** The page and its tables come from [pyquery] and [utils]: [pq] fetches
    the document at a URL, [SEASON_PAGE_URL] is the URL of a season (the
    template with the year filled in), [_get_stats_table] lists the rows
    of the table in a container and [_find_year_for_season] names the
    current season. *)
Variable Doc : Type.
Variable pq : string -> Doc.
Variable SEASON_PAGE_URL : string -> string.
Variable _get_stats_table : Doc -> string -> list string.
Variable _find_year_for_season : string -> string.

(** The loop of [_add_stats_data], with the running [rank]. *)
Fixpoint _add_stats_data_from (rank0 : Z) (teams_list : list string)
    (team_data_dict : dict) : dict :=
  match teams_list with
  | [] => team_data_dict
  | team_data :: rest =>
      let abbr := _parse_field PARSING_SCHEME team_data "abbreviation" in
      let team_data_dict' :=
        match dict_get team_data_dict abbr with
        | Some v =>
            dict_set team_data_dict abbr
              (mk_stats (data v ++ team_data) (rank v))
        | None =>
            dict_set team_data_dict abbr (mk_stats team_data rank0)
        end in
      _add_stats_data_from (rank0 + 1) rest team_data_dict'
  end.

Definition _add_stats_data (teams_list : list string) (team_data_dict : dict)
    : dict :=
  _add_stats_data_from 1 teams_list team_data_dict.

(** [not year] holds of [None] and of the empty string. *)
Definition falsy (year : option string) : bool :=
  match year with
  | None => true
  | Some y => Py.is_empty y
  end.

(** [_retrieve_all_teams], returning the list it appends to [_teams]. *)
Definition _retrieve_all_teams (year : option string) : list Team.t :=
  let year := if falsy year then _find_year_for_season "nba" else Py.str year in
  let doc := pq (SEASON_PAGE_URL year) in
  let teams_list := _get_stats_table doc "div#all_team-stats-base" in
  let opp_teams_list := _get_stats_table doc "div#all_opponent-stats-base" in
  let team_data_dict :=
    fold_left (fun d stats_list => _add_stats_data stats_list d)
              [teams_list; opp_teams_list] [] in
  map (fun team_data =>
         Team.__init__ Scheme PARSING_SCHEME _parse_field
           (data team_data) (rank team_data) (Some year))
      (values team_data_dict).

(** [Teams(year)]: the object is its list [_teams]. *)
Definition __init__ (year : option string) : list Team.t :=
  _retrieve_all_teams year.

End retrieve.

(** [Teams.__getitem__]; [team.abbreviation.upper()] on a team whose
    abbreviation is [None] raises [AttributeError]. *)
Fixpoint __getitem__ (_teams : list Team.t) (abbreviation : string)
    : Py.result Team.t :=
  match _teams with
  | [] => Py.Raise Py.ValueError
  | team :: rest =>
      match Team.abbreviation team with
      | None => Py.Raise Py.AttributeError
      | Some a =>
          if String.eqb (Py.upper a) (Py.upper abbreviation) then Py.Ok team
          else __getitem__ rest abbreviation
      end
  end.

Definition __call__ (_teams : list Team.t) (abbreviation : string)
    : Py.result Team.t :=
  __getitem__ _teams abbreviation.

Definition __len__ (_teams : list Team.t) : nat := List.length _teams.

End Teams.

End nba.

(** ** [sportsreference/nhl/schedule.py] *)

Module nhl.

(** *** [class Game] *)

Module Game.

(** The attributes of a [Game], each the text that [_parse_game_data]
    stored for the row, or [None]. *)
Record t : Type := mk {
  _game : option string;
  _date : option string;
  _time : option string;
  _boxscore : option string;
  _location : option string;
  _opponent_abbr : option string;
  _opponent_name : option string;
  _goals_scored : option string;
  _goals_allowed : option string;
  _result : option string;
  _overtime : option string;
  _wins : option string;
  _losses : option string;
  _overtime_losses : option string;
  _streak : option string;
  _shots_on_goal : option string;
  _penalties_in_minutes : option string;
  _power_play_goals : option string;
  _power_play_opportunities : option string;
  _short_handed_goals : option string;
  _attendance : option string;
  _length_of_game : option string
}.

Section constants.

(** The constants of [sportsreference.constants] and
    [sportsreference.nhl.constants]; [SHOOTOUT] is the "int constant" of
    the [overtime] docstring. *)
Variables WIN LOSS OVERTIME_LOSS HOME AWAY : string.
Variable SHOOTOUT : Z.

Definition game (self : t) : Py.result Z := Py.int (_game self).

Definition date (self : t) : option string := _date self.

Definition time (self : t) : option string := _time self.

(** [datetime]: both attributes go through [%s], so a missing one reads
    [None] and the text does not match the format. *)
Definition datetime (self : t) : Py.result Py.datetime :=
  let date_string := Py.str (_date self) ++ " " ++ Py.str (_time self) in
  Py.strptime date_string.

Definition location (self : t) : string :=
  match _location self with
  | Some "@" => AWAY
  | _ => HOME
  end.

Definition opponent_abbr (self : t) : option string := _opponent_abbr self.

Definition opponent_name (self : t) : option string := _opponent_name self.

Definition goals_scored (self : t) : Py.result Z := Py.int (_goals_scored self).

Definition goals_allowed (self : t) : Py.result Z :=
  Py.int (_goals_allowed self).

(** [overtime]; [self._overtime.lower()] on [None] raises
    [AttributeError]. *)
Definition overtime (self : t) : Py.result Z :=
  match _overtime self with
  | None => Py.Raise Py.AttributeError
  | Some text =>
      if String.eqb (Py.lower text) "ot" then Py.Ok 1
      else if String.eqb (Py.lower text) "so" then Py.Ok SHOOTOUT
      else if String.eqb text "" then Py.Ok 0
      else
        match Py.findall_digits text with
        | first :: _ => Py.int_of_str first
        | [] => Py.Ok 0
        end
  end.

Definition wins (self : t) : Py.result Z := Py.int (_wins self).

Definition losses (self : t) : Py.result Z := Py.int (_losses self).

Definition overtime_losses (self : t) : Py.result Z :=
  Py.int (_overtime_losses self).

Definition streak (self : t) : option string := _streak self.

Definition shots_on_goal (self : t) : Py.result Z :=
  Py.int (_shots_on_goal self).

Definition penalties_in_minutes (self : t) : Py.result Z :=
  Py.int (_penalties_in_minutes self).

Definition power_play_goals (self : t) : Py.result Z :=
  Py.int (_power_play_goals self).

Definition power_play_opportunities (self : t) : Py.result Z :=
  Py.int (_power_play_opportunities self).

Definition short_handed_goals (self : t) : Py.result Z :=
  Py.int (_short_handed_goals self).

Definition attendance (self : t) : Py.result Z :=
  match _attendance self with
  | None => Py.Raise Py.AttributeError
  | Some text => Py.int_of_str (Py.remove_char "," text)
  end.

Definition length_of_game (self : t) : option string := _length_of_game self.

(** [result] reads the [overtime] property only when the text is a loss. *)
Definition result (self : t) : Py.result string :=
  match _result self with
  | None => Py.Raise Py.AttributeError
  | Some text =>
      if String.eqb (Py.lower text) "w" then Py.Ok WIN
      else if String.eqb (Py.lower text) "l"
           then Py.bind (overtime self) (fun ot =>
                if negb (ot =? 0) then Py.Ok OVERTIME_LOSS else Py.Ok LOSS)
           else Py.Ok LOSS
  end.

End constants.

Section parse.

(** A row of the schedule is a [pyquery] object: [query row selector] is
    the text [str(row(selector))] of the cells it selects, and
    [utils.parse_field] with the table [SCHEDULE_SCHEME] reads a field
    off the row. *)
Variable Scheme : Type.
Variable SCHEDULE_SCHEME : Scheme.
Variable Row : Type.
Variable parse_field : Scheme -> Row -> string -> option string.
Variable query : Row -> string -> string.

(** [_parse_abbreviation], returning the value it stores in
    [_opponent_abbr]. *)
Definition _parse_abbreviation (game_data : Row) : string :=
  let name :=
    query game_data
      ("td[data-stat=" ++ Py.dq ++ "opp_name" ++ Py.dq ++ "]:first") in
  let name := Py.sub_through_last "/teams/" name in
  Py.sub_from_first "/" name.

(** [_parse_boxscore], returning the value it stores in [_boxscore]. *)
Definition _parse_boxscore (game_data : Row) : string :=
  let boxscore :=
    query game_data
      ("td[data-stat=" ++ Py.dq ++ "box_score_text" ++ Py.dq ++ "]:first") in
  Py.sub_through_last "/boxscores/" boxscore.

(** [_parse_game_data]: the two attributes above have their own parsers,
    every other one is the field of its name. *)
Definition _parse_game_data (self : t) (game_data : Row) : t :=
  let value := parse_field SCHEDULE_SCHEME game_data in
  {| _game := value "game";
     _date := value "date";
     _time := value "time";
     _boxscore := Some (_parse_boxscore game_data);
     _location := value "location";
     _opponent_abbr := Some (_parse_abbreviation game_data);
     _opponent_name := value "opponent_name";
     _goals_scored := value "goals_scored";
     _goals_allowed := value "goals_allowed";
     _result := value "result";
     _overtime := value "overtime";
     _wins := value "wins";
     _losses := value "losses";
     _overtime_losses := value "overtime_losses";
     _streak := value "streak";
     _shots_on_goal := value "shots_on_goal";
     _penalties_in_minutes := value "penalties_in_minutes";
     _power_play_goals := value "power_play_goals";
     _power_play_opportunities := value "power_play_opportunities";
     _short_handed_goals := value "short_handed_goals";
     _attendance := value "attendance";
     _length_of_game := value "length_of_game" |}.

(** [Game(game_data, year)]; the year is not used. *)
Definition __init__ (game_data : Row) (year : string) : t :=
  _parse_game_data
    {| _game := None; _date := None; _time := None; _boxscore := None;
       _location := None; _opponent_abbr := None; _opponent_name := None;
       _goals_scored := None; _goals_allowed := None; _result := None;
       _overtime := None; _wins := None; _losses := None;
       _overtime_losses := None; _streak := None; _shots_on_goal := None;
       _penalties_in_minutes := None; _power_play_goals := None;
       _power_play_opportunities := None; _short_handed_goals := None;
       _attendance := None; _length_of_game := None |}
    game_data.

End parse.

End Game.

(** *** [class Schedule] *)

Module Schedule.

(** [Schedule.__call__] on the list [_games].  [game.datetime] is read
    again for each of the three comparisons and gives the same value each
    time. *)
Fixpoint __call__ (_games : list Game.t) (date : Py.datetime)
    : Py.result Game.t :=
  match _games with
  | [] => Py.Raise Py.ValueError
  | game :: rest =>
      Py.bind (Game.datetime game) (fun d =>
      if (Py.year d =? Py.year date)
         && (Py.month d =? Py.month date)
         && (Py.day d =? Py.day date)
      then Py.Ok game
      else __call__ rest date)
  end.

Definition __len__ (_games : list Game.t) : nat := List.length _games.

(** [Schedule.__getitem__]. *)
Definition __getitem__ (_games : list Game.t) (index : Z) : Py.item Game.t :=
  Py.list_getitem _games index.

(** [__repr__], and [__iter__] as the list it iterates over. *)
Definition __repr__ (_games : list Game.t) : list Game.t := _games.

Definition __iter__ (_games : list Game.t) : list Game.t := __repr__ _games.

Section pull.

Variable Scheme : Type.
Variable SCHEDULE_SCHEME : Scheme.
Variable Row : Type.
Variable parse_field : Scheme -> Row -> string -> option string.
Variable query : Row -> string -> string.

(** [str(item)] for a row, the page behind a URL, the URL of a team's
    schedule in a season, the rows of a table, and the current season. *)
Variable row_str : Row -> string.
Variable Doc : Type.
Variable pq : string -> Doc.
Variable SCHEDULE_URL : string -> string -> string.
Variable get_stats_table : Doc -> string -> list Row.
Variable find_year_for_season : string -> string.

(** [not year]. *)
Definition no_year (year : option string) : bool :=
  match year with
  | None => true
  | Some y => Py.is_empty y
  end.

(** The test that skips the header rows inside the table. *)
Definition is_thead (item : Row) : bool :=
  Py.contains ("class=" ++ Py.dq ++ "thead" ++ Py.dq) (row_str item).

(** The loop of [_pull_schedule] over the rows, appending to [_games]. *)
Fixpoint _pull_schedule_loop (schedule : list Row) (year : string)
    (_games : list Game.t) : list Game.t :=
  match schedule with
  | [] => _games
  | item :: rest =>
      if is_thead item then _pull_schedule_loop rest year _games
      else
        let game :=
          Game.__init__ Scheme SCHEDULE_SCHEME Row parse_field query item year in
        _pull_schedule_loop rest year (_games ++ [game])
  end.

Definition _pull_schedule (_games : list Game.t) (abbreviation : string)
    (year : option string) : list Game.t :=
  let year := if no_year year then find_year_for_season "nhl" else Py.str year in
  let doc := pq (SCHEDULE_URL year abbreviation) in
  let schedule := get_stats_table doc "table#games" in
  _pull_schedule_loop schedule year _games.

(** [Schedule(abbreviation, year)]. *)
Definition __init__ (abbreviation : string) (year : option string)
    : list Game.t :=
  _pull_schedule [] abbreviation year.

End pull.

End Schedule.

End nhl.

(** ** Predicates used to state the properties *)

Module Text.

Import Py.

(** Every character is a decimal digit. *)
Fixpoint all_digits (s : string) : bool :=
  match s with
  | EmptyString => true
  | String c r => is_digit c && all_digits r
  end.

(** No character is a decimal digit. *)
Fixpoint no_digit (s : string) : bool :=
  match s with
  | EmptyString => true
  | String c r => negb (is_digit c) && no_digit r
  end.

(** No character is [c]. *)
Fixpoint lacks (c : ascii) (s : string) : bool :=
  match s with
  | EmptyString => true
  | String a r => negb (Ascii.eqb a c) && lacks c r
  end.

(** The number a digit string denotes, most significant digit first. *)
Definition decimal_value (ds : string) : Z := digits_value 0 ds.

(** The text made of [n] times the character [c]. *)
Fixpoint replicate (n : nat) (c : ascii) : string :=
  match n with
  | O => EmptyString
  | S k => String c (replicate k c)
  end.

End Text.

(** ** Vocabulary for the row aggregator *)

Module Aggregate.

Import nba.Teams.

(** The rows joined in order, as [+=] builds them. *)
Definition join (rows : list string) : string :=
  fold_right append EmptyString rows.

Definition mem (k : key) (ks : list key) : bool := existsb (key_eqb k) ks.

(** The keys of [seen] followed by the keys of [ks] that are new, each
    once, in the order of their first appearance. *)
Fixpoint first_seen (seen ks : list key) : list key :=
  match ks with
  | [] => seen
  | k :: rest => first_seen (if mem k seen then seen else seen ++ [k]) rest
  end.

(** The 0-based position of the first occurrence of [k]. *)
Fixpoint index_of (k : key) (ks : list key) : option nat :=
  match ks with
  | [] => None
  | k' :: rest =>
      if key_eqb k' k then Some O else option_map S (index_of k rest)
  end.

(** A parser that finds in a text every field that it finds in a part of
    the text. *)
Definition finds_in_part (parse : string -> string -> option string) : Prop :=
  forall before row after field,
    parse row field <> None -> parse (before ++ row ++ after) field <> None.

Section rows.

Variable Scheme : Type.
Variable PARSING_SCHEME : Scheme.
Variable _parse_field : Scheme -> string -> string -> option string.

(** The abbreviation [_add_stats_data] reads off a row. *)
Definition abbr_of (row : string) : key :=
  _parse_field PARSING_SCHEME row "abbreviation".

(** The rows of a table that carry the abbreviation [k]. *)
Definition rows_of (k : key) (rows : list string) : list string :=
  filter (fun row => key_eqb (abbr_of row) k) rows.

(** The text a team's record is parsed from: its offense rows, then its
    opponent rows. *)
Definition merged (offense opponent : list string) (k : key) : string :=
  join (rows_of k offense) ++ join (rows_of k opponent).

(** The rank of a team: one more than the position of its first row in
    the offense table, or in the opponent table for a team that the
    offense table lacks. *)
Definition first_rank (offense opponent : list string) (k : key) : Z :=
  match index_of k (map abbr_of offense) with
  | Some i => Z.of_nat i + 1
  | None =>
      match index_of k (map abbr_of opponent) with
      | Some i => Z.of_nat i + 1
      | None => 0
      end
  end.

(** What the binding of [k] becomes once [rows] have been added, the
    first of them at rank [r]. *)
Definition after (r : Z) (rows : list string) (k : key) (prev : option stats)
    : option stats :=
  match prev with
  | Some v => Some (mk_stats (data v ++ join (rows_of k rows)) (rank v))
  | None =>
      match index_of k (map abbr_of rows) with
      | Some i => Some (mk_stats (join (rows_of k rows)) (r + Z.of_nat i))
      | None => None
      end
  end.

(** The dictionary after the offense table and then the opponent table. *)
Definition both (offense opponent : list string) : dict :=
  fold_left
    (fun d stats_list =>
       _add_stats_data Scheme PARSING_SCHEME _parse_field stats_list d)
    [offense; opponent] [].

Variable Doc : Type.
Variable pq : string -> Doc.
Variable SEASON_PAGE_URL : string -> string.
Variable _get_stats_table : Doc -> string -> list string.
Variable _find_year_for_season : string -> string.

(** The season that is read, and its two tables. *)
Definition season (year : option string) : string :=
  if falsy year then _find_year_for_season "nba" else Py.str year.

Definition offense_table (year : option string) : list string :=
  _get_stats_table (pq (SEASON_PAGE_URL (season year))) "div#all_team-stats-base".

Definition opponent_table (year : option string) : list string :=
  _get_stats_table (pq (SEASON_PAGE_URL (season year)))
    "div#all_opponent-stats-base".

(** The abbreviations of a season, each once, in order of appearance. *)
Definition abbreviations (year : option string) : list key :=
  first_seen [] (map abbr_of (offense_table year ++ opponent_table year)).

End rows.

End Aggregate.


(** ** Vocabulary for the keyed lookups *)

Module Lookup.

(** The team carries the abbreviation [q], letter case aside. *)
Definition named (q : string) (team : nba.Team.t) : Prop :=
  exists a, nba.Team.abbreviation team = Some a /\ Py.upper a = Py.upper q.



(** Two datetimes on the same calendar day. *)
Definition same_day (d date : Py.datetime) : Prop :=
  Py.year d = Py.year date /\ Py.month d = Py.month date
  /\ Py.day d = Py.day date.

Definition same_dayb (d date : Py.datetime) : bool :=
  (Py.year d =? Py.year date) && (Py.month d =? Py.month date)
  && (Py.day d =? Py.day date).

(** The game was played on the day of [date]. *)
Definition on_date (date : Py.datetime) (game : nhl.Game.t) : Prop :=
  exists d, nhl.Game.datetime game = Py.Ok d /\ same_day d date.



End Lookup.

(** ** Vocabulary for the typed accessors *)

Module Accessors.

(** The property [acc] is the coercion [coerce] of the stored field
    [raw], and nothing else. *)
Definition coerces {T A : Type} (coerce : option string -> Py.result A)
    (raw : T -> option string) (acc : T -> Py.result A) : Prop :=
  forall x, acc x = coerce (raw x).

(** A failure of [coerce] on the stored field leaves the property
    unchanged. *)
Definition propagates {T A : Type} (coerce : option string -> Py.result A)
    (raw : T -> option string) (acc : T -> Py.result A) : Prop :=
  forall x e, coerce (raw x) = Py.Raise e -> acc x = Py.Raise e.

(** The result is a finite number of the interval [0, 1]. *)
Definition in_unit_interval (r : Py.result Py.pyfloat) : Prop :=
  exists q, r = Py.Ok (Py.Finite q) /\ (0 <= q /\ q <= 1)%Q.

(** The properties of [Team] that return [int(self._field)], with the
    field each one reads. *)
Definition Team_int_properties
    : list ((nba.Team.t -> option string) * (nba.Team.t -> Py.result Z)) :=
  [(nba.Team._games_played, nba.Team.games_played);
   (nba.Team._minutes_played, nba.Team.minutes_played);
   (nba.Team._field_goals, nba.Team.field_goals);
   (nba.Team._field_goal_attempts, nba.Team.field_goal_attempts);
   (nba.Team._three_point_field_goals, nba.Team.three_point_field_goals);
   (nba.Team._three_point_field_goal_attempts, nba.Team.three_point_field_goal_attempts);
   (nba.Team._two_point_field_goals, nba.Team.two_point_field_goals);
   (nba.Team._two_point_field_goal_attempts, nba.Team.two_point_field_goal_attempts);
   (nba.Team._free_throws, nba.Team.free_throws);
   (nba.Team._free_throw_attempts, nba.Team.free_throw_attempts);
   (nba.Team._offensive_rebounds, nba.Team.offensive_rebounds);
   (nba.Team._defensive_rebounds, nba.Team.defensive_rebounds);
   (nba.Team._total_rebounds, nba.Team.total_rebounds);
   (nba.Team._assists, nba.Team.assists);
   (nba.Team._steals, nba.Team.steals);
   (nba.Team._blocks, nba.Team.blocks);
   (nba.Team._turnovers, nba.Team.turnovers);
   (nba.Team._personal_fouls, nba.Team.personal_fouls);
   (nba.Team._points, nba.Team.points);
   (nba.Team._opp_field_goals, nba.Team.opp_field_goals);
   (nba.Team._opp_field_goal_attempts, nba.Team.opp_field_goal_attempts);
   (nba.Team._opp_three_point_field_goals, nba.Team.opp_three_point_field_goals);
   (nba.Team._opp_three_point_field_goal_attempts, nba.Team.opp_three_point_field_goal_attempts);
   (nba.Team._opp_two_point_field_goals, nba.Team.opp_two_point_field_goals);
   (nba.Team._opp_two_point_field_goal_attempts, nba.Team.opp_two_point_field_goal_attempts);
   (nba.Team._opp_free_throws, nba.Team.opp_free_throws);
   (nba.Team._opp_free_throw_attempts, nba.Team.opp_free_throw_attempts);
   (nba.Team._opp_offensive_rebounds, nba.Team.opp_offensive_rebounds);
   (nba.Team._opp_defensive_rebounds, nba.Team.opp_defensive_rebounds);
   (nba.Team._opp_total_rebounds, nba.Team.opp_total_rebounds);
   (nba.Team._opp_assists, nba.Team.opp_assists);
   (nba.Team._opp_steals, nba.Team.opp_steals);
   (nba.Team._opp_blocks, nba.Team.opp_blocks);
   (nba.Team._opp_turnovers, nba.Team.opp_turnovers);
   (nba.Team._opp_personal_fouls, nba.Team.opp_personal_fouls);
   (nba.Team._opp_points, nba.Team.opp_points)].

(** The percentages of [Team], which return [float(self._field)]. *)
Definition Team_float_properties
    : list ((nba.Team.t -> option string) * (nba.Team.t -> Py.result Py.pyfloat)) :=
  [(nba.Team._field_goal_percentage, nba.Team.field_goal_percentage);
   (nba.Team._three_point_field_goal_percentage, nba.Team.three_point_field_goal_percentage);
   (nba.Team._two_point_field_goal_percentage, nba.Team.two_point_field_goal_percentage);
   (nba.Team._free_throw_percentage, nba.Team.free_throw_percentage);
   (nba.Team._opp_field_goal_percentage, nba.Team.opp_field_goal_percentage);
   (nba.Team._opp_three_point_field_goal_percentage, nba.Team.opp_three_point_field_goal_percentage);
   (nba.Team._opp_two_point_field_goal_percentage, nba.Team.opp_two_point_field_goal_percentage);
   (nba.Team._opp_free_throw_percentage, nba.Team.opp_free_throw_percentage)].

(** The properties of [Game] that return [int(self._field)]. *)
Definition Game_int_properties
    : list ((nhl.Game.t -> option string) * (nhl.Game.t -> Py.result Z)) :=
  [(nhl.Game._game, nhl.Game.game);
   (nhl.Game._goals_scored, nhl.Game.goals_scored);
   (nhl.Game._goals_allowed, nhl.Game.goals_allowed);
   (nhl.Game._wins, nhl.Game.wins);
   (nhl.Game._losses, nhl.Game.losses);
   (nhl.Game._overtime_losses, nhl.Game.overtime_losses);
   (nhl.Game._shots_on_goal, nhl.Game.shots_on_goal);
   (nhl.Game._penalties_in_minutes, nhl.Game.penalties_in_minutes);
   (nhl.Game._power_play_goals, nhl.Game.power_play_goals);
   (nhl.Game._power_play_opportunities, nhl.Game.power_play_opportunities);
   (nhl.Game._short_handed_goals, nhl.Game.short_handed_goals)].

(** The attributes of [Team] that [_parse_team_data] sets, each under the
    name that it is parsed by: its own without the leading underscore. *)
Definition Team_attributes
    : list (string * (nba.Team.t -> option string)) :=
  [("abbreviation", nba.Team._abbreviation);
   ("name", nba.Team._name);
   ("games_played", nba.Team._games_played);
   ("minutes_played", nba.Team._minutes_played);
   ("field_goals", nba.Team._field_goals);
   ("field_goal_attempts", nba.Team._field_goal_attempts);
   ("field_goal_percentage", nba.Team._field_goal_percentage);
   ("three_point_field_goals", nba.Team._three_point_field_goals);
   ("three_point_field_goal_attempts", nba.Team._three_point_field_goal_attempts);
   ("three_point_field_goal_percentage", nba.Team._three_point_field_goal_percentage);
   ("two_point_field_goals", nba.Team._two_point_field_goals);
   ("two_point_field_goal_attempts", nba.Team._two_point_field_goal_attempts);
   ("two_point_field_goal_percentage", nba.Team._two_point_field_goal_percentage);
   ("free_throws", nba.Team._free_throws);
   ("free_throw_attempts", nba.Team._free_throw_attempts);
   ("free_throw_percentage", nba.Team._free_throw_percentage);
   ("offensive_rebounds", nba.Team._offensive_rebounds);
   ("defensive_rebounds", nba.Team._defensive_rebounds);
   ("total_rebounds", nba.Team._total_rebounds);
   ("assists", nba.Team._assists);
   ("steals", nba.Team._steals);
   ("blocks", nba.Team._blocks);
   ("turnovers", nba.Team._turnovers);
   ("personal_fouls", nba.Team._personal_fouls);
   ("points", nba.Team._points);
   ("opp_field_goals", nba.Team._opp_field_goals);
   ("opp_field_goal_attempts", nba.Team._opp_field_goal_attempts);
   ("opp_field_goal_percentage", nba.Team._opp_field_goal_percentage);
   ("opp_three_point_field_goals", nba.Team._opp_three_point_field_goals);
   ("opp_three_point_field_goal_attempts", nba.Team._opp_three_point_field_goal_attempts);
   ("opp_three_point_field_goal_percentage", nba.Team._opp_three_point_field_goal_percentage);
   ("opp_two_point_field_goals", nba.Team._opp_two_point_field_goals);
   ("opp_two_point_field_goal_attempts", nba.Team._opp_two_point_field_goal_attempts);
   ("opp_two_point_field_goal_percentage", nba.Team._opp_two_point_field_goal_percentage);
   ("opp_free_throws", nba.Team._opp_free_throws);
   ("opp_free_throw_attempts", nba.Team._opp_free_throw_attempts);
   ("opp_free_throw_percentage", nba.Team._opp_free_throw_percentage);
   ("opp_offensive_rebounds", nba.Team._opp_offensive_rebounds);
   ("opp_defensive_rebounds", nba.Team._opp_defensive_rebounds);
   ("opp_total_rebounds", nba.Team._opp_total_rebounds);
   ("opp_assists", nba.Team._opp_assists);
   ("opp_steals", nba.Team._opp_steals);
   ("opp_blocks", nba.Team._opp_blocks);
   ("opp_turnovers", nba.Team._opp_turnovers);
   ("opp_personal_fouls", nba.Team._opp_personal_fouls);
   ("opp_points", nba.Team._opp_points)].

(** The properties of [Team] that return the stored text. *)
Definition Team_text_cells
    : list (string * (nba.Team.t -> option string)) :=
  [("abbreviation", nba.Team.abbreviation);
   ("name", nba.Team.name)].

(** The properties of [Team] that return [int] of a cell, by cell. *)
Definition Team_int_cells
    : list (string * (nba.Team.t -> Py.result Z)) :=
  [("games_played", nba.Team.games_played);
   ("minutes_played", nba.Team.minutes_played);
   ("field_goals", nba.Team.field_goals);
   ("field_goal_attempts", nba.Team.field_goal_attempts);
   ("three_point_field_goals", nba.Team.three_point_field_goals);
   ("three_point_field_goal_attempts", nba.Team.three_point_field_goal_attempts);
   ("two_point_field_goals", nba.Team.two_point_field_goals);
   ("two_point_field_goal_attempts", nba.Team.two_point_field_goal_attempts);
   ("free_throws", nba.Team.free_throws);
   ("free_throw_attempts", nba.Team.free_throw_attempts);
   ("offensive_rebounds", nba.Team.offensive_rebounds);
   ("defensive_rebounds", nba.Team.defensive_rebounds);
   ("total_rebounds", nba.Team.total_rebounds);
   ("assists", nba.Team.assists);
   ("steals", nba.Team.steals);
   ("blocks", nba.Team.blocks);
   ("turnovers", nba.Team.turnovers);
   ("personal_fouls", nba.Team.personal_fouls);
   ("points", nba.Team.points);
   ("opp_field_goals", nba.Team.opp_field_goals);
   ("opp_field_goal_attempts", nba.Team.opp_field_goal_attempts);
   ("opp_three_point_field_goals", nba.Team.opp_three_point_field_goals);
   ("opp_three_point_field_goal_attempts", nba.Team.opp_three_point_field_goal_attempts);
   ("opp_two_point_field_goals", nba.Team.opp_two_point_field_goals);
   ("opp_two_point_field_goal_attempts", nba.Team.opp_two_point_field_goal_attempts);
   ("opp_free_throws", nba.Team.opp_free_throws);
   ("opp_free_throw_attempts", nba.Team.opp_free_throw_attempts);
   ("opp_offensive_rebounds", nba.Team.opp_offensive_rebounds);
   ("opp_defensive_rebounds", nba.Team.opp_defensive_rebounds);
   ("opp_total_rebounds", nba.Team.opp_total_rebounds);
   ("opp_assists", nba.Team.opp_assists);
   ("opp_steals", nba.Team.opp_steals);
   ("opp_blocks", nba.Team.opp_blocks);
   ("opp_turnovers", nba.Team.opp_turnovers);
   ("opp_personal_fouls", nba.Team.opp_personal_fouls);
   ("opp_points", nba.Team.opp_points)].

(** The properties of [Team] that return [float] of a cell, by cell. *)
Definition Team_float_cells
    : list (string * (nba.Team.t -> Py.result Py.pyfloat)) :=
  [("field_goal_percentage", nba.Team.field_goal_percentage);
   ("three_point_field_goal_percentage", nba.Team.three_point_field_goal_percentage);
   ("two_point_field_goal_percentage", nba.Team.two_point_field_goal_percentage);
   ("free_throw_percentage", nba.Team.free_throw_percentage);
   ("opp_field_goal_percentage", nba.Team.opp_field_goal_percentage);
   ("opp_three_point_field_goal_percentage", nba.Team.opp_three_point_field_goal_percentage);
   ("opp_two_point_field_goal_percentage", nba.Team.opp_two_point_field_goal_percentage);
   ("opp_free_throw_percentage", nba.Team.opp_free_throw_percentage)].

(** The attributes of [Game] that [_parse_game_data] sets to the field of
    their name; [_opponent_abbr] and [_boxscore] have parsers of their own. *)
Definition Game_attributes
    : list (string * (nhl.Game.t -> option string)) :=
  [("game", nhl.Game._game);
   ("date", nhl.Game._date);
   ("time", nhl.Game._time);
   ("location", nhl.Game._location);
   ("opponent_name", nhl.Game._opponent_name);
   ("goals_scored", nhl.Game._goals_scored);
   ("goals_allowed", nhl.Game._goals_allowed);
   ("result", nhl.Game._result);
   ("overtime", nhl.Game._overtime);
   ("wins", nhl.Game._wins);
   ("losses", nhl.Game._losses);
   ("overtime_losses", nhl.Game._overtime_losses);
   ("streak", nhl.Game._streak);
   ("shots_on_goal", nhl.Game._shots_on_goal);
   ("penalties_in_minutes", nhl.Game._penalties_in_minutes);
   ("power_play_goals", nhl.Game._power_play_goals);
   ("power_play_opportunities", nhl.Game._power_play_opportunities);
   ("short_handed_goals", nhl.Game._short_handed_goals);
   ("attendance", nhl.Game._attendance);
   ("length_of_game", nhl.Game._length_of_game)].

(** The properties of [Game] that return the stored text of a plain field. *)
Definition Game_text_cells
    : list (string * (nhl.Game.t -> option string)) :=
  [("date", nhl.Game.date);
   ("time", nhl.Game.time);
   ("opponent_name", nhl.Game.opponent_name);
   ("streak", nhl.Game.streak);
   ("length_of_game", nhl.Game.length_of_game)].

(** The properties of [Game] that return [int] of a cell, by cell. *)
Definition Game_int_cells
    : list (string * (nhl.Game.t -> Py.result Z)) :=
  [("game", nhl.Game.game);
   ("goals_scored", nhl.Game.goals_scored);
   ("goals_allowed", nhl.Game.goals_allowed);
   ("wins", nhl.Game.wins);
   ("losses", nhl.Game.losses);
   ("overtime_losses", nhl.Game.overtime_losses);
   ("shots_on_goal", nhl.Game.shots_on_goal);
   ("penalties_in_minutes", nhl.Game.penalties_in_minutes);
   ("power_play_goals", nhl.Game.power_play_goals);
   ("power_play_opportunities", nhl.Game.power_play_opportunities);
   ("short_handed_goals", nhl.Game.short_handed_goals)].

End Accessors.


(** ** Vocabulary for the table of games *)

Module ScheduleRows.

Section rows.

Variable Row : Type.
Variable row_str : Row -> string.
Variable Doc : Type.
Variable pq : string -> Doc.
Variable SCHEDULE_URL : string -> string -> string.
Variable get_stats_table : Doc -> string -> list Row.
Variable find_year_for_season : string -> string.

(** The season whose page is read. *)
Definition season (year : option string) : string :=
  if nhl.Schedule.no_year year then find_year_for_season "nhl" else Py.str year.

(** The rows of the table of games of a team. *)
Definition rows (abbreviation : string) (year : option string) : list Row :=
  get_stats_table (pq (SCHEDULE_URL (season year) abbreviation)) "table#games".

(** The rows that are not header rows. *)
Definition played (abbreviation : string) (year : option string) : list Row :=
  filter (fun item => negb (nhl.Schedule.is_thead Row row_str item))
         (rows abbreviation year).

End rows.

End ScheduleRows.

(** ** Vocabulary for dates and times *)

Module Clock.

(** [r] is what is left of [s] after a prefix. *)
Definition suffix (r s : string) : Prop := exists pre, s = pre ++ r.

(** The texts of the table: a date as [YYYY-MM-DD], and a time on the
    12-hour clock as [H:MM AM] or [H:MM PM]. *)

Definition digit_char (n : Z) : ascii := ascii_of_N (Z.to_N (48 + n)).

Definition two_digits (n : Z) : string :=
  String (digit_char (n / 10)) (String (digit_char (n mod 10)) EmptyString).

Definition four_digits (n : Z) : string :=
  two_digits (n / 100) ++ two_digits (n mod 100).

Definition hour12 (h : Z) : Z := if h mod 12 =? 0 then 12 else h mod 12.

Definition hour_text (h : Z) : string :=
  if hour12 h <? 10 then String (digit_char (hour12 h)) EmptyString
  else two_digits (hour12 h).

Definition date_text (Y m d : Z) : string :=
  four_digits Y ++ "-" ++ two_digits m ++ "-" ++ two_digits d.

Definition time_text (h M : Z) : string :=
  hour_text h ++ ":" ++ two_digits M ++ " " ++ (if h <? 12 then "AM" else "PM").

End Clock.

(** ** Vocabulary for the scans of the two lookups *)

Module Scan.

(** The team has an abbreviation, and it is not [q] in any letter case. *)
Definition other_team (q : string) (team : nba.Team.t) : Prop :=
  exists a, nba.Team.abbreviation team = Some a /\ Py.upper a <> Py.upper q.

(** The game has a date and time in the format of the schedule, on
    another day than [date]. *)
Definition other_day (date : Py.datetime) (game : nhl.Game.t) : Prop :=
  exists d, nhl.Game.datetime game = Py.Ok d /\ ~ Lookup.same_day d date.

End Scan.
(** ** A small season and a small schedule, for the examples *)

Module Demo.

(** A row is written as its cells, each closed by [;], and the scheme
    gives the column of a field.  The opponent columns follow the offense
    columns, as they do once the two rows of a team are joined. *)
Definition Scheme : Type := list (string * nat).

Fixpoint cells (cell row : string) : list string :=
  match row with
  | EmptyString => []
  | String c r =>
      if Ascii.eqb c ";" then cell :: cells EmptyString r
      else cells (cell ++ String c EmptyString) r
  end.

Fixpoint column (scheme : Scheme) (field : string) : option nat :=
  match scheme with
  | [] => None
  | (name, i) :: rest => if String.eqb name field then Some i else column rest field
  end.

Definition _parse_field (scheme : Scheme) (row field : string) : option string :=
  match column scheme field with
  | Some i => nth_error (cells EmptyString row) i
  | None => None
  end.

Definition PARSING_SCHEME : Scheme :=
  [("abbreviation", 0%nat); ("name", 1%nat);
   ("field_goal_percentage", 2%nat); ("points", 3%nat);
   ("opp_field_goal_percentage", 6%nat); ("opp_points", 7%nat)].

(** A page is its two tables. *)
Definition Doc : Type := (list string * list string)%type.

Definition page : Doc :=
  (["GSW;Golden State Warriors;.495;9304;";
    "HOU;Houston Rockets;.462;9458;";
    "DET;Detroit Pistons;.449;8335;"],
   ["DET;Detroit Pistons;.461;8421;";
    "GSW;Golden State Warriors;.435;8350;";
    "HOU;Houston Rockets;.463;8981;"]).

Definition pq (url : string) : Doc := page.

Definition SEASON_PAGE_URL (year : string) : string :=
  "https://www.basketball-reference.com/leagues/NBA_" ++ year ++ ".html".

Definition _get_stats_table (doc : Doc) (container : string) : list string :=
  if String.eqb container "div#all_team-stats-base" then fst doc else snd doc.

Definition _find_year_for_season (league : string) : string := "2018".

Definition teams : list nba.Team.t :=
  nba.Teams.__init__ Scheme PARSING_SCHEME _parse_field Doc pq
    SEASON_PAGE_URL _get_stats_table _find_year_for_season (Some "2018").

Definition team (text : string) : nba.Team.t :=
  nba.Team.__init__ Scheme PARSING_SCHEME _parse_field text 1 (Some "2018").

(** A game of the schedule, given the cells that the examples vary. *)
Definition game (date time result overtime attendance : string) : nhl.Game.t :=
  {| nhl.Game._game := Some "1";
     nhl.Game._date := Some date;
     nhl.Game._time := Some time;
     nhl.Game._boxscore := Some "201710050DET.html";
     nhl.Game._location := Some "@";
     nhl.Game._opponent_abbr := Some "NYR";
     nhl.Game._opponent_name := Some "New York Rangers";
     nhl.Game._goals_scored := Some "2";
     nhl.Game._goals_allowed := Some "4";
     nhl.Game._result := Some result;
     nhl.Game._overtime := Some overtime;
     nhl.Game._wins := Some "0";
     nhl.Game._losses := Some "1";
     nhl.Game._overtime_losses := Some "0";
     nhl.Game._streak := Some "L 1";
     nhl.Game._shots_on_goal := Some "31";
     nhl.Game._penalties_in_minutes := Some "8";
     nhl.Game._power_play_goals := Some "1";
     nhl.Game._power_play_opportunities := Some "3";
     nhl.Game._short_handed_goals := Some "0";
     nhl.Game._attendance := Some attendance;
     nhl.Game._length_of_game := Some "2:31" |}.

Definition games : list nhl.Game.t :=
  [game "2017-10-05" "7:00 PM" "L" "" "18,532";
   game "2017-10-07" "7:30 PM" "W" "OT" "17,565";
   game "2017-10-10" "8:00 PM" "L" "SO" "18,006"].

(** Two times on the day of the second game, and a day without a game. *)
Definition evening : Py.datetime := Py.mk_datetime 2017 10 7 19 30 0 0.
Definition morning : Py.datetime := Py.mk_datetime 2017 10 7 9 15 0 0.

Definition WIN : string := "Win".
Definition LOSS : string := "Loss".
Definition OVERTIME_LOSS : string := "OTL".
Definition SHOOTOUT : Z := 99.

End Demo.


(** ** More of the small season *)

Module DemoMore.

(** The team parsed from a text, at a rank. *)
Definition team_of (text : string) (rank : Z) : nba.Team.t :=
  nba.Team.__init__ Demo.Scheme Demo.PARSING_SCHEME Demo._parse_field
    text rank (Some "2018").

(** A page whose opponent table starts with a team that its offense
    table lacks. *)
Definition late_page : Demo.Doc :=
  (["GSW;Golden State Warriors;.495;9304;"],
   ["SEA;Seattle SuperSonics;.440;8000;";
    "GSW;Golden State Warriors;.435;8350;"]).



End DemoMore.

(** ** A small table of games, for the examples *)

Module DemoSchedule.

(** A row is given by its text, by the texts of its opponent and boxscore
    cells, and by the plain fields of the scheme. *)
Record Row : Type := mk_row {
  text : string;
  opp_name_cell : string;
  box_score_cell : string;
  fields : list (string * string)
}.

Definition Scheme : Type := unit.

Definition SCHEDULE_SCHEME : Scheme := tt.

Fixpoint lookup (name : string) (l : list (string * string)) : option string :=
  match l with
  | [] => None
  | (k, v) :: rest => if String.eqb k name then Some v else lookup name rest
  end.

Definition parse_field (scheme : Scheme) (row : Row) (field : string)
    : option string :=
  lookup field (fields row).

Definition query (row : Row) (selector : string) : string :=
  if String.eqb selector
       ("td[data-stat=" ++ Py.dq ++ "opp_name" ++ Py.dq ++ "]:first")
  then opp_name_cell row
  else if String.eqb selector
            ("td[data-stat=" ++ Py.dq ++ "box_score_text" ++ Py.dq ++ "]:first")
       then box_score_cell row
       else EmptyString.

Definition row_str (row : Row) : string := text row.

(** The cell that links to the opponent, and the one that links to the
    boxscore. *)
Definition opp_link (abbr name : string) : string :=
  "<td data-stat=" ++ Py.dq ++ "opp_name" ++ Py.dq ++ "><a href=" ++ Py.dq
  ++ "/teams/" ++ abbr ++ "/2018.html" ++ Py.dq ++ ">" ++ name ++ "</a></td>".

Definition box_link (file result : string) : string :=
  "<td data-stat=" ++ Py.dq ++ "box_score_text" ++ Py.dq ++ "><a href="
  ++ Py.dq ++ "/boxscores/" ++ file ++ Py.dq ++ ">" ++ result ++ "</a></td>".

Definition game_row (game date time abbr name file result overtime : string)
    : Row :=
  {| text := "<tr>" ++ opp_link abbr name ++ box_link file result ++ "</tr>";
     opp_name_cell := opp_link abbr name;
     box_score_cell := box_link file result;
     fields := [("game", game); ("date", date); ("time", time);
                ("opponent_name", name); ("result", result);
                ("overtime", overtime)] |}.

(** A row of an away game with every plain field of the scheme. *)
Definition away_row : Row :=
  {| text := "<tr>" ++ opp_link "NYR" "New York Rangers"
             ++ box_link "201710050NYR.html" "L" ++ "</tr>";
     opp_name_cell := opp_link "NYR" "New York Rangers";
     box_score_cell := box_link "201710050NYR.html" "L";
     fields := [("game", "1"); ("date", "2017-10-05"); ("time", "7:00 PM");
                ("location", "@"); ("opponent_name", "New York Rangers");
                ("goals_scored", "2"); ("goals_allowed", "4");
                ("result", "L"); ("overtime", "OT"); ("wins", "0");
                ("losses", "0"); ("overtime_losses", "1"); ("streak", "L 1");
                ("shots_on_goal", "31"); ("penalties_in_minutes", "8");
                ("power_play_goals", "1"); ("power_play_opportunities", "3");
                ("short_handed_goals", "0"); ("attendance", "18,532");
                ("length_of_game", "2:31")] |}.

Definition away_game : nhl.Game.t :=
  nhl.Game.__init__ Scheme SCHEDULE_SCHEME Row parse_field query away_row
    "2018".

Definition header_row : Row :=
  {| text := "<tr class=" ++ Py.dq ++ "thead" ++ Py.dq ++ "><th>GP</th></tr>";
     opp_name_cell := EmptyString;
     box_score_cell := EmptyString;
     fields := [("game", "GP"); ("date", "Date")] |}.

Definition table : list Row :=
  [game_row "1" "2017-10-05" "7:00 PM" "NYR" "New York Rangers"
            "201710050NYR.html" "L" "";
   header_row;
   game_row "2" "2017-10-07" "7:30 PM" "TOR" "Toronto Maple Leafs"
            "201710070TOR.html" "W" "OT"].

Definition Doc : Type := list Row.

Definition pq (url : string) : Doc := table.

Definition SCHEDULE_URL (year abbreviation : string) : string :=
  "https://www.hockey-reference.com/teams/" ++ abbreviation ++ "/" ++ year
  ++ "_games.html".

Definition get_stats_table (doc : Doc) (container : string) : list Row := doc.

Definition find_year_for_season (league : string) : string := "2018".

Definition schedule : list nhl.Game.t :=
  nhl.Schedule.__init__ Scheme SCHEDULE_SCHEME Row parse_field query row_str
    Doc pq SCHEDULE_URL get_stats_table find_year_for_season "DET" None.

End DemoSchedule.
(** ** A season whose cells carry their names *)

Module DemoKeyed.

(** A row is written as named cells, [<name>text], and a field is the
    text of the first cell of its name, up to the next cell.  A text
    without the cell has no such field, as with [utils._parse_field],
    which looks a cell up by the selector of the field. *)
Definition Scheme : Type := unit.

Definition PARSING_SCHEME : Scheme := tt.

(** What follows the first occurrence of [key] in [s]. *)
Fixpoint find_after (key s : string) : option string :=
  match Py.strip_prefix key s with
  | Some rest => Some rest
  | None =>
      match s with
      | EmptyString => None
      | String _ r => find_after key r
      end
  end.

Definition _parse_field (scheme : Scheme) (row field : string)
    : option string :=
  option_map (Py.before_first "<") (find_after ("<" ++ field ++ ">") row).

Definition Doc : Type := (list string * list string)%type.

Definition _get_stats_table (doc : Doc) (container : string) : list string :=
  if String.eqb container "div#all_team-stats-base" then fst doc else snd doc.

(** Detroit and Golden State are in both tables. *)
Definition page : Doc :=
  (["<abbreviation>GSW<name>Golden State Warriors<field_goal_percentage>.495<points>9304";
    "<abbreviation>DET<name>Detroit Pistons<field_goal_percentage>.449<points>8335"],
   ["<abbreviation>DET<name>Detroit Pistons<opp_field_goal_percentage>.461<opp_points>8421";
    "<abbreviation>GSW<name>Golden State Warriors<opp_field_goal_percentage>.435<opp_points>8350"]).

(** Seattle is in the opponent table only. *)
Definition late_page : Doc :=
  (["<abbreviation>GSW<name>Golden State Warriors<field_goal_percentage>.495<points>9304"],
   ["<abbreviation>SEA<name>Seattle SuperSonics<opp_field_goal_percentage>.440<opp_points>8000";
    "<abbreviation>GSW<name>Golden State Warriors<opp_field_goal_percentage>.435<opp_points>8350"]).

Definition teams_of (doc : Doc) : list nba.Team.t :=
  nba.Teams.__init__ Scheme PARSING_SCHEME _parse_field Doc (fun _ => doc)
    Demo.SEASON_PAGE_URL _get_stats_table Demo._find_year_for_season
    (Some "2018").

Definition team_of (text : string) (rank : Z) : nba.Team.t :=
  nba.Team.__init__ Scheme PARSING_SCHEME _parse_field text rank
    (Some "2018").

End DemoKeyed.

(** ** Facts about the built-ins *)

Module PyFacts.

Import Py Text.

Ltac by_cases_on_char c :=
  destruct c as [[] [] [] [] [] [] [] []]; try reflexivity; try discriminate.

Lemma digit_not_space (c : ascii) : is_digit c = true -> is_space c = false.
Proof. by_cases_on_char c. Qed.

Lemma digit_is_digitpart_char (c : ascii) :
  is_digit c = true -> is_digitpart_char c = true.
Proof. unfold is_digitpart_char. intros ->. reflexivity. Qed.

Lemma digit_value_range (c : ascii) :
  is_digit c = true -> 0 <= digit_value c <= 9.
Proof. by_cases_on_char c; intros _; vm_compute; split; discriminate. Qed.

Lemma lower_char_digit (c : ascii) : is_digit (lower_char c) = is_digit c.
Proof. by_cases_on_char c. Qed.

Lemma upper_char_idem (c : ascii) : upper_char (upper_char c) = upper_char c.
Proof. by_cases_on_char c. Qed.

Lemma upper_idem (s : string) : upper (upper s) = upper s.
Proof.
  induction s as [|c r IH]; simpl.
  - reflexivity.
  - now rewrite upper_char_idem, IH.
Qed.

Lemma lower_no_digit (s : string) : no_digit (lower s) = no_digit s.
Proof.
  induction s as [|c r IH]; simpl.
  - reflexivity.
  - now rewrite lower_char_digit, IH.
Qed.

(** Stripping leaves a digit string alone. *)

Lemma rstrip_keep (c : ascii) (r : string) :
  is_space c = false -> rstrip r = r -> rstrip (String c r) = String c r.
Proof.
  intros Hc Hr. simpl. rewrite Hr, Hc. destruct r; reflexivity.
Qed.

Lemma rstrip_all_digits (ds : string) : all_digits ds = true -> rstrip ds = ds.
Proof.
  induction ds as [|c r IH]; intros H.
  - reflexivity.
  - simpl in H. apply andb_true_iff in H as [Hc Hr].
    apply rstrip_keep; auto using digit_not_space.
Qed.

Lemma strip_all_digits (ds : string) : all_digits ds = true -> strip ds = ds.
Proof.
  intros H. unfold strip.
  destruct ds as [|c r].
  - reflexivity.
  - simpl in H. apply andb_true_iff in H as [Hc Hr].
    simpl. rewrite (digit_not_space c Hc).
    apply rstrip_keep; auto using digit_not_space, rstrip_all_digits.
Qed.

(** Digit strings are well-formed digit parts. *)

Lemma wf_from_all_digits (ds : string) :
  all_digits ds = true -> wf_digitpart_from false ds = true.
Proof.
  induction ds as [|c r IH]; intros H.
  - reflexivity.
  - simpl in H. apply andb_true_iff in H as [Hc Hr].
    simpl. rewrite Hc. auto.
Qed.

Lemma wf_all_digits (ds : string) :
  all_digits ds = true -> ds <> EmptyString -> wf_digitpart ds = true.
Proof.
  intros H Hne. destruct ds as [|c r]; [congruence|].
  unfold wf_digitpart. rewrite (wf_from_all_digits _ H).
  simpl in H. apply andb_true_iff in H as [-> _]. reflexivity.
Qed.

Lemma span_all_digits (ds : string) :
  all_digits ds = true -> span_digitpart ds = (ds, EmptyString).
Proof.
  induction ds as [|c r IH]; intros H.
  - reflexivity.
  - simpl in H. apply andb_true_iff in H as [Hc Hr].
    simpl. rewrite (digit_is_digitpart_char c Hc), (IH Hr). reflexivity.
Qed.

Lemma count_all_digits (ds : string) :
  all_digits ds = true -> count_digits ds = String.length ds.
Proof.
  induction ds as [|c r IH]; intros H.
  - reflexivity.
  - simpl in H. apply andb_true_iff in H as [Hc Hr].
    simpl. rewrite Hc, (IH Hr). reflexivity.
Qed.

(** The value of [n] digits lies below [10 ^ n]. *)
Lemma digits_value_bounds (ds : string) (acc : Z) :
  all_digits ds = true -> 0 <= acc ->
  acc * 10 ^ Z.of_nat (String.length ds) <= digits_value acc ds
  < (acc + 1) * 10 ^ Z.of_nat (String.length ds).
Proof.
  revert acc. induction ds as [|c r IH]; intros acc H Hacc.
  - simpl. lia.
  - simpl in H. apply andb_true_iff in H as [Hc Hr].
    cbn [digits_value String.length]. rewrite Hc.
    pose proof (digit_value_range c Hc) as Hd.
    specialize (IH (10 * acc + digit_value c) Hr ltac:(lia)).
    rewrite Nat2Z.inj_succ, Z.pow_succ_r by lia.
    set (p := 10 ^ Z.of_nat (String.length r)) in *.
    assert (0 < p) by (apply Z.pow_pos_nonneg; lia).
    nia.
Qed.

Lemma decimal_value_bounds (ds : string) :
  all_digits ds = true ->
  0 <= decimal_value ds < 10 ^ Z.of_nat (String.length ds).
Proof.
  intros H. pose proof (digits_value_bounds ds 0 H ltac:(lia)).
  unfold decimal_value. lia.
Qed.

(** [int] of a digit string is the number it denotes, unless the string
    has more digits than the limit. *)
Lemma int_of_str_digits (ds : string) :
  all_digits ds = true -> ds <> EmptyString ->
  int_of_str ds
  = if Z.of_nat (String.length ds) <=? int_max_str_digits
    then Ok (decimal_value ds) else Raise ValueError.
Proof.
  intros H Hne. unfold int_of_str. rewrite (strip_all_digits _ H).
  assert (Hs : split_sign ds = (false, ds)).
  { destruct ds as [|c r]; [congruence|].
    simpl in H. apply andb_true_iff in H as [Hc _]. revert Hc.
    by_cases_on_char c. }
  rewrite Hs, (wf_all_digits _ H Hne), (count_all_digits _ H).
  reflexivity.
Qed.

Lemma int_of_str_all_digits (ds : string) :
  all_digits ds = true -> ds <> EmptyString ->
  Z.of_nat (String.length ds) <= int_max_str_digits ->
  int_of_str ds = Ok (decimal_value ds).
Proof.
  intros H Hne Hlen. rewrite (int_of_str_digits _ H Hne).
  apply Z.leb_le in Hlen. now rewrite Hlen.
Qed.

Lemma int_of_str_too_long (ds : string) :
  all_digits ds = true ->
  int_max_str_digits < Z.of_nat (String.length ds) ->
  int_of_str ds = Raise ValueError.
Proof.
  intros H Hlen.
  assert (Hne : ds <> EmptyString).
  { intros ->. unfold int_max_str_digits in Hlen. simpl in Hlen. lia. }
  rewrite (int_of_str_digits _ H Hne).
  apply Z.leb_gt in Hlen. now rewrite Hlen.
Qed.

(** [re.findall('\d+', s)]. *)

Lemma findall_no_digit (s : string) :
  no_digit s = true -> findall_digits s = [].
Proof.
  induction s as [|c r IH]; intros H.
  - reflexivity.
  - simpl in H. apply andb_true_iff in H as [Hc Hr].
    apply negb_true_iff in Hc. simpl. rewrite Hc. auto.
Qed.

Lemma findall_skip (pre s : string) :
  no_digit pre = true -> findall_digits (pre ++ s) = findall_digits s.
Proof.
  induction pre as [|c r IH]; intros H.
  - reflexivity.
  - simpl in H. apply andb_true_iff in H as [Hc Hr].
    apply negb_true_iff in Hc. simpl. rewrite Hc. auto.
Qed.

Lemma findall_first_run (ds post : string) :
  all_digits ds = true -> ds <> EmptyString ->
  starts_with_digit post = false ->
  exists runs, findall_digits (ds ++ post) = ds :: runs.
Proof.
  intros H Hne Hpost. induction ds as [|c r IH]; [congruence|].
  simpl in H. apply andb_true_iff in H as [Hc Hr].
  cbn [append findall_digits]. rewrite Hc.
  destruct r as [|c' r'].
  - cbn [append]. rewrite Hpost.
    destruct (findall_digits post) as [|run runs]; eauto.
  - destruct (IH Hr ltac:(discriminate)) as [runs Hruns].
    rewrite Hruns. cbn [append starts_with_digit].
    simpl in Hr. apply andb_true_iff in Hr as [-> _]. eauto.
Qed.

Lemma findall_runs_are_numbers (s : string) :
  Forall (fun run => all_digits run = true /\ run <> EmptyString)
         (findall_digits s).
Proof.
  induction s as [|c r IH]; cbn [findall_digits].
  - constructor.
  - destruct (is_digit c) eqn:Hc; [|exact IH].
    destruct (findall_digits r) as [|run runs].
    + constructor; [|constructor]. simpl. rewrite Hc. split; [reflexivity|discriminate].
    + inversion IH as [|? ? [Hrun Hne] Hruns]; subst.
      destruct (starts_with_digit r).
      * constructor; [|assumption]. simpl. rewrite Hc, Hrun.
        split; [reflexivity|discriminate].
      * constructor; [|assumption]. simpl. rewrite Hc.
        split; [reflexivity|discriminate].
Qed.

(** Every text starts with a run of digits, which may be empty, that no
    digit follows. *)
Lemma leading_run (s : string) :
  exists ds post,
    s = ds ++ post /\ all_digits ds = true /\ starts_with_digit post = false.
Proof.
  induction s as [|c r IH].
  - exists EmptyString, EmptyString. auto.
  - destruct (is_digit c) eqn:Hc.
    + destruct IH as [ds [post [-> [Hds Hpost]]]].
      exists (String c ds), post. simpl. rewrite Hc. auto.
    + exists EmptyString, (String c r). simpl. rewrite Hc. auto.
Qed.

(** A text has no digit, or it has a first run of digits. *)
Lemma first_run (s : string) :
  no_digit s = true
  \/ exists pre ds post,
       s = pre ++ ds ++ post /\ no_digit pre = true /\ all_digits ds = true
       /\ ds <> EmptyString /\ starts_with_digit post = false.
Proof.
  induction s as [|c r IH].
  - left. reflexivity.
  - destruct (is_digit c) eqn:Hc.
    + right. destruct (leading_run r) as [ds [post [-> [Hds Hpost]]]].
      exists EmptyString, (String c ds), post. simpl. rewrite Hc.
      repeat split; auto. discriminate.
    + destruct IH as [Hr | [pre [ds [post [-> [Hpre [Hds [Hne Hpost]]]]]]]].
      * left. simpl. now rewrite Hc, Hr.
      * right. exists (String c pre), ds, post. simpl. rewrite Hc.
        repeat split; auto.
Qed.

(** A text with a digit is neither "ot" nor "so" in any letter case. *)
Lemma digit_text_not_word (pre ds post w : string) :
  all_digits ds = true -> ds <> EmptyString -> no_digit w = true ->
  String.eqb (lower (pre ++ ds ++ post)) w = false.
Proof.
  intros H Hne Hw. apply String.eqb_neq. intros E.
  rewrite <- E, lower_no_digit in Hw. clear E.
  induction pre as [|c r IH].
  - destruct ds as [|d ds']; [congruence|].
    simpl in H, Hw. apply andb_true_iff in H as [Hd _]. rewrite Hd in Hw.
    discriminate.
  - simpl in Hw. apply andb_true_iff in Hw as [_ Hw]. auto.
Qed.

(** Rounding to the nearest integer does not pass an integer. *)
Lemma round_half_even_bounds (num den k : Z) :
  0 < den -> 0 <= num <= den * k -> 0 <= round_half_even num den <= k.
Proof.
  intros Hden [H0 Hk]. unfold round_half_even.
  pose proof (Z.div_mod num den ltac:(lia)) as E.
  pose proof (Z.mod_pos_bound num den Hden) as B.
  set (m := num / den) in *. set (r := num mod den) in *.
  assert (0 <= m) by nia.
  assert (m <= k) by (apply (Z.mul_le_mono_pos_l _ _ den); lia).
  assert (r = 0 \/ m < k).
  { destruct (Z.eq_dec r 0); [now left|right].
    apply (Z.mul_lt_mono_pos_l den); lia. }
  destruct (Z.compare_spec (2 * r) den); [destruct (Z.even m)|..]; lia.
Qed.

(** Rounding to binary64 keeps a number of the interval from 0 to 1 in
    that interval. *)
Lemma binary64_unit (n d : Z) :
  0 <= n <= d -> 0 < d ->
  exists q, binary64 n d = Finite q /\ (0 <= q /\ q <= 1)%Q.
Proof.
  intros [H0 Hd] Hpos. unfold binary64.
  destruct (n =? 0) eqn:En.
  - exists 0%Q. split; [reflexivity|]. split; discriminate.
  - apply Z.eqb_neq in En.
    assert (Ht : Z.log2 n - Z.log2 d <= 0).
    { pose proof (Z.log2_le_mono n d Hd). lia. }
    set (t := Z.log2 n - Z.log2 d) in *.
    set (L := if d * 2 ^ Z.max 0 t <=? n * 2 ^ Z.max 0 (- t) then t else t - 1).
    assert (HL : L <= 0) by (unfold L; destruct (_ <=? _); lia).
    set (e := Z.max (L - 52) (- 1074)).
    assert (He : e < 0) by (unfold e; lia).
    assert (E0 : (0 <=? e) = false) by (apply Z.leb_gt; exact He).
    rewrite E0. cbn [andb].
    replace (Z.max 0 (- e)) with (- e) by lia.
    replace (Z.max 0 e) with 0 by lia.
    rewrite Z.pow_0_r, Z.mul_1_r.
    assert (Hp : 0 < 2 ^ (- e)) by (apply Z.pow_pos_nonneg; lia).
    pose proof (round_half_even_bounds (n * 2 ^ (- e)) d (2 ^ (- e)) Hpos
                  ltac:(nia)) as Hm.
    set (m := round_half_even (n * 2 ^ (- e)) d) in *.
    eexists. split; [reflexivity|].
    unfold scale2. rewrite E0, Qred_correct.
    unfold Qle. cbn [Qnum Qden]. rewrite Z2Pos.id by assumption. lia.
Qed.

(** [float] of a decimal fraction written [.d...d]. *)

Lemma scale10_fraction (m : Z) (n : nat) :
  (0 < n)%nat -> 0 <= m < 10 ^ Z.of_nat n ->
  (0 <= scale10 m (0 - Z.of_nat n) /\ scale10 m (0 - Z.of_nat n) < 1)%Q.
Proof.
  intros Hn Hm. unfold scale10.
  destruct (0 <=? 0 - Z.of_nat n) eqn:E; [apply Z.leb_le in E; lia|].
  replace (- (0 - Z.of_nat n)) with (Z.of_nat n) by lia.
  assert (Hp : 0 < 10 ^ Z.of_nat n) by (apply Z.pow_pos_nonneg; lia).
  rewrite Qred_correct. unfold Qle, Qlt. cbn [Qnum Qden].
  rewrite Z2Pos.id by assumption. lia.
Qed.

Lemma float_of_fraction (ds : string) :
  all_digits ds = true -> ds <> EmptyString ->
  exists q, float_of_str (String "." ds) = Ok (Finite q)
            /\ (0 <= q /\ q <= 1)%Q.
Proof.
  intros H Hne.
  assert (Hstrip : strip (String "." ds) = String "." ds).
  { unfold strip. cbn [lstrip]. change (is_space ".") with false. cbv iota.
    apply rstrip_keep; [reflexivity|]. now apply rstrip_all_digits. }
  unfold float_of_str. rewrite Hstrip.
  cbn [split_sign lower]. change (lower_char ".") with "."%char.
  cbn [String.eqb Ascii.eqb Bool.eqb orb].
  unfold decimal. cbn [span_digitpart].
  change (is_digitpart_char ".") with false. cbv iota.
  rewrite (span_all_digits _ H).
  cbn [part_ok is_empty andb exponent].
  assert (Hpart : part_ok ds = true).
  { destruct ds; [congruence|]. now apply wf_all_digits. }
  rewrite Hpart. cbn [negb andb digits_value].
  rewrite (count_all_digits _ H).
  assert (Hempty : is_empty ds = false) by (destruct ds; [congruence|reflexivity]).
  rewrite Hempty. cbn [negb].
  assert (Hq : (0 <= scale10 (digits_value 0 ds) (0 - Z.of_nat (String.length ds))
                /\ scale10 (digits_value 0 ds) (0 - Z.of_nat (String.length ds)) < 1)%Q).
  { apply scale10_fraction.
    - destruct ds; [congruence|]. simpl. lia.
    - now apply decimal_value_bounds. }
  destruct Hq as [Hq0 Hq1].
  set (q := scale10 (digits_value 0 ds) (0 - Z.of_nat (String.length ds))) in *.
  destruct (binary64_unit (Qnum q) (QDen q)) as [q' [-> Hq']].
  - unfold Qle, Qlt in Hq0, Hq1. cbn [Qnum Qden] in Hq0, Hq1. lia.
  - reflexivity.
  - exists q'. split; [reflexivity|exact Hq'].
Qed.

(** [s.replace(',', '')] changes nothing in a text without commas. *)
Lemma remove_char_lacks (c : ascii) (s : string) :
  lacks c s = true -> remove_char c s = s.
Proof.
  induction s as [|a r IH]; intros H.
  - reflexivity.
  - simpl in H. apply andb_true_iff in H as [Ha Hr].
    apply negb_true_iff in Ha. simpl. rewrite Ha, (IH Hr). reflexivity.
Qed.

(** The built-ins at work. *)

Example int_of_str_examples :
  map int_of_str [" 12 "; "+5"; "-3"; "1_000"; "010"]
  = [Ok 12; Ok 5; Ok (-3); Ok 1000; Ok 10]
  /\ map int_of_str [""; "_1"; "1__0"; "1_"; "18,532"; "- 3"; "+"; "1.0"]
     = repeat (Raise ValueError) 8
  /\ int_of_str (Text.replicate 4300 "1")
     = Ok (decimal_value (Text.replicate 4300 "1"))
  /\ map int_of_str
       [Text.replicate 4301 "1"; Text.replicate 4301 "0";
        "-" ++ Text.replicate 4301 "7"]
     = repeat (Raise ValueError) 3.
Proof. repeat split; vm_compute; reflexivity. Qed.

Example float_of_str_examples :
  map float_of_str [".5"; "1.5"; "1."; " .25 "; "1e3"; "-1E-3"; "1_0.5"]
  = [Ok (Finite (1 # 2)); Ok (Finite (3 # 2)); Ok (Finite 1);
     Ok (Finite (1 # 4)); Ok (Finite 1000);
     Ok (Finite (- 1152921504606847 # 1152921504606846976));
     Ok (Finite (21 # 2))]
  /\ map float_of_str [".449"; "0.1"]
     = [Ok (Finite (8088464930757411 # 18014398509481984));
        Ok (Finite (3602879701896397 # 36028797018963968))]
  /\ map float_of_str
       [".99999999999999999999"; "9007199254740993"; "1e400"; "-1e400";
        "1e-400"; "5e-324"]
     = [Ok (Finite 1); Ok (Finite 9007199254740992); Ok (Infinite false);
        Ok (Infinite true); Ok (Finite 0);
        Ok (Finite (scale2 1 (- 1074)))]
  /\ map float_of_str ["inf"; "-Infinity"; "NaN"]
     = [Ok (Infinite false); Ok (Infinite true); Ok NaN]
  /\ map float_of_str [""; "."; "1e"; "1._5"; ".e1"; "--1"]
     = repeat (Raise ValueError) 6.
Proof. repeat split; vm_compute; reflexivity. Qed.

Example findall_digits_examples :
  map findall_digits ["OT"; "2OT"; "3ot 12"; ""]
  = [[]; ["2"]; ["3"; "12"]; []].
Proof. reflexivity. Qed.

Example strptime_examples :
  strptime "2017-10-05 7:00 PM" = Ok (mk_datetime 2017 10 5 19 0 0 0)
  /\ strptime "2017-1-05 12:00 am" = Ok (mk_datetime 2017 1 5 0 0 0 0)
  /\ strptime "2016-02-29 11:59 pM" = Ok (mk_datetime 2016 2 29 23 59 0 0)
  /\ map strptime ["None None"; "2017-02-30 7:00 PM"; "2017-10-05 13:00 PM";
                   "2017-10-05 7:00PM"; "2017-10-05 7:00 PM "]
     = repeat (Raise ValueError) 5.
Proof. repeat split; reflexivity. Qed.

End PyFacts.
(** ** The row aggregator *)

Module AggregateFacts.

Import nba.Teams Aggregate.

Lemma append_assoc (a b c : string) : (a ++ b) ++ c = a ++ (b ++ c).
Proof. induction a as [|x a IH]; simpl; [reflexivity|now rewrite IH]. Qed.

Lemma append_empty_r (a : string) : a ++ EmptyString = a.
Proof. induction a as [|x a IH]; simpl; [reflexivity|now rewrite IH]. Qed.

Lemma key_eqb_eq (a b : key) : key_eqb a b = true <-> a = b.
Proof.
  destruct a as [x|], b as [y|]; simpl; try (split; congruence).
  rewrite String.eqb_eq. split; congruence.
Qed.

Lemma key_eqb_refl (a : key) : key_eqb a a = true.
Proof. now apply key_eqb_eq. Qed.

Lemma key_eqb_sym (a b : key) : key_eqb a b = key_eqb b a.
Proof.
  destruct (key_eqb a b) eqn:E1, (key_eqb b a) eqn:E2; try reflexivity.
  - apply key_eqb_eq in E1. subst. now rewrite key_eqb_refl in E2.
  - apply key_eqb_eq in E2. subst. now rewrite key_eqb_refl in E1.
Qed.

Lemma mem_In (k : key) (ks : list key) : mem k ks = true <-> In k ks.
Proof.
  unfold mem. rewrite existsb_exists. split.
  - intros [x [Hx E]]. apply key_eqb_eq in E. now subst.
  - intros H. exists k. split; [assumption|apply key_eqb_refl].
Qed.

(** The dictionary. *)

Lemma dict_get_set (d : dict) (k k' : key) (v : stats) :
  dict_get (dict_set d k v) k' = if key_eqb k k' then Some v else dict_get d k'.
Proof.
  induction d as [|[k0 v0] rest IH]; simpl.
  - reflexivity.
  - destruct (key_eqb k0 k) eqn:E0; simpl.
    + apply key_eqb_eq in E0. subst k0.
      destruct (key_eqb k k'); reflexivity.
    + rewrite IH. destruct (key_eqb k0 k') eqn:E1; [|reflexivity].
      apply key_eqb_eq in E1. subst k0.
      rewrite key_eqb_sym, E0. reflexivity.
Qed.

Lemma keys_set (d : dict) (k : key) (v : stats) :
  keys (dict_set d k v)
  = if mem k (keys d) then keys d else (keys d ++ [k])%list.
Proof.
  induction d as [|[k0 v0] rest IH]; simpl.
  - reflexivity.
  - rewrite (key_eqb_sym k k0). destruct (key_eqb k0 k); simpl.
    + reflexivity.
    + unfold keys in *. rewrite IH.
      destruct (mem k (map fst rest)); reflexivity.
Qed.

Lemma dict_get_mem (d : dict) (k : key) :
  mem k (keys d) = match dict_get d k with Some _ => true | None => false end.
Proof.
  induction d as [|[k0 v0] rest IH]; simpl.
  - reflexivity.
  - rewrite (key_eqb_sym k k0). destruct (key_eqb k0 k); simpl; auto.
Qed.

(** With no key twice, the values are read off the keys. *)
Lemma values_by_key {A : Type} (f : key -> A) (g : stats -> A) (d : dict) :
  NoDup (keys d) ->
  (forall k v, dict_get d k = Some v -> f k = g v) ->
  map g (values d) = map f (keys d).
Proof.
  induction d as [|[k0 v0] rest IH]; intros Hnd Hfg; simpl.
  - reflexivity.
  - inversion Hnd as [|? ? Hnotin Hnd']; subst. f_equal.
    + symmetry. apply Hfg. simpl. now rewrite key_eqb_refl.
    + apply IH; [assumption|]. intros k v Hget. apply Hfg. simpl.
      destruct (key_eqb k0 k) eqn:E; [|assumption].
      apply key_eqb_eq in E. subst k0. exfalso. apply Hnotin.
      apply mem_In. rewrite dict_get_mem, Hget. reflexivity.
Qed.

(** Keys in order of first appearance. *)

Lemma first_seen_app (seen l1 l2 : list key) :
  first_seen seen (l1 ++ l2) = first_seen (first_seen seen l1) l2.
Proof.
  revert seen. induction l1 as [|k l1 IH]; intros seen; simpl; auto.
Qed.

Lemma first_seen_In (seen ks : list key) (k : key) :
  In k (first_seen seen ks) <-> In k seen \/ In k ks.
Proof.
  revert seen. induction ks as [|k0 ks IH]; intros seen; simpl.
  - tauto.
  - rewrite IH. destruct (mem k0 seen) eqn:E.
    + apply mem_In in E. split; [tauto|]. intros [H|[H|H]]; subst; auto.
    + rewrite in_app_iff. simpl. tauto.
Qed.

Lemma first_seen_NoDup (seen ks : list key) :
  NoDup seen -> NoDup (first_seen seen ks).
Proof.
  revert seen. induction ks as [|k0 ks IH]; intros seen Hnd; simpl.
  - assumption.
  - apply IH. destruct (mem k0 seen) eqn:E; [assumption|].
    apply NoDup_app; [assumption|repeat constructor; intros []|].
    intros x Hx [Hx'|[]]. subst x. apply mem_In in Hx. congruence.
Qed.

Lemma index_of_mem (k : key) (ks : list key) :
  mem k ks = match index_of k ks with Some _ => true | None => false end.
Proof.
  induction ks as [|k0 ks IH]; simpl.
  - reflexivity.
  - rewrite (key_eqb_sym k k0). destruct (key_eqb k0 k); simpl; [reflexivity|].
    fold (mem k ks). rewrite IH. destruct (index_of k ks); reflexivity.
Qed.

Section loop.

Variable Scheme : Type.
Variable PARSING_SCHEME : Scheme.
Variable _parse_field : Scheme -> string -> string -> option string.
Variable Doc : Type.
Variable pq : string -> Doc.
Variable SEASON_PAGE_URL : string -> string.
Variable _get_stats_table : Doc -> string -> list string.
Variable _find_year_for_season : string -> string.

Local Abbreviation add_from :=
  (_add_stats_data_from Scheme PARSING_SCHEME _parse_field).
Local Abbreviation abbr_of := (abbr_of Scheme PARSING_SCHEME _parse_field).
Local Abbreviation rows_of := (rows_of Scheme PARSING_SCHEME _parse_field).
Local Abbreviation merged := (merged Scheme PARSING_SCHEME _parse_field).
Local Abbreviation first_rank :=
  (first_rank Scheme PARSING_SCHEME _parse_field).
Local Abbreviation after := (after Scheme PARSING_SCHEME _parse_field).
Local Abbreviation both := (both Scheme PARSING_SCHEME _parse_field).
Local Abbreviation season := (season _find_year_for_season).
Local Abbreviation offense_table :=
  (offense_table Doc pq SEASON_PAGE_URL _get_stats_table _find_year_for_season).
Local Abbreviation opponent_table :=
  (opponent_table Doc pq SEASON_PAGE_URL _get_stats_table _find_year_for_season).
Local Abbreviation abbreviations :=
  (abbreviations Scheme PARSING_SCHEME _parse_field Doc pq SEASON_PAGE_URL
     _get_stats_table _find_year_for_season).
Local Abbreviation retrieve :=
  (_retrieve_all_teams Scheme PARSING_SCHEME _parse_field Doc pq
     SEASON_PAGE_URL _get_stats_table _find_year_for_season).
Local Abbreviation new_team :=
  (nba.Team.__init__ Scheme PARSING_SCHEME _parse_field).

Lemma keys_add_from (rows : list string) (r : Z) (d : dict) :
  keys (add_from r rows d) = first_seen (keys d) (map abbr_of rows).
Proof.
  revert r d. induction rows as [|row rows IH]; intros r d; simpl.
  - reflexivity.
  - rewrite IH. f_equal. fold (abbr_of row).
    destruct (dict_get d (abbr_of row)) eqn:E; rewrite keys_set; reflexivity.
Qed.

Lemma get_add_from (rows : list string) (r : Z) (d : dict) (k : key) :
  dict_get (add_from r rows d) k = after r rows k (dict_get d k).
Proof.
  revert r d. induction rows as [|row rows IH]; intros r d.
  - simpl. destruct (dict_get d k) as [[dat rk]|]; simpl.
    + now rewrite append_empty_r.
    + reflexivity.
  - cbn [_add_stats_data_from]. rewrite IH. fold (abbr_of row).
    unfold Aggregate.after, Aggregate.rows_of. cbn [map filter index_of].
    destruct (key_eqb (abbr_of row) k) eqn:E.
    + apply key_eqb_eq in E. subst k.
      destruct (dict_get d (abbr_of row)) as [v|] eqn:G;
        rewrite dict_get_set, key_eqb_refl; cbn [data rank join fold_right].
      * now rewrite append_assoc.
      * now rewrite Z.add_0_r.
    + assert (G : forall v, dict_get (dict_set d (abbr_of row) v) k = dict_get d k).
      { intros v. now rewrite dict_get_set, E. }
      destruct (dict_get d (abbr_of row)); rewrite G;
        (destruct (dict_get d k); [reflexivity|]);
        (destruct (index_of k (map abbr_of rows)); cbn [option_map];
         [do 2 f_equal; lia|reflexivity]).
Qed.

(** A row that comes later never changes a rank that is set. *)
Lemma rank_kept (rows : list string) (r : Z) (d : dict) (k : key) (v : stats) :
  dict_get d k = Some v ->
  exists v', dict_get (add_from r rows d) k = Some v' /\ rank v' = rank v.
Proof.
  intros H. rewrite get_add_from, H. simpl. eauto.
Qed.

Lemma index_of_none_rows (k : key) (rows : list string) :
  index_of k (map abbr_of rows) = None -> rows_of k rows = [].
Proof.
  induction rows as [|row rows IH]; simpl.
  - reflexivity.
  - fold (abbr_of row). destruct (key_eqb (abbr_of row) k); [discriminate|].
    destruct (index_of k (map abbr_of rows)); [discriminate|]. auto.
Qed.

Lemma keys_both (offense opponent : list string) :
  keys (both offense opponent)
  = first_seen [] (map abbr_of (offense ++ opponent)).
Proof.
  unfold Aggregate.both, _add_stats_data. cbn [fold_left].
  rewrite !keys_add_from, map_app, first_seen_app. reflexivity.
Qed.

Lemma get_both (offense opponent : list string) (k : key) (v : stats) :
  dict_get (both offense opponent) k = Some v ->
  data v = merged offense opponent k
  /\ rank v = first_rank offense opponent k.
Proof.
  unfold Aggregate.both, _add_stats_data, Aggregate.merged, Aggregate.first_rank.
  cbn [fold_left].
  rewrite !get_add_from. cbn [dict_get Aggregate.after].
  assert (Hr : forall n, 1 + Z.of_nat n = Z.of_nat n + 1) by (intros; lia).
  destruct (index_of k (map abbr_of offense)) as [i|] eqn:Ei.
  - rewrite Hr. cbn [Aggregate.after data rank]. intros E. injection E as <-.
    split; reflexivity.
  - rewrite (index_of_none_rows _ _ Ei).
    cbn [Aggregate.after join fold_right append].
    destruct (index_of k (map abbr_of opponent)) as [j|]; [|discriminate].
    rewrite Hr. intros E. injection E as <-. split; reflexivity.
Qed.

(** The teams of a season, abbreviation by abbreviation. *)
Lemma retrieve_by_abbreviation (year : option string) :
  retrieve year
  = map (fun k =>
           new_team (merged (offense_table year) (opponent_table year) k)
                    (first_rank (offense_table year) (opponent_table year) k)
                    (Some (season year)))
        (abbreviations year).
Proof.
  unfold _retrieve_all_teams, Aggregate.abbreviations.
  fold (season year). fold (offense_table year). fold (opponent_table year).
  fold (both (offense_table year) (opponent_table year)).
  rewrite <- keys_both. apply values_by_key.
  - rewrite keys_both. apply first_seen_NoDup. constructor.
  - intros k v Hget. apply get_both in Hget as [-> ->]. reflexivity.
Qed.

End loop.

End AggregateFacts.

(** ** The teams of a season *)

Module Season.

Import nba.Teams Aggregate AggregateFacts Accessors.

Lemma join_app (a b : list string) : join (a ++ b) = join a ++ join b.
Proof.
  induction a as [|x a IH]; simpl.
  - reflexivity.
  - now rewrite IH, append_assoc.
Qed.

Lemma join_around (row : string) (rows : list string) :
  In row rows -> exists before after, join rows = before ++ row ++ after.
Proof.
  intros Hin. destruct (in_split _ _ Hin) as [l1 [l2 ->]].
  exists (join l1), (join l2). now rewrite join_app.
Qed.

(** The named cells of the examples are found wherever they stand. *)

Lemma strip_prefix_keeps_tail (m s t post : string) :
  Py.strip_prefix m s = Some t -> Py.strip_prefix m (s ++ post) = Some (t ++ post).
Proof.
  revert s. induction m as [|a m IH]; intros s; simpl.
  - now intros [= ->].
  - destruct s as [|b s]; [discriminate|]. simpl.
    destruct (Ascii.eqb a b); [apply IH|discriminate].
Qed.

Lemma find_after_app_r (key s post : string) :
  DemoKeyed.find_after key s <> None ->
  DemoKeyed.find_after key (s ++ post) <> None.
Proof.
  induction s as [|c r IH]; intros H.
  - simpl in H. destruct (Py.strip_prefix key EmptyString) as [t|] eqn:E;
      [|congruence].
    apply (strip_prefix_keeps_tail _ _ _ post) in E. simpl in E.
    destruct post; simpl; rewrite E; discriminate.
  - cbn [append DemoKeyed.find_after] in *.
    destruct (Py.strip_prefix key (String c r)) as [t|] eqn:E.
    + apply (strip_prefix_keeps_tail _ _ _ post) in E. cbn [append] in E.
      rewrite E. discriminate.
    + destruct (Py.strip_prefix key (String c (r ++ post)));
        [discriminate|auto].
Qed.

Lemma find_after_app_l (key pre s : string) :
  DemoKeyed.find_after key s <> None ->
  DemoKeyed.find_after key (pre ++ s) <> None.
Proof.
  intros H. induction pre as [|c r IH]; [exact H|].
  cbn [append DemoKeyed.find_after].
  destruct (Py.strip_prefix key (String c (r ++ s))); [discriminate|exact IH].
Qed.

Lemma keyed_finds_in_part :
  finds_in_part (DemoKeyed._parse_field DemoKeyed.PARSING_SCHEME).
Proof.
  intros before row after field H. unfold DemoKeyed._parse_field in *.
  destruct (DemoKeyed.find_after ("<" ++ field ++ ">") row) eqn:E;
    [|now elim H].
  assert (Hfound : DemoKeyed.find_after ("<" ++ field ++ ">")
                     (before ++ row ++ after) <> None).
  { apply find_after_app_l, find_after_app_r. rewrite E. discriminate. }
  destruct (DemoKeyed.find_after ("<" ++ field ++ ">")
              (before ++ row ++ after)); [discriminate|now elim Hfound].
Qed.

Section season.

Variable Scheme : Type.
Variable PARSING_SCHEME : Scheme.
Variable _parse_field : Scheme -> string -> string -> option string.
Variable Doc : Type.
Variable pq : string -> Doc.
Variable SEASON_PAGE_URL : string -> string.
Variable _get_stats_table : Doc -> string -> list string.
Variable _find_year_for_season : string -> string.

Local Abbreviation add_from :=
  (_add_stats_data_from Scheme PARSING_SCHEME _parse_field).
Local Abbreviation abbr_of := (abbr_of Scheme PARSING_SCHEME _parse_field).
Local Abbreviation rows_of := (rows_of Scheme PARSING_SCHEME _parse_field).
Local Abbreviation first_rank :=
  (first_rank Scheme PARSING_SCHEME _parse_field).
Local Abbreviation season := (season _find_year_for_season).
Local Abbreviation offense_table :=
  (offense_table Doc pq SEASON_PAGE_URL _get_stats_table _find_year_for_season).
Local Abbreviation opponent_table :=
  (opponent_table Doc pq SEASON_PAGE_URL _get_stats_table _find_year_for_season).
Local Abbreviation abbreviations :=
  (abbreviations Scheme PARSING_SCHEME _parse_field Doc pq SEASON_PAGE_URL
     _get_stats_table _find_year_for_season).
Local Abbreviation retrieve :=
  (_retrieve_all_teams Scheme PARSING_SCHEME _parse_field Doc pq
     SEASON_PAGE_URL _get_stats_table _find_year_for_season).
Local Abbreviation new_team :=
  (nba.Team.__init__ Scheme PARSING_SCHEME _parse_field).

Local Abbreviation cell := (_parse_field PARSING_SCHEME).

(** A team is built from the text it is given and from nothing else:
    each of its 46 attributes is the field that the parser reads off the
    text under the name of the attribute. *)
Lemma team_attributes_parsed (text : string) (r : Z) (y : option string) :
  Forall (fun p => snd p (new_team text r y) = cell text (fst p))
         Team_attributes.
Proof. repeat constructor. Qed.

(** The team at the place of an abbreviation. *)
Lemma team_at (year : option string) (n : nat) (k : key) (team : nba.Team.t) :
  nth_error (abbreviations year) n = Some k ->
  nth_error (retrieve year) n = Some team ->
  team = new_team (join (rows_of k (offense_table year))
                   ++ join (rows_of k (opponent_table year)))
                  (first_rank (offense_table year) (opponent_table year) k)
                  (Some (season year)).
Proof.
  intros Hk Ht. rewrite retrieve_by_abbreviation, nth_error_map, Hk in Ht.
  cbn [option_map] in Ht. now injection Ht as <-.
Qed.

(** C1, as amended.  For every season document, reading the offense table
    and then the opponent table gives exactly one [Team] per distinct
    abbreviation: the abbreviations are listed without repetition, they
    are exactly the abbreviations of the rows of the two tables, there
    are as many teams as abbreviations, and the list of teams is,
    abbreviation by abbreviation, the [Team] built from the concatenation
    of the offense rows and then the opponent rows that carry the
    abbreviation.  Each of the 46 attributes of the record, offense or
    opponent, is the field that the parser reads off that one text, so
    that an attribute is populated exactly when the parser finds its
    field there.  With a parser that finds in a text what it finds in a
    part of it, every field that a row of the team has is populated in
    the record, whichever table the row is from.  A team without a row
    in one of the tables is built from its rows of the other alone. *)
Theorem one_team_per_abbreviation (year : option string) :
  NoDup (abbreviations year)
  /\ (forall k, In k (abbreviations year) <->
        exists row, In row (offense_table year ++ opponent_table year)
                    /\ abbr_of row = k)
  /\ List.length (retrieve year) = List.length (abbreviations year)
  /\ retrieve year
     = map (fun k =>
              new_team (join (rows_of k (offense_table year))
                        ++ join (rows_of k (opponent_table year)))
                       (first_rank (offense_table year) (opponent_table year) k)
                       (Some (season year)))
           (abbreviations year)
  /\ (forall text r y,
        Forall (fun p => snd p (new_team text r y) = cell text (fst p))
               Team_attributes
        /\ nba.Team._rank (new_team text r y) = r
        /\ nba.Team._year (new_team text r y) = y)
  /\ (forall n k team field attribute,
        nth_error (abbreviations year) n = Some k ->
        nth_error (retrieve year) n = Some team ->
        In (field, attribute) Team_attributes ->
        (attribute team <> None <->
         cell (join (rows_of k (offense_table year))
               ++ join (rows_of k (opponent_table year))) field <> None))
  /\ (finds_in_part cell ->
      forall n k team field attribute row,
        nth_error (abbreviations year) n = Some k ->
        nth_error (retrieve year) n = Some team ->
        In (field, attribute) Team_attributes ->
        In row (offense_table year ++ opponent_table year) ->
        abbr_of row = k ->
        cell row field <> None ->
        attribute team <> None)
  /\ (forall k,
        ~ In k (map abbr_of (offense_table year)) ->
        join (rows_of k (offense_table year))
        ++ join (rows_of k (opponent_table year))
        = join (rows_of k (opponent_table year)))
  /\ (forall k,
        ~ In k (map abbr_of (opponent_table year)) ->
        join (rows_of k (offense_table year))
        ++ join (rows_of k (opponent_table year))
        = join (rows_of k (offense_table year))).
Proof.
  assert (Hattr : forall n k team field attribute,
            nth_error (abbreviations year) n = Some k ->
            nth_error (retrieve year) n = Some team ->
            In (field, attribute) Team_attributes ->
            attribute team
            = cell (join (rows_of k (offense_table year))
                    ++ join (rows_of k (opponent_table year))) field).
  { intros n k team field attribute Hk Ht Hin.
    rewrite (team_at year n k team Hk Ht).
    pose proof (team_attributes_parsed
                  (join (rows_of k (offense_table year))
                   ++ join (rows_of k (opponent_table year)))
                  (first_rank (offense_table year) (opponent_table year) k)
                  (Some (season year))) as Hall.
    rewrite Forall_forall in Hall. exact (Hall _ Hin). }
  assert (Hnone : forall k rows,
            ~ In k (map abbr_of rows) -> rows_of k rows = []).
  { intros k rows Hk.
    apply (index_of_none_rows Scheme PARSING_SCHEME _parse_field).
    destruct (index_of k (map abbr_of rows)) eqn:E; [|reflexivity].
    exfalso. apply Hk, mem_In. rewrite index_of_mem. fold abbr_of.
    now rewrite E. }
  split; [|split; [|split; [|split; [|split; [|split; [|split; [|split]]]]]]].
  - apply first_seen_NoDup. constructor.
  - intros k. unfold Aggregate.abbreviations.
    rewrite first_seen_In, in_map_iff. simpl. split.
    + intros [[]|[row [E Hrow]]]. exists row. split; assumption.
    + intros [row [Hrow E]]. right. exists row. split; assumption.
  - rewrite retrieve_by_abbreviation. apply length_map.
  - apply retrieve_by_abbreviation.
  - intros text r y. split; [apply team_attributes_parsed|].
    split; reflexivity.
  - intros n k team field attribute Hk Ht Hin.
    now rewrite (Hattr n k team field attribute Hk Ht Hin).
  - intros Hparser n k team field attribute row Hk Ht Hin Hrow Habbr Hcell.
    rewrite (Hattr n k team field attribute Hk Ht Hin).
    assert (Hkeep : key_eqb (abbr_of row) k = true)
      by (apply key_eqb_eq; exact Habbr).
    apply in_app_iff in Hrow as [Hrow|Hrow].
    + assert (Hin' : In row (rows_of k (offense_table year))).
      { unfold Aggregate.rows_of. apply filter_In. split; assumption. }
      destruct (join_around _ _ Hin') as [before [after ->]].
      rewrite !append_assoc. now apply Hparser.
    + assert (Hin' : In row (rows_of k (opponent_table year))).
      { unfold Aggregate.rows_of. apply filter_In. split; assumption. }
      destruct (join_around _ _ Hin') as [before [after ->]].
      rewrite <- append_assoc. now apply Hparser.
  - intros k Hk. now rewrite (Hnone k _ Hk).
  - intros k Hk. rewrite (Hnone k _ Hk). apply append_empty_r.
Qed.

(** C2.  For every team of the offense table, the rank stored in its
    [Team] record, and returned by the [rank] property, is one more than
    the 0-based position of the team's first row in the offense table:
    the record stands in the list of teams where the abbreviation stands
    in the list of abbreviations.  A row added later, from either table,
    leaves the rank of a bound abbreviation as it is. *)
Theorem rank_is_first_offense_position
    (year : option string) (k : key) (i : nat) :
  index_of k (map abbr_of (offense_table year)) = Some i ->
  (exists n t,
      nth_error (abbreviations year) n = Some k
      /\ nth_error (retrieve year) n = Some t
      /\ nba.Team._rank t = Z.of_nat i + 1
      /\ nba.Team.rank t = Py.Ok (Z.of_nat i + 1))
  /\ (forall rows r d v,
        dict_get d k = Some v ->
        exists v', dict_get (add_from r rows d) k = Some v'
                   /\ rank v' = rank v).
Proof.
  intros Hi. split.
  - assert (Hin : In k (abbreviations year)).
    { unfold Aggregate.abbreviations. rewrite first_seen_In. right.
      rewrite map_app, in_app_iff. left.
      apply mem_In. rewrite index_of_mem. fold abbr_of. now rewrite Hi. }
    destruct (In_nth_error _ _ Hin) as [n Hn].
    exists n. eexists. split; [exact Hn|].
    rewrite retrieve_by_abbreviation, nth_error_map, Hn. cbn [option_map].
    split; [reflexivity|].
    unfold nba.Team.rank. cbn [nba.Team.__init__ nba.Team._parse_team_data nba.Team._rank].
    unfold Aggregate.first_rank. fold abbr_of. rewrite Hi. split; reflexivity.
  - intros rows r d v. apply rank_kept.
Qed.

End season.

(** The season of the examples: Detroit is third in the offense table and
    first in the opponent table. *)
Lemma rank_is_first_offense_position_demo :
  index_of (Some "DET")
    (map (abbr_of Demo.Scheme Demo.PARSING_SCHEME Demo._parse_field)
         (offense_table Demo.Doc Demo.pq Demo.SEASON_PAGE_URL
            Demo._get_stats_table Demo._find_year_for_season (Some "2018")))
  = Some 2%nat
  /\ exists n t,
       nth_error
         (abbreviations Demo.Scheme Demo.PARSING_SCHEME Demo._parse_field
            Demo.Doc Demo.pq Demo.SEASON_PAGE_URL Demo._get_stats_table
            Demo._find_year_for_season (Some "2018")) n = Some (Some "DET")
       /\ nth_error Demo.teams n = Some t
       /\ nba.Team._rank t = 3
       /\ nba.Team.rank t = Py.Ok 3.
Proof.
  split; [reflexivity|].
  exact (proj1 (rank_is_first_offense_position
                  Demo.Scheme Demo.PARSING_SCHEME Demo._parse_field
                  Demo.Doc Demo.pq Demo.SEASON_PAGE_URL Demo._get_stats_table
                  Demo._find_year_for_season (Some "2018") (Some "DET") 2%nat
                  eq_refl)).
Defined.

(** In the season of named cells, Detroit has a row in each table, and
    its record holds the points of the one and of the other. *)
Lemma one_team_per_abbreviation_demo :
  finds_in_part (DemoKeyed._parse_field DemoKeyed.PARSING_SCHEME)
  /\ (forall team,
        nth_error (DemoKeyed.teams_of DemoKeyed.page) 1 = Some team ->
        nba.Team._abbreviation team <> None
        /\ nba.Team._points team <> None
        /\ nba.Team._opp_points team <> None).
Proof.
  split; [exact keyed_finds_in_part|].
  intros team Hteam.
  pose proof (proj1 (proj2 (proj2 (proj2 (proj2 (proj2 (proj2
                (one_team_per_abbreviation
                   DemoKeyed.Scheme DemoKeyed.PARSING_SCHEME
                   DemoKeyed._parse_field DemoKeyed.Doc
                   (fun _ => DemoKeyed.page) Demo.SEASON_PAGE_URL
                   DemoKeyed._get_stats_table Demo._find_year_for_season
                   (Some "2018"))))))))
                keyed_finds_in_part 1%nat (Some "DET") team) as Hrow.
  split; [|split].
  - apply (Hrow "abbreviation" nba.Team._abbreviation
             "<abbreviation>DET<name>Detroit Pistons<field_goal_percentage>.449<points>8335"
             eq_refl Hteam).
    + unfold Team_attributes. simpl. tauto.
    + vm_compute. tauto.
    + reflexivity.
    + discriminate.
  - apply (Hrow "points" nba.Team._points
             "<abbreviation>DET<name>Detroit Pistons<field_goal_percentage>.449<points>8335"
             eq_refl Hteam).
    + unfold Team_attributes. simpl. tauto.
    + vm_compute. tauto.
    + reflexivity.
    + discriminate.
  - apply (Hrow "opp_points" nba.Team._opp_points
             "<abbreviation>DET<name>Detroit Pistons<opp_field_goal_percentage>.461<opp_points>8421"
             eq_refl Hteam).
    + unfold Team_attributes. simpl. tauto.
    + vm_compute. tauto.
    + reflexivity.
    + discriminate.
Defined.

(** C1, as stated, fails for a team that one table lacks.  Seattle has a
    row in the opponent table only: the season has one record for it,
    built from that row, and the record holds the opponent fields and
    none of the offense fields. *)
Lemma team_of_one_table :
  DemoKeyed.teams_of DemoKeyed.late_page
  = [DemoKeyed.team_of
       ("<abbreviation>GSW<name>Golden State Warriors<field_goal_percentage>.495<points>9304"
        ++ "<abbreviation>GSW<name>Golden State Warriors<opp_field_goal_percentage>.435<opp_points>8350")
       1;
     DemoKeyed.team_of
       "<abbreviation>SEA<name>Seattle SuperSonics<opp_field_goal_percentage>.440<opp_points>8000"
       1]
  /\ (forall team,
        nth_error (DemoKeyed.teams_of DemoKeyed.late_page) 1 = Some team ->
        nba.Team._abbreviation team = Some "SEA"
        /\ nba.Team._opp_points team = Some "8000"
        /\ nba.Team._opp_field_goal_percentage team = Some ".440"
        /\ nba.Team._points team = None
        /\ nba.Team._field_goal_percentage team = None
        /\ nba.Team.points team = Py.Raise Py.TypeError).
Proof.
  split; [vm_compute; reflexivity|].
  intros team Hteam. vm_compute in Hteam. injection Hteam as <-.
  repeat split.
Qed.

(** In the season of the examples each team has its offense and its
    opponent percentage, and the rank of its offense row. *)
Example demo_teams_fields :
  map (fun team =>
         (nba.Team.abbreviation team, nba.Team.rank team,
          nba.Team._field_goal_percentage team,
          nba.Team._opp_field_goal_percentage team))
      Demo.teams
  = [(Some "GSW", Py.Ok 1, Some ".495", Some ".435");
     (Some "HOU", Py.Ok 2, Some ".462", Some ".463");
     (Some "DET", Py.Ok 3, Some ".449", Some ".461")].
Proof. reflexivity. Qed.

End Season.

(** ** Lookup by abbreviation and by date *)

Module LookupFacts.

Import Py Lookup.


Lemma same_dayb_same_day (d date : datetime) :
  same_dayb d date = true <-> same_day d date.
Proof.
  unfold same_dayb, same_day. rewrite !andb_true_iff, !Z.eqb_eq. tauto.
Qed.






(** The season and the schedule of the examples. *)




End LookupFacts.

(** ** The typed accessors *)

Module AccessorFacts.

Import Py Text Accessors PyFacts.

(** *** Overtime and result *)

(** The overtime code of a text that has a first run of digits: the
    number that the run writes, as long as [int] takes that many
    digits. *)
Lemma overtime_first_run (SHOOTOUT : Z) (game : nhl.Game.t)
    (pre ds post : string) :
  nhl.Game._overtime game = Some (pre ++ ds ++ post) ->
  no_digit pre = true -> all_digits ds = true -> ds <> EmptyString ->
  starts_with_digit post = false ->
  nhl.Game.overtime SHOOTOUT game
  = if Z.of_nat (String.length ds) <=? int_max_str_digits
    then Ok (decimal_value ds) else Raise ValueError.
Proof.
  intros Htext Hpre Hds Hne Hpost. unfold nhl.Game.overtime. rewrite Htext.
  rewrite !(digit_text_not_word pre ds post) by (assumption || reflexivity).
  assert (Hnonempty : String.eqb (pre ++ ds ++ post) EmptyString = false).
  { apply String.eqb_neq. destruct pre; [|discriminate].
    destruct ds; [congruence|discriminate]. }
  rewrite Hnonempty, (findall_skip pre _ Hpre).
  destruct (findall_first_run ds post Hds Hne Hpost) as [runs ->].
  now apply int_of_str_digits.
Qed.

(** The overtime code of a text without digits that is not one of the
    two words. *)
Lemma overtime_no_digit (SHOOTOUT : Z) (game : nhl.Game.t) (text : string) :
  nhl.Game._overtime game = Some text ->
  no_digit text = true -> lower text <> "ot" -> lower text <> "so" ->
  nhl.Game.overtime SHOOTOUT game = Ok 0.
Proof.
  intros Htext Hnone Hot Hso. unfold nhl.Game.overtime. rewrite Htext.
  apply String.eqb_neq in Hot, Hso. rewrite Hot, Hso.
  rewrite (findall_no_digit _ Hnone).
  destruct (String.eqb text EmptyString); reflexivity.
Qed.

(** The overtime code of a text is a number, unless the first run of
    digits of the text is longer than [int] takes; [ValueError] is then
    raised. *)
Lemma overtime_returns_or_long (SHOOTOUT : Z) (game : nhl.Game.t)
    (text : string) :
  nhl.Game._overtime game = Some text ->
  (exists n, nhl.Game.overtime SHOOTOUT game = Ok n)
  \/ (nhl.Game.overtime SHOOTOUT game = Raise ValueError
      /\ exists pre ds post,
           text = pre ++ ds ++ post /\ no_digit pre = true
           /\ all_digits ds = true /\ starts_with_digit post = false
           /\ int_max_str_digits < Z.of_nat (String.length ds)).
Proof.
  intros Htext.
  destruct (String.eqb (lower text) "ot") eqn:Eot.
  { left. unfold nhl.Game.overtime. rewrite Htext, Eot. eauto. }
  destruct (String.eqb (lower text) "so") eqn:Eso.
  { left. unfold nhl.Game.overtime. rewrite Htext, Eot, Eso. eauto. }
  apply String.eqb_neq in Eot, Eso.
  destruct (first_run text)
    as [Hnone | [pre [ds [post [-> [Hpre [Hds [Hne Hpost]]]]]]]].
  - left. exists 0. now apply overtime_no_digit with (text := text).
  - rewrite (overtime_first_run SHOOTOUT game pre ds post)
      by assumption.
    destruct (Z.leb_spec (Z.of_nat (String.length ds)) int_max_str_digits).
    + left. eauto.
    + right. split; [reflexivity|].
      exists pre, ds, post. repeat split; assumption.
Qed.

(** C10, as amended.  The overtime code of a text: 1 for "ot" and
    [SHOOTOUT] for "so" in any letter case, 0 for the empty text, 0 for
    any other text without digits, and for a text with a digit the number
    written by its first run of digits, provided the run has at most
    4300 digits; a longer first run raises [ValueError], and that is the
    only text on which the property does not return. *)
Theorem overtime_total (SHOOTOUT : Z) (game : nhl.Game.t) (text : string) :
  nhl.Game._overtime game = Some text ->
  (lower text = "ot" -> nhl.Game.overtime SHOOTOUT game = Ok 1)
  /\ (lower text = "so" -> nhl.Game.overtime SHOOTOUT game = Ok SHOOTOUT)
  /\ (text = EmptyString -> nhl.Game.overtime SHOOTOUT game = Ok 0)
  /\ (forall pre ds post,
        text = pre ++ ds ++ post ->
        no_digit pre = true -> all_digits ds = true -> ds <> EmptyString ->
        starts_with_digit post = false ->
        (Z.of_nat (String.length ds) <= int_max_str_digits ->
           nhl.Game.overtime SHOOTOUT game = Ok (decimal_value ds))
        /\ (int_max_str_digits < Z.of_nat (String.length ds) ->
            nhl.Game.overtime SHOOTOUT game = Raise ValueError))
  /\ (no_digit text = true -> lower text <> "ot" -> lower text <> "so" ->
        nhl.Game.overtime SHOOTOUT game = Ok 0)
  /\ ((exists n, nhl.Game.overtime SHOOTOUT game = Ok n)
      \/ (nhl.Game.overtime SHOOTOUT game = Raise ValueError
          /\ exists pre ds post,
               text = pre ++ ds ++ post /\ no_digit pre = true
               /\ all_digits ds = true /\ starts_with_digit post = false
               /\ int_max_str_digits < Z.of_nat (String.length ds))).
Proof.
  intros Htext.
  split; [|split; [|split; [|split; [|split]]]].
  - intros E. unfold nhl.Game.overtime. rewrite Htext, E. reflexivity.
  - intros E. unfold nhl.Game.overtime. rewrite Htext, E. reflexivity.
  - intros E. unfold nhl.Game.overtime. rewrite Htext, E. reflexivity.
  - intros pre ds post E Hpre Hds Hne Hpost. subst text.
    rewrite (overtime_first_run SHOOTOUT game pre ds post) by assumption.
    split; intros Hlen.
    + apply Z.leb_le in Hlen. now rewrite Hlen.
    + apply Z.leb_gt in Hlen. now rewrite Hlen.
  - now apply overtime_no_digit.
  - now apply overtime_returns_or_long.
Qed.

(** C10, as stated, fails: the property is not total.  A text of 4301
    digits has a first decimal number, and [int] does not convert it. *)
Lemma overtime_of_long_number :
  all_digits (replicate 4301 "1") = true
  /\ nhl.Game.overtime Demo.SHOOTOUT
       (Demo.game "2017-10-05" "7:00 PM" "L" (replicate 4301 "1") "18,532")
     = Raise ValueError
  /\ ~ (exists n,
          nhl.Game.overtime Demo.SHOOTOUT
            (Demo.game "2017-10-05" "7:00 PM" "L" (replicate 4301 "1")
               "18,532")
          = Ok n).
Proof.
  assert (E : nhl.Game.overtime Demo.SHOOTOUT
                (Demo.game "2017-10-05" "7:00 PM" "L" (replicate 4301 "1")
                   "18,532")
              = Raise ValueError) by (vm_compute; reflexivity).
  split; [vm_compute; reflexivity|]. split; [exact E|].
  intros [n Hn]. rewrite E in Hn. discriminate Hn.
Qed.

(** C3.  The result of a game: a text that reads "w" in any letter case
    gives [WIN]; a text that reads "L" (in any letter case) gives
    [OVERTIME_LOSS] when the overtime code is not zero and [LOSS] when it
    is zero. *)
Theorem result_derivation
    (WIN LOSS OVERTIME_LOSS : string) (SHOOTOUT : Z)
    (game : nhl.Game.t) (text : string) :
  nhl.Game._result game = Some text ->
  (lower text = "w" ->
     nhl.Game.result WIN LOSS OVERTIME_LOSS SHOOTOUT game = Ok WIN)
  /\ (lower text = "l" ->
      forall n, nhl.Game.overtime SHOOTOUT game = Ok n -> n <> 0 ->
      nhl.Game.result WIN LOSS OVERTIME_LOSS SHOOTOUT game = Ok OVERTIME_LOSS)
  /\ (lower text = "l" ->
      nhl.Game.overtime SHOOTOUT game = Ok 0 ->
      nhl.Game.result WIN LOSS OVERTIME_LOSS SHOOTOUT game = Ok LOSS).
Proof.
  intros Htext. unfold nhl.Game.result. rewrite Htext.
  split; [|split].
  - intros ->. reflexivity.
  - intros -> n -> Hn. cbn [String.eqb Ascii.eqb Bool.eqb bind].
    apply Z.eqb_neq in Hn. now rewrite Hn.
  - intros -> ->. reflexivity.
Qed.

(** *** Coercions *)

Lemma coerces_propagates {T A : Type} (coerce : option string -> result A)
    (raw : T -> option string) (acc : T -> result A) :
  coerces coerce raw acc -> propagates coerce raw acc.
Proof. intros H x e He. now rewrite H. Qed.

Lemma Team_int_coerce :
  Forall (fun p => coerces int (fst p) (snd p)) Team_int_properties.
Proof. repeat constructor. Qed.

Lemma Team_float_coerce :
  Forall (fun p => coerces float (fst p) (snd p)) Team_float_properties.
Proof. repeat constructor. Qed.

Lemma Game_int_coerce :
  Forall (fun p => coerces int (fst p) (snd p)) Game_int_properties.
Proof. repeat constructor. Qed.

(** C6, as amended.  A malformed or missing field makes every property
    that is a bare [int(...)] or [float(...)] of the field raise the
    failure of the coercion unchanged: [TypeError] for [None],
    [ValueError] for the empty text.  [attendance] does so after it has
    removed the commas, and raises [AttributeError] on [None]. *)
Theorem coercion_failures_propagate :
  Forall (fun p => propagates int (fst p) (snd p)) Team_int_properties
  /\ Forall (fun p => propagates float (fst p) (snd p)) Team_float_properties
  /\ Forall (fun p => propagates int (fst p) (snd p)) Game_int_properties
  /\ (forall game text e,
        nhl.Game._attendance game = Some text ->
        int_of_str (remove_char "," text) = Raise e ->
        nhl.Game.attendance game = Raise e)
  /\ (forall game,
        nhl.Game._attendance game = None ->
        nhl.Game.attendance game = Raise AttributeError)
  /\ int None = Raise TypeError
  /\ int (Some EmptyString) = Raise ValueError
  /\ float None = Raise TypeError
  /\ float (Some EmptyString) = Raise ValueError.
Proof.
  repeat split.
  - eapply Forall_impl; [|exact Team_int_coerce].
    intros p. apply coerces_propagates.
  - eapply Forall_impl; [|exact Team_float_coerce].
    intros p. apply coerces_propagates.
  - eapply Forall_impl; [|exact Game_int_coerce].
    intros p. apply coerces_propagates.
  - intros game text e Htext He. unfold nhl.Game.attendance.
    now rewrite Htext.
  - intros game Htext. unfold nhl.Game.attendance. now rewrite Htext.
Qed.

(** C6, as stated, fails for [overtime].  [int] rejects an empty overtime
    cell, and a cell such as "n/a", with [ValueError]; the overtime code
    of a game with either cell is 0. *)
Lemma overtime_substitutes_default :
  (int (Some EmptyString) = Raise ValueError
   /\ nhl.Game.overtime Demo.SHOOTOUT
        (Demo.game "2017-10-05" "7:00 PM" "L" "" "18,532") = Ok 0)
  /\ (int (Some "n/a") = Raise ValueError
      /\ nhl.Game.overtime Demo.SHOOTOUT
           (Demo.game "2017-10-05" "7:00 PM" "L" "n/a" "18,532") = Ok 0)
  /\ ~ propagates int nhl.Game._overtime (nhl.Game.overtime Demo.SHOOTOUT).
Proof.
  split; [split; reflexivity|]. split; [split; reflexivity|].
  intros H.
  specialize (H (Demo.game "2017-10-05" "7:00 PM" "L" "n/a" "18,532")
                ValueError eq_refl).
  discriminate H.
Qed.

(** C7, as amended.  The properties of a [Game] built from a row, and of
    a [Team] built from a text, against the cells that the parser reads
    off that row or text.  The plain string properties return the text of
    their cell as it is, [length_of_game] among them; the [int] and
    [float] properties return [int] and [float] of the text of their
    cell; [rank] returns the rank that the record was built with.
    [location] is [AWAY] for the cell "@" and [HOME] for any other;
    [result] is [WIN] for "w", for "l" [LOSS] or [OVERTIME_LOSS] by the
    overtime code, and [LOSS] for any other text; [overtime] reads the
    words "ot" and "so", and the empty cell as 0.  Two properties do more
    than coerce: [attendance] takes the commas out of the text before
    [int], so that it is [int] of the cell only when the cell has no
    comma, and [opponent_abbr] is no cell text at all but a piece cut
    from the markup of the opponent cell: what follows the last "/teams/"
    of a line, up to the next "/". *)
Theorem accessors_apply_their_coercion
    (Scheme : Type) (SCHEDULE_SCHEME : Scheme) (Row : Type)
    (parse_field : Scheme -> Row -> string -> option string)
    (query : Row -> string -> string)
    (WIN LOSS OVERTIME_LOSS HOME AWAY : string) (SHOOTOUT : Z)
    (TeamScheme : Type) (PARSING_SCHEME : TeamScheme)
    (_parse_field : TeamScheme -> string -> string -> option string)
    (game_data : Row) (year : string)
    (team_data : string) (rank : Z) (season : option string) :
  Forall (fun p =>
            snd p (nhl.Game.__init__ Scheme SCHEDULE_SCHEME Row parse_field
                     query game_data year)
            = parse_field SCHEDULE_SCHEME game_data (fst p))
         Game_text_cells
  /\ Forall (fun p =>
               snd p (nhl.Game.__init__ Scheme SCHEDULE_SCHEME Row
                        parse_field query game_data year)
               = int (parse_field SCHEDULE_SCHEME game_data (fst p)))
            Game_int_cells
  /\ Forall (fun p =>
               snd p (nba.Team.__init__ TeamScheme PARSING_SCHEME
                        _parse_field team_data rank season)
               = _parse_field PARSING_SCHEME team_data (fst p))
            Team_text_cells
  /\ Forall (fun p =>
               snd p (nba.Team.__init__ TeamScheme PARSING_SCHEME
                        _parse_field team_data rank season)
               = int (_parse_field PARSING_SCHEME team_data (fst p)))
            Team_int_cells
  /\ Forall (fun p =>
               snd p (nba.Team.__init__ TeamScheme PARSING_SCHEME
                        _parse_field team_data rank season)
               = float (_parse_field PARSING_SCHEME team_data (fst p)))
            Team_float_cells
  /\ nba.Team.rank
       (nba.Team.__init__ TeamScheme PARSING_SCHEME _parse_field team_data
          rank season)
     = Ok rank
  /\ (parse_field SCHEDULE_SCHEME game_data "location" = Some "@" ->
      nhl.Game.location HOME AWAY
        (nhl.Game.__init__ Scheme SCHEDULE_SCHEME Row parse_field query
           game_data year)
      = AWAY)
  /\ (parse_field SCHEDULE_SCHEME game_data "location" <> Some "@" ->
      nhl.Game.location HOME AWAY
        (nhl.Game.__init__ Scheme SCHEDULE_SCHEME Row parse_field query
           game_data year)
      = HOME)
  /\ (forall text,
        parse_field SCHEDULE_SCHEME game_data "result" = Some text ->
        (lower text = "w" ->
           nhl.Game.result WIN LOSS OVERTIME_LOSS SHOOTOUT
             (nhl.Game.__init__ Scheme SCHEDULE_SCHEME Row parse_field query
                game_data year)
           = Ok WIN)
        /\ (lower text = "l" ->
            forall n,
              nhl.Game.overtime SHOOTOUT
                (nhl.Game.__init__ Scheme SCHEDULE_SCHEME Row parse_field
                   query game_data year)
              = Ok n ->
              nhl.Game.result WIN LOSS OVERTIME_LOSS SHOOTOUT
                (nhl.Game.__init__ Scheme SCHEDULE_SCHEME Row parse_field
                   query game_data year)
              = Ok (if n =? 0 then LOSS else OVERTIME_LOSS))
        /\ (lower text <> "w" -> lower text <> "l" ->
            nhl.Game.result WIN LOSS OVERTIME_LOSS SHOOTOUT
              (nhl.Game.__init__ Scheme SCHEDULE_SCHEME Row parse_field query
                 game_data year)
            = Ok LOSS))
  /\ (forall text,
        parse_field SCHEDULE_SCHEME game_data "overtime" = Some text ->
        (lower text = "ot" ->
           nhl.Game.overtime SHOOTOUT
             (nhl.Game.__init__ Scheme SCHEDULE_SCHEME Row parse_field query
                game_data year)
           = Ok 1)
        /\ (lower text = "so" ->
            nhl.Game.overtime SHOOTOUT
              (nhl.Game.__init__ Scheme SCHEDULE_SCHEME Row parse_field query
                 game_data year)
            = Ok SHOOTOUT)
        /\ (text = EmptyString ->
            nhl.Game.overtime SHOOTOUT
              (nhl.Game.__init__ Scheme SCHEDULE_SCHEME Row parse_field query
                 game_data year)
            = Ok 0))
  /\ (forall text,
        parse_field SCHEDULE_SCHEME game_data "attendance" = Some text ->
        nhl.Game.attendance
          (nhl.Game.__init__ Scheme SCHEDULE_SCHEME Row parse_field query
             game_data year)
        = int_of_str (remove_char "," text))
  /\ (forall text,
        parse_field SCHEDULE_SCHEME game_data "attendance" = Some text ->
        lacks "," text = true ->
        nhl.Game.attendance
          (nhl.Game.__init__ Scheme SCHEDULE_SCHEME Row parse_field query
             game_data year)
        = int (Some text))
  /\ nhl.Game.opponent_abbr
       (nhl.Game.__init__ Scheme SCHEDULE_SCHEME Row parse_field query
          game_data year)
     = Some (sub_from_first "/"
               (sub_through_last "/teams/"
                  (query game_data
                     ("td[data-stat=" ++ dq ++ "opp_name" ++ dq
                      ++ "]:first")))).
Proof.
  split; [repeat constructor|].
  split; [repeat constructor|].
  split; [repeat constructor|].
  split; [repeat constructor|].
  split; [repeat constructor|].
  split; [reflexivity|].
  set (g := nhl.Game.__init__ Scheme SCHEDULE_SCHEME Row parse_field query
              game_data year).
  assert (Hloc : nhl.Game._location g
                 = parse_field SCHEDULE_SCHEME game_data "location")
    by reflexivity.
  assert (Hres : nhl.Game._result g
                 = parse_field SCHEDULE_SCHEME game_data "result")
    by reflexivity.
  assert (Hot : nhl.Game._overtime g
                = parse_field SCHEDULE_SCHEME game_data "overtime")
    by reflexivity.
  assert (Hatt : nhl.Game._attendance g
                 = parse_field SCHEDULE_SCHEME game_data "attendance")
    by reflexivity.
  assert (Habbr : nhl.Game.opponent_abbr g
                  = Some (sub_from_first "/"
                            (sub_through_last "/teams/"
                               (query game_data
                                  ("td[data-stat=" ++ dq ++ "opp_name" ++ dq
                                   ++ "]:first")))))
    by reflexivity.
  clearbody g.
  split; [|split; [|split; [|split; [|split; [|split]]]]].
  - intros E. unfold nhl.Game.location. now rewrite Hloc, E.
  - intros E. unfold nhl.Game.location. rewrite Hloc.
    destruct (parse_field SCHEDULE_SCHEME game_data "location")
      as [[|c r]|]; try reflexivity.
    destruct c as [[] [] [] [] [] [] [] []]; try reflexivity.
    destruct r; [|reflexivity]. now elim E.
  - intros text E. unfold nhl.Game.result. rewrite Hres, E.
    split; [|split].
    + intros ->. reflexivity.
    + intros -> n Hn. cbn [String.eqb Ascii.eqb Bool.eqb].
      rewrite Hn. cbn [bind]. destruct (n =? 0); reflexivity.
    + intros Hw Hl. apply String.eqb_neq in Hw, Hl. now rewrite Hw, Hl.
  - intros text E. unfold nhl.Game.overtime. rewrite Hot, E.
    split; [|split]; intros ->; reflexivity.
  - intros text E. unfold nhl.Game.attendance. now rewrite Hatt, E.
  - intros text E Hlacks. unfold nhl.Game.attendance.
    rewrite Hatt, E. cbn [int]. now rewrite remove_char_lacks.
  - exact Habbr.
Qed.

(** C7, as stated, fails for two properties.  The attendance cell
    "18,532" is not an [int] literal, and the property returns 18532.
    The opponent cell of the row reads "New York Rangers" and its markup
    is a link, and [opponent_abbr] returns "NYR", which is neither. *)
Lemma attendance_removes_commas :
  (int (Some "18,532") = Raise ValueError
   /\ nhl.Game.attendance (Demo.game "2017-10-05" "7:00 PM" "L" "" "18,532")
      = Ok 18532
   /\ ~ coerces int nhl.Game._attendance nhl.Game.attendance)
  /\ (DemoSchedule.parse_field DemoSchedule.SCHEDULE_SCHEME
        DemoSchedule.away_row "attendance" = Some "18,532"
      /\ nhl.Game.attendance DemoSchedule.away_game = Ok 18532)
  /\ (DemoSchedule.parse_field DemoSchedule.SCHEDULE_SCHEME
        DemoSchedule.away_row "opponent_name" = Some "New York Rangers"
      /\ DemoSchedule.opp_name_cell DemoSchedule.away_row
         = DemoSchedule.opp_link "NYR" "New York Rangers"
      /\ nhl.Game.opponent_abbr DemoSchedule.away_game = Some "NYR").
Proof.
  split; [|split; [split; reflexivity|repeat split; reflexivity]].
  split; [reflexivity|]. split; [reflexivity|].
  intros H.
  specialize (H (Demo.game "2017-10-05" "7:00 PM" "L" "" "18,532")).
  discriminate H.
Qed.

(** *** Percentages *)

(** C5, as amended.  Every percentage property of every [Team] returns
    [float] of the stored cell and nothing else: whatever number [float]
    reads in the cell is the number returned, inside the interval from 0
    to 1 or not, and a failure of [float] is the failure of the
    property.  For a cell written as a point followed by digits, the
    form of the tables (".449"), the number lies in the interval. *)
Theorem percentage_of_fraction :
  Forall (fun p =>
            forall team : nba.Team.t,
              snd p team = float (fst p team)
              /\ (forall text x,
                    fst p team = Some text -> float_of_str text = x ->
                    snd p team = x)
              /\ (forall ds,
                    all_digits ds = true -> ds <> EmptyString ->
                    fst p team = Some (String "." ds) ->
                    in_unit_interval (snd p team)))
         Team_float_properties.
Proof.
  eapply Forall_impl; [|exact Team_float_coerce].
  intros [raw acc] Hacc team. cbn [fst snd] in *.
  rewrite (Hacc team). split; [reflexivity|]. split.
  - intros text x -> <-. reflexivity.
  - intros ds Hds Hne ->. cbn [float].
    destruct (float_of_fraction ds Hds Hne) as [q [-> Hq]].
    exists q. split; [reflexivity|exact Hq].
Qed.

(** C5, as stated, fails: a cell that reads "1.5" gives 1.5, and a cell
    that reads "-.5" gives a negative number. *)
Lemma percentage_above_one :
  (nba.Team.field_goal_percentage (Demo.team "DET;Detroit Pistons;1.5;8335;")
   = Ok (Finite (3 # 2))
   /\ ~ in_unit_interval
          (nba.Team.field_goal_percentage
             (Demo.team "DET;Detroit Pistons;1.5;8335;")))
  /\ (nba.Team.field_goal_percentage
        (Demo.team "DET;Detroit Pistons;-.5;8335;")
      = Ok (Finite (- 1 # 2))
      /\ ~ in_unit_interval
             (nba.Team.field_goal_percentage
                (Demo.team "DET;Detroit Pistons;-.5;8335;"))).
Proof.
  split; (split; [vm_compute; reflexivity|]).
  - intros [q [E [_ H1]]]. injection E as <-. revert H1. vm_compute. auto.
  - intros [q [E [H0 _]]]. injection E as <-. revert H0. vm_compute. auto.
Qed.

(** The examples. *)

Lemma overtime_total_demo :
  nhl.Game.overtime Demo.SHOOTOUT
    (Demo.game "2017-10-05" "7:00 PM" "L" "2OT" "18,532") = Ok 2
  /\ nhl.Game.overtime Demo.SHOOTOUT
       (Demo.game "2017-10-05" "7:00 PM" "L" "So" "18,532") = Ok Demo.SHOOTOUT.
Proof.
  split.
  - exact (proj1 (proj1 (proj2 (proj2 (proj2
             (overtime_total Demo.SHOOTOUT
                (Demo.game "2017-10-05" "7:00 PM" "L" "2OT" "18,532")
                "2OT" eq_refl))))
             EmptyString "2" "OT" eq_refl eq_refl eq_refl
             ltac:(discriminate) eq_refl)
             ltac:(discriminate)).
  - exact (proj1 (proj2
             (overtime_total Demo.SHOOTOUT
                (Demo.game "2017-10-05" "7:00 PM" "L" "So" "18,532")
                "So" eq_refl)) eq_refl).
Defined.

Lemma result_derivation_demo :
  nhl.Game.result Demo.WIN Demo.LOSS Demo.OVERTIME_LOSS Demo.SHOOTOUT
    (Demo.game "2017-10-10" "8:00 PM" "L" "SO" "18,006")
  = Ok Demo.OVERTIME_LOSS
  /\ nhl.Game.result Demo.WIN Demo.LOSS Demo.OVERTIME_LOSS Demo.SHOOTOUT
       (Demo.game "2017-10-05" "7:00 PM" "L" "" "18,532")
     = Ok Demo.LOSS
  /\ nhl.Game.result Demo.WIN Demo.LOSS Demo.OVERTIME_LOSS Demo.SHOOTOUT
       (Demo.game "2017-10-07" "7:30 PM" "W" "OT" "17,565")
     = Ok Demo.WIN.
Proof.
  split; [|split].
  - exact (proj1 (proj2
             (result_derivation Demo.WIN Demo.LOSS Demo.OVERTIME_LOSS
                Demo.SHOOTOUT
                (Demo.game "2017-10-10" "8:00 PM" "L" "SO" "18,006")
                "L" eq_refl))
             eq_refl Demo.SHOOTOUT eq_refl ltac:(discriminate)).
  - exact (proj2 (proj2
             (result_derivation Demo.WIN Demo.LOSS Demo.OVERTIME_LOSS
                Demo.SHOOTOUT
                (Demo.game "2017-10-05" "7:00 PM" "L" "" "18,532")
                "L" eq_refl))
             eq_refl eq_refl).
  - exact (proj1
             (result_derivation Demo.WIN Demo.LOSS Demo.OVERTIME_LOSS
                Demo.SHOOTOUT
                (Demo.game "2017-10-07" "7:30 PM" "W" "OT" "17,565")
                "W" eq_refl)
             eq_refl).
Defined.

Lemma percentage_of_fraction_demo :
  nba.Team.field_goal_percentage (Demo.team "DET;Detroit Pistons;.449;8335;")
  = float (Some ".449")
  /\ in_unit_interval
       (nba.Team.field_goal_percentage
          (Demo.team "DET;Detroit Pistons;.449;8335;")).
Proof.
  split.
  - exact (proj1 (Forall_inv percentage_of_fraction
                    (Demo.team "DET;Detroit Pistons;.449;8335;"))).
  - exact (proj2 (proj2 (Forall_inv percentage_of_fraction
                           (Demo.team "DET;Detroit Pistons;.449;8335;")))
             "449" eq_refl ltac:(discriminate) eq_refl).
Defined.

(** The away game of the examples, property by property. *)
Lemma accessors_apply_their_coercion_demo :
  nhl.Game.streak DemoSchedule.away_game = Some "L 1"
  /\ nhl.Game.goals_scored DemoSchedule.away_game = Ok 2
  /\ nhl.Game.location "Home" "Away" DemoSchedule.away_game = "Away"
  /\ nhl.Game.attendance DemoSchedule.away_game = Ok 18532
  /\ nhl.Game.opponent_abbr DemoSchedule.away_game = Some "NYR"
  /\ nba.Team.points (Demo.team "DET;Detroit Pistons;.449;8335;") = Ok 8335.
Proof.
  pose proof (accessors_apply_their_coercion
                DemoSchedule.Scheme DemoSchedule.SCHEDULE_SCHEME
                DemoSchedule.Row DemoSchedule.parse_field DemoSchedule.query
                Demo.WIN Demo.LOSS Demo.OVERTIME_LOSS "Home" "Away"
                Demo.SHOOTOUT
                Demo.Scheme Demo.PARSING_SCHEME Demo._parse_field
                DemoSchedule.away_row "2018"
                "DET;Detroit Pistons;.449;8335;" 1 (Some "2018"))
    as [Htext [Hint [_ [Tint [_ [_ [Haway [_ [_ [_ [Hatt [_ Habbr]]]]]]]]]]]].
  split; [|split; [|split; [|split; [|split]]]].
  - rewrite Forall_forall in Htext.
    exact (Htext ("streak", nhl.Game.streak)
             ltac:(unfold Game_text_cells; simpl; tauto)).
  - rewrite Forall_forall in Hint.
    exact (Hint ("goals_scored", nhl.Game.goals_scored)
             ltac:(unfold Game_int_cells; simpl; tauto)).
  - exact (Haway eq_refl).
  - exact (Hatt "18,532" eq_refl).
  - exact Habbr.
  - rewrite Forall_forall in Tint.
    exact (Tint ("points", nba.Team.points)
             ltac:(unfold Team_int_cells; simpl; tauto)).
Defined.

End AccessorFacts.

(** ** Rows of the schedule: the two link parsers *)

Module RowFacts.

Import Py Text.

Lemma lacks_app (c : ascii) (a b : string) :
  lacks c (a ++ b) = lacks c a && lacks c b.
Proof.
  induction a as [|x a IH]; simpl; [reflexivity|].
  now rewrite IH, andb_assoc.
Qed.

(** A text without a line feed is one line. *)
Lemma split_one_line (s : string) :
  lacks line_feed s = true -> split_lines s = (s, []).
Proof.
  induction s as [|c r IH]; intros H; simpl.
  - reflexivity.
  - simpl in H. apply andb_true_iff in H as [Hc Hr].
    apply negb_true_iff in Hc. rewrite (IH Hr), Hc. reflexivity.
Qed.

Lemma map_one_line (f : string -> string) (s : string) :
  lacks line_feed s = true -> map_lines f s = f s.
Proof. intros H. unfold map_lines. now rewrite (split_one_line s H). Qed.

Lemma strip_prefix_app (m s : string) : strip_prefix m (m ++ s) = Some s.
Proof.
  induction m as [|c m IH]; simpl.
  - destruct s; reflexivity.
  - now rewrite Ascii.eqb_refl.
Qed.

Lemma contains_after_last (m s : string) :
  contains m s = match after_last m s with Some _ => true | None => false end.
Proof.
  induction s as [|c r IH].
  - simpl. destruct (strip_prefix m EmptyString); reflexivity.
  - cbn [contains after_last]. rewrite IH.
    destruct (after_last m r), (strip_prefix m (String c r)); reflexivity.
Qed.

(** Characters that do not open the marker cannot start an occurrence. *)
Lemma after_last_skip (c0 : ascii) (m' w s : string) :
  lacks c0 w = true ->
  after_last (String c0 m') s = None ->
  after_last (String c0 m') (w ++ s) = None.
Proof.
  intros Hw Hs. induction w as [|a w IH]; [exact Hs|].
  simpl in Hw. apply andb_true_iff in Hw as [Ha Hw].
  apply negb_true_iff in Ha.
  cbn [append after_last]. rewrite (IH Hw). cbn [strip_prefix].
  rewrite Ascii.eqb_sym, Ha. reflexivity.
Qed.

(** What follows the marker, when the marker does not occur again. *)
Lemma after_last_marker (c0 : ascii) (m' pre tail : string) :
  after_last (String c0 m') (m' ++ tail) = None ->
  after_last (String c0 m') (pre ++ String c0 (m' ++ tail)) = Some tail.
Proof.
  intros H. induction pre as [|a pre IH].
  - cbn [append after_last strip_prefix]. rewrite H, Ascii.eqb_refl.
    apply strip_prefix_app.
  - cbn [append after_last]. now rewrite IH.
Qed.

Lemma before_first_app (c : ascii) (a rest : string) :
  lacks c a = true -> before_first c (a ++ String c rest) = a.
Proof.
  induction a as [|x a IH]; intros H; simpl.
  - now rewrite Ascii.eqb_refl.
  - simpl in H. apply andb_true_iff in H as [Hx Ha].
    apply negb_true_iff in Hx. now rewrite Hx, (IH Ha).
Qed.

Lemma before_first_lacks (c : ascii) (s : string) :
  lacks c s = true -> before_first c s = s.
Proof.
  induction s as [|x s IH]; intros H; simpl.
  - reflexivity.
  - simpl in H. apply andb_true_iff in H as [Hx Hs].
    apply negb_true_iff in Hx. now rewrite Hx, (IH Hs).
Qed.

Lemma lacks_contains (c0 : ascii) (m' s : string) :
  lacks c0 s = true -> contains (String c0 m') s = false.
Proof.
  induction s as [|x s IH]; intros H.
  - reflexivity.
  - simpl in H. apply andb_true_iff in H as [Hx Hs].
    apply negb_true_iff in Hx. cbn [contains strip_prefix].
    rewrite Ascii.eqb_sym, Hx. auto.
Qed.

(** The substitution that both parsers start with. *)
Lemma sub_through_last_marker (c0 : ascii) (w pre tail : string) :
  lacks c0 w = true ->
  lacks line_feed (pre ++ String c0 (w ++ String c0 EmptyString) ++ tail) = true ->
  contains (String c0 (w ++ String c0 EmptyString)) (String c0 tail) = false ->
  sub_through_last (String c0 (w ++ String c0 EmptyString))
    (pre ++ String c0 (w ++ String c0 EmptyString) ++ tail) = tail.
Proof.
  intros Hw Hlf Hagain. unfold sub_through_last.
  rewrite (map_one_line _ _ Hlf).
  change (String c0 (w ++ String c0 EmptyString) ++ tail)
    with (String c0 ((w ++ String c0 EmptyString) ++ tail)).
  rewrite after_last_marker; [reflexivity|].
  rewrite AggregateFacts.append_assoc. apply after_last_skip; [exact Hw|].
  rewrite contains_after_last in Hagain. cbn [append].
  destruct (after_last _ (String c0 tail)); [discriminate|reflexivity].
Qed.

Lemma sub_through_last_absent (m s : string) :
  lacks line_feed s = true -> contains m s = false ->
  sub_through_last m s = s.
Proof.
  intros Hlf H. unfold sub_through_last. rewrite (map_one_line _ _ Hlf).
  rewrite contains_after_last in H.
  destruct (after_last m s); [discriminate|reflexivity].
Qed.

(** The two substitutions at work, on one line and on several. *)
Example sub_examples :
  let lf := String line_feed EmptyString in
  map (sub_through_last "/teams/")
      ["a/teams/b/teams/c/d"; "/teams/teams/x"; "x/teams"; "abc";
       "/teams/a/b" ++ lf ++ "/teams/c/d"]
  = ["c/d"; "x"; "x/teams"; "abc"; "a/b" ++ lf ++ "c/d"]
  /\ map (sub_from_first "/")
         ["NYR/2018.html"; "abc"; "/x"; "a/b" ++ lf ++ lf ++ "c/d"]
     = ["NYR"; "abc"; EmptyString; "a" ++ lf ++ lf ++ "c"].
Proof. split; reflexivity. Qed.

Section row.

Variable Row : Type.
Variable query : Row -> string -> string.

Local Abbreviation opp_cell game_data :=
  (query game_data
     ("td[data-stat=" ++ dq ++ "opp_name" ++ dq ++ "]:first")).
Local Abbreviation box_cell game_data :=
  (query game_data
     ("td[data-stat=" ++ dq ++ "box_score_text" ++ dq ++ "]:first")).

(** The opponent's abbreviation is the path segment after [/teams/]: when
    the one-line text of the opponent cell reads [pre/teams/abbr/rest],
    with no slash in [abbr] and no further [/teams/] from the slash that
    closes the first one, [_parse_abbreviation] is [abbr].  A cell
    without any slash is returned whole. *)
Theorem parse_abbreviation_segment (game_data : Row) :
  lacks line_feed (opp_cell game_data) = true ->
  (forall pre abbr rest,
      opp_cell game_data = pre ++ "/teams/" ++ abbr ++ String "/" rest ->
      lacks "/" abbr = true ->
      contains "/teams/" (String "/" (abbr ++ String "/" rest)) = false ->
      nhl.Game._parse_abbreviation Row query game_data = abbr)
  /\ (lacks "/" (opp_cell game_data) = true ->
      nhl.Game._parse_abbreviation Row query game_data = opp_cell game_data).
Proof.
  intros Hlf. unfold nhl.Game._parse_abbreviation. split.
  - intros pre abbr rest Hcell Habbr Hagain. rewrite Hcell in *.
    assert (Hsub : sub_through_last "/teams/"
                     (pre ++ "/teams/" ++ abbr ++ String "/" rest)
                   = abbr ++ String "/" rest)
      by exact (sub_through_last_marker "/" "teams" pre _ eq_refl Hlf Hagain).
    rewrite Hsub.
    unfold sub_from_first. rewrite map_one_line.
    + now apply before_first_app.
    + rewrite lacks_app in Hlf. apply andb_true_iff in Hlf as [_ Hlf].
      rewrite (lacks_app _ "/teams/") in Hlf.
      apply andb_true_iff in Hlf as [_ Hlf]. exact Hlf.
  - intros Hnone.
    rewrite sub_through_last_absent by auto using lacks_contains.
    unfold sub_from_first. rewrite (map_one_line _ _ Hlf).
    now apply before_first_lacks.
Qed.

(** The boxscore is what follows [/boxscores/] in the one-line text of
    its cell, up to the end of the cell: nothing is cut after the file
    name.  A cell without [/boxscores/] is stored as it is. *)
Theorem parse_boxscore_tail (game_data : Row) :
  lacks line_feed (box_cell game_data) = true ->
  (forall pre tail,
      box_cell game_data = pre ++ "/boxscores/" ++ tail ->
      contains "/boxscores/" (String "/" tail) = false ->
      nhl.Game._parse_boxscore Row query game_data = tail)
  /\ (contains "/boxscores/" (box_cell game_data) = false ->
      nhl.Game._parse_boxscore Row query game_data = box_cell game_data).
Proof.
  intros Hlf. unfold nhl.Game._parse_boxscore. split.
  - intros pre tail Hcell Hagain. rewrite Hcell in *.
    exact (sub_through_last_marker "/" "boxscores" pre tail
             eq_refl Hlf Hagain).
  - intros Habsent. now apply sub_through_last_absent.
Qed.

End row.

(** The rows of the examples. *)

Lemma parse_abbreviation_segment_demo :
  nhl.Game._parse_abbreviation DemoSchedule.Row DemoSchedule.query
    (DemoSchedule.game_row "1" "2017-10-05" "7:00 PM" "NYR" "New York Rangers"
       "201710050NYR.html" "L" "")
  = "NYR".
Proof.
  exact (proj1 (parse_abbreviation_segment DemoSchedule.Row DemoSchedule.query
                  (DemoSchedule.game_row "1" "2017-10-05" "7:00 PM" "NYR"
                     "New York Rangers" "201710050NYR.html" "L" "")
                  eq_refl)
           ("<td data-stat=" ++ dq ++ "opp_name" ++ dq ++ "><a href=" ++ dq)
           "NYR"
           ("2018.html" ++ dq ++ ">New York Rangers</a></td>")
           eq_refl eq_refl eq_refl).
Defined.

Lemma parse_boxscore_tail_demo :
  nhl.Game._parse_boxscore DemoSchedule.Row DemoSchedule.query
    (DemoSchedule.game_row "1" "2017-10-05" "7:00 PM" "NYR" "New York Rangers"
       "201710050NYR.html" "L" "")
  = "201710050NYR.html" ++ dq ++ ">L</a></td>".
Proof.
  exact (proj1 (parse_boxscore_tail DemoSchedule.Row DemoSchedule.query
                  (DemoSchedule.game_row "1" "2017-10-05" "7:00 PM" "NYR"
                     "New York Rangers" "201710050NYR.html" "L" "")
                  eq_refl)
           ("<td data-stat=" ++ dq ++ "box_score_text" ++ dq ++ "><a href=" ++ dq)
           ("201710050NYR.html" ++ dq ++ ">L</a></td>")
           eq_refl eq_refl).
Defined.

End RowFacts.

(** ** The schedule as a list of games *)

Module ScheduleFacts.

Import Py.

(** Indexing a list. *)

Lemma list_getitem_inside {A : Type} (l : list A) (i : Z) :
  0 <= i < Z.of_nat (List.length l) ->
  exists a, nth_error l (Z.to_nat i) = Some a /\ list_getitem l i = Item a.
Proof.
  intros Hi. unfold list_getitem.
  destruct (i <? 0) eqn:E; [apply Z.ltb_lt in E; lia|].
  assert (Hin : (0 <=? i) && (i <? Z.of_nat (List.length l)) = true).
  { apply andb_true_iff. split; [apply Z.leb_le|apply Z.ltb_lt]; lia. }
  rewrite Hin.
  destruct (nth_error l (Z.to_nat i)) as [a|] eqn:Ea; [eauto|].
  apply nth_error_None in Ea. lia.
Qed.

Lemma list_getitem_negative {A : Type} (l : list A) (i : Z) :
  i < 0 -> - Z.of_nat (List.length l) <= i ->
  list_getitem l i = list_getitem l (i + Z.of_nat (List.length l)).
Proof.
  intros Hneg Hlow. unfold list_getitem.
  destruct (i <? 0) eqn:E; [|apply Z.ltb_ge in E; lia].
  destruct (i + Z.of_nat (List.length l) <? 0) eqn:E'; [apply Z.ltb_lt in E'; lia|].
  reflexivity.
Qed.

Lemma list_getitem_outside {A : Type} (l : list A) (i : Z) :
  i < - Z.of_nat (List.length l) \/ Z.of_nat (List.length l) <= i ->
  list_getitem l i = IndexError.
Proof.
  intros Hi. unfold list_getitem.
  destruct (i <? 0) eqn:E.
  - apply Z.ltb_lt in E.
    destruct (0 <=? i + Z.of_nat (List.length l)) eqn:E0; [|reflexivity].
    apply Z.leb_le in E0.
    destruct (i + Z.of_nat (List.length l) <? Z.of_nat (List.length l)) eqn:E1;
      [|reflexivity].
    lia.
  - apply Z.ltb_ge in E.
    destruct (i <? Z.of_nat (List.length l)) eqn:E1.
    + apply Z.ltb_lt in E1. lia.
    + now rewrite andb_false_r.
Qed.

(** Indexing a schedule: the indices from 0 up to the length give the
    games in the order of the iteration, the indices from minus the
    length up to -1 count from the end, and every other index raises
    [IndexError]; an empty schedule has no valid index. *)
Theorem schedule_getitem_bounds (games : list nhl.Game.t) (index : Z) :
  (0 <= index < Z.of_nat (nhl.Schedule.__len__ games) ->
     exists game,
       nth_error (nhl.Schedule.__iter__ games) (Z.to_nat index) = Some game
       /\ nhl.Schedule.__getitem__ games index = Item game)
  /\ (- Z.of_nat (nhl.Schedule.__len__ games) <= index < 0 ->
      nhl.Schedule.__getitem__ games index
      = nhl.Schedule.__getitem__ games
          (index + Z.of_nat (nhl.Schedule.__len__ games)))
  /\ (index < - Z.of_nat (nhl.Schedule.__len__ games)
      \/ Z.of_nat (nhl.Schedule.__len__ games) <= index ->
      nhl.Schedule.__getitem__ games index = IndexError).
Proof.
  unfold nhl.Schedule.__getitem__, nhl.Schedule.__len__,
    nhl.Schedule.__iter__, nhl.Schedule.__repr__.
  split; [|split].
  - apply list_getitem_inside.
  - intros [Hlow Hneg]. now apply list_getitem_negative.
  - apply list_getitem_outside.
Qed.

Section pull.

Variable Scheme : Type.
Variable SCHEDULE_SCHEME : Scheme.
Variable Row : Type.
Variable parse_field : Scheme -> Row -> string -> option string.
Variable query : Row -> string -> string.
Variable row_str : Row -> string.
Variable Doc : Type.
Variable pq : string -> Doc.
Variable SCHEDULE_URL : string -> string -> string.
Variable get_stats_table : Doc -> string -> list Row.
Variable find_year_for_season : string -> string.

Local Abbreviation new_game :=
  (nhl.Game.__init__ Scheme SCHEDULE_SCHEME Row parse_field query).
Local Abbreviation is_thead := (nhl.Schedule.is_thead Row row_str).
Local Abbreviation loop :=
  (nhl.Schedule._pull_schedule_loop Scheme SCHEDULE_SCHEME Row parse_field
     query row_str).
Local Abbreviation pull :=
  (nhl.Schedule._pull_schedule Scheme SCHEDULE_SCHEME Row parse_field query
     row_str Doc pq SCHEDULE_URL get_stats_table find_year_for_season).
Local Abbreviation season := (ScheduleRows.season find_year_for_season).
Local Abbreviation rows :=
  (ScheduleRows.rows Row Doc pq SCHEDULE_URL get_stats_table
     find_year_for_season).
Local Abbreviation played :=
  (ScheduleRows.played Row row_str Doc pq SCHEDULE_URL get_stats_table
     find_year_for_season).
Local Abbreviation new_schedule :=
  (nhl.Schedule.__init__ Scheme SCHEDULE_SCHEME Row parse_field query
     row_str Doc pq SCHEDULE_URL get_stats_table find_year_for_season).

Lemma loop_appends (rows : list Row) (year : string) (games : list nhl.Game.t) :
  loop rows year games
  = (games
     ++ map (fun item => new_game item year)
            (filter (fun item => negb (is_thead item)) rows))%list.
Proof.
  revert games. induction rows as [|item rows IH]; intros games; simpl.
  - now rewrite app_nil_r.
  - destruct (nhl.Schedule.is_thead Row row_str item); simpl.
    + apply IH.
    + rewrite IH, <- app_assoc. reflexivity.
Qed.

(** The schedule of a team holds one game for each row of the table that
    is not a header row, in the order of the table, and nothing else: its
    length is the number of those rows, the index [i] gives the game of
    the [i]-th of them, and [_pull_schedule] only appends to the games
    that are there. *)
Theorem pull_schedule_skips_headers
    (abbreviation : string) (year : option string) (games : list nhl.Game.t) :
  new_schedule abbreviation year
  = map (fun item => new_game item (season year)) (played abbreviation year)
  /\ nhl.Schedule.__len__ (new_schedule abbreviation year)
     = List.length (played abbreviation year)
  /\ (nhl.Schedule.__len__ (new_schedule abbreviation year)
      <= List.length (rows abbreviation year))%nat
  /\ (forall i item,
        nth_error (played abbreviation year) i = Some item ->
        nhl.Schedule.__getitem__ (new_schedule abbreviation year) (Z.of_nat i)
        = Item (new_game item (season year)))
  /\ pull games abbreviation year
     = (games ++ new_schedule abbreviation year)%list.
Proof.
  assert (Hmap : new_schedule abbreviation year
                 = map (fun item => new_game item (season year))
                       (played abbreviation year)).
  { unfold nhl.Schedule.__init__, nhl.Schedule._pull_schedule,
      ScheduleRows.played.
    fold (season year). fold (rows abbreviation year).
    now rewrite loop_appends. }
  split; [exact Hmap|]. split; [|split; [|split]].
  - rewrite Hmap. unfold nhl.Schedule.__len__. apply length_map.
  - rewrite Hmap. unfold nhl.Schedule.__len__, ScheduleRows.played.
    rewrite length_map. apply filter_length_le.
  - intros i item Hi. rewrite Hmap. unfold nhl.Schedule.__getitem__.
    assert (Hlt : (i < List.length (played abbreviation year))%nat)
      by (apply nth_error_Some; rewrite Hi; discriminate).
    destruct (list_getitem_inside
                (map (fun item => new_game item (season year))
                     (played abbreviation year)) (Z.of_nat i))
      as [g [Hg ->]]; [rewrite length_map; lia|].
    rewrite Nat2Z.id, nth_error_map, Hi in Hg. now injection Hg as <-.
  - unfold nhl.Schedule.__init__, nhl.Schedule._pull_schedule.
    now rewrite !loop_appends.
Qed.

End pull.

(** The table of the examples has a header row between its two games. *)
Example demo_schedule_skips_header :
  List.length DemoSchedule.table = 3%nat
  /\ map nhl.Game._game DemoSchedule.schedule = [Some "1"; Some "2"]
  /\ map nhl.Game.opponent_abbr DemoSchedule.schedule = [Some "NYR"; Some "TOR"].
Proof. repeat split; reflexivity. Qed.

End ScheduleFacts.

(** ** The date and time of a game *)

Module DatetimeFacts.

Import Py Clock.

(** What a match of each matcher looks like. *)

Lemma in_bind {A B : Type} (p : matcher A) (k : A -> matcher B)
    (s : string) (b : B) (r : string) :
  In (b, r) (m_bind p k s) <->
  exists a s', In (a, s') (p s) /\ In (b, r) (k a s').
Proof.
  unfold m_bind. rewrite in_flat_map. split.
  - intros [[a s'] [H1 H2]]. eauto.
  - intros [a [s' [H1 H2]]]. exists (a, s'). auto.
Qed.

Lemma in_ret {A : Type} (a b : A) (s r : string) :
  In (b, r) (m_ret a s) <-> b = a /\ r = s.
Proof.
  unfold m_ret. simpl. split.
  - intros [[= -> ->]|[]]. auto.
  - intros [-> ->]. auto.
Qed.

Lemma in_ch (ok : ascii -> bool) (s : string) (v : Z) (r : string) :
  In (v, r) (ch ok s) <->
  exists c, s = String c r /\ ok c = true /\ v = digit_value c.
Proof.
  unfold ch. destruct s as [|c s'].
  - simpl. split; [intros []|intros [c [H _]]; discriminate].
  - destruct (ok c) eqn:E; simpl.
    + split.
      * intros [[= <- <-]|[]]. eauto.
      * intros [c' [[= <- <-] [_ ->]]]. auto.
    + split; [intros []|]. intros [c' [[= <- <-] [H _]]]. congruence.
Qed.

Lemma in_two (p q : ascii -> bool) (s : string) (v : Z) (r : string) :
  In (v, r) (two p q s) <->
  exists a b, s = String a (String b r) /\ p a = true /\ q b = true
              /\ v = 10 * digit_value a + digit_value b.
Proof.
  unfold two. rewrite in_bind. split.
  - intros [x [s1 [H1 H2]]]. apply in_ch in H1 as [a [-> [Ha ->]]].
    apply in_bind in H2 as [y [s2 [H2 H3]]].
    apply in_ch in H2 as [b [-> [Hb ->]]].
    apply in_ret in H3 as [-> ->]. eauto 7.
  - intros [a [b [-> [Ha [Hb ->]]]]].
    exists (digit_value a), (String b r). split.
    + apply in_ch. eauto.
    + apply in_bind. exists (digit_value b), r. split.
      * apply in_ch. eauto.
      * now apply in_ret.
Qed.

Lemma eqb_value (a c : ascii) :
  Ascii.eqb a c = true -> digit_value c = digit_value a.
Proof. intros H. apply Ascii.eqb_eq in H. now subst. Qed.

Lemma between_value (lo hi c : ascii) :
  between lo hi c = true ->
  digit_value lo <= digit_value c <= digit_value hi.
Proof.
  unfold between, digit_value. intros H.
  apply andb_true_iff in H as [H1 H2].
  apply N.leb_le in H1, H2. lia.
Qed.

(** The ranges of the numbers that are matched. *)

Lemma re_Y_range (s : string) (v : Z) (r : string) :
  In (v, r) (re_Y s) -> 0 <= v <= 9999.
Proof.
  unfold re_Y. intros H.
  apply in_bind in H as [x [s1 [H1 H2]]].
  apply in_bind in H2 as [y [s2 [H2 H3]]].
  apply in_ret in H3 as [-> _].
  apply in_two in H1 as [a [b [_ [Ha [Hb ->]]]]].
  apply in_two in H2 as [c [d [_ [Hc [Hd ->]]]]].
  apply PyFacts.digit_value_range in Ha, Hb, Hc, Hd. lia.
Qed.

Ltac value_of H :=
  match type of H with
  | Ascii.eqb ?a _ = true =>
      apply eqb_value in H;
      let v := eval vm_compute in (digit_value a) in
      change (digit_value a) with v in H
  | between ?lo ?hi _ = true =>
      apply between_value in H;
      let l := eval vm_compute in (digit_value lo) in
      let h := eval vm_compute in (digit_value hi) in
      change (digit_value lo) with l in H;
      change (digit_value hi) with h in H
  | is_digit _ = true => apply PyFacts.digit_value_range in H
  end.

Ltac split_alt H :=
  repeat match type of H with
         | In _ (m_alt _ _ _) => unfold m_alt in H
         | In _ (_ ++ _)%list => apply in_app_or in H; destruct H as [H|H]
         end.

Ltac invert_two H :=
  let a := fresh "a" in
  let b := fresh "b" in
  let Ha := fresh "Ha" in
  let Hb := fresh "Hb" in
  apply in_two in H as [a [b [_ [Ha [Hb ->]]]]];
  value_of Ha; value_of Hb.

Ltac invert_ch H :=
  let c := fresh "c" in
  let Hc := fresh "Hc" in
  apply in_ch in H as [c [_ [Hc ->]]];
  value_of Hc.

Lemma re_m_range (s : string) (v : Z) (r : string) :
  In (v, r) (re_m s) -> 1 <= v <= 12.
Proof.
  unfold re_m. intros H. split_alt H.
  - invert_two H. lia.
  - invert_two H. lia.
  - invert_ch H. lia.
Qed.

Lemma re_d_range (s : string) (v : Z) (r : string) :
  In (v, r) (re_d s) -> 1 <= v <= 31.
Proof.
  unfold re_d. intros H. split_alt H.
  - invert_two H. lia.
  - invert_two H. lia.
  - invert_two H. lia.
  - invert_ch H. lia.
  - apply in_bind in H as [x [s1 [_ H]]]. invert_ch H. lia.
Qed.

Lemma re_M_range (s : string) (v : Z) (r : string) :
  In (v, r) (re_M s) -> 0 <= v <= 59.
Proof.
  unfold re_M. intros H. split_alt H.
  - invert_two H. lia.
  - invert_ch H. lia.
Qed.

Lemma format_regex_ranges (s r : string) (Y m d h M : Z) (pm : bool) :
  In (Y, m, d, h, M, pm, r) (format_regex s) ->
  0 <= Y <= 9999 /\ 1 <= m <= 12 /\ 1 <= d <= 31 /\ 1 <= h <= 12
  /\ 0 <= M <= 59.
Proof.
  unfold format_regex. intros H.
  apply in_bind in H as [Y' [s1 [HY H]]].
  apply in_bind in H as [? [s2 [_ H]]].
  apply in_bind in H as [m' [s3 [Hm H]]].
  apply in_bind in H as [? [s4 [_ H]]].
  apply in_bind in H as [d' [s5 [Hd H]]].
  apply in_bind in H as [? [s6 [_ H]]].
  apply in_bind in H as [h' [s7 [Hh H]]].
  apply in_bind in H as [? [s8 [_ H]]].
  apply in_bind in H as [M' [s9 [HM H]]].
  apply in_bind in H as [? [s10 [_ H]]].
  apply in_bind in H as [p' [s11 [_ H]]].
  apply in_ret in H as [[= -> -> -> -> -> ->] _].
  apply re_Y_range in HY. apply re_m_range in Hm, Hh.
  apply re_d_range in Hd. apply re_M_range in HM. auto.
Qed.

Lemma days_in_month_le (y m : Z) : days_in_month y m <= 31.
Proof.
  unfold days_in_month.
  destruct (m =? 2); [destruct (is_leap y); lia|].
  destruct ((m =? 4) || (m =? 6) || (m =? 9) || (m =? 11)); lia.
Qed.

(** A [datetime] that is returned is a date of the calendar and a time of
    the day: the year is from 1 to 9999, the month from 1 to 12, the day
    from 1 to the length of the month, the hour from 0 to 23, the minute
    from 0 to 59, and seconds and microseconds are 0. *)
Theorem datetime_is_valid (game : nhl.Game.t) (d : datetime) :
  nhl.Game.datetime game = Ok d ->
  1 <= year d <= 9999
  /\ 1 <= month d <= 12
  /\ 1 <= day d <= days_in_month (year d) (month d)
  /\ 0 <= hour d <= 23
  /\ 0 <= minute d <= 59
  /\ second d = 0 /\ microsecond d = 0.
Proof.
  unfold nhl.Game.datetime, strptime.
  destruct (format_regex _) as [|[[[[[[Y m] dd] h] M] pm] r] others] eqn:E;
    [discriminate|].
  assert (Hin : In (Y, m, dd, h, M, pm, r) (format_regex
            (str (nhl.Game._date game) ++ " " ++ str (nhl.Game._time game)))).
  { rewrite E. now left. }
  apply format_regex_ranges in Hin as [HY [Hm [Hd [Hh HM]]]].
  destruct (negb (is_empty r)); [discriminate|].
  destruct ((1 <=? Y) && (dd <=? days_in_month Y m)) eqn:Hok; [|discriminate].
  apply andb_true_iff in Hok as [H1 H2].
  apply Z.leb_le in H1, H2.
  intros [= <-]. cbn [year month day hour minute second microsecond].
  repeat split; try lia.
  - destruct pm; destruct (h =? 12) eqn:E12; lia.
  - destruct pm; destruct (h =? 12) eqn:E12;
      try apply Z.eqb_eq in E12; lia.
Qed.

Lemma datetime_is_valid_demo :
  exists d,
    nhl.Game.datetime (Demo.game "2016-02-29" "11:59 pm" "L" "" "18,532") = Ok d
    /\ year d = 2016 /\ month d = 2 /\ day d = 29 /\ hour d = 23
    /\ 1 <= day d <= days_in_month (year d) (month d).
Proof.
  eexists. split; [reflexivity|].
  pose proof (datetime_is_valid
                (Demo.game "2016-02-29" "11:59 pm" "L" "" "18,532") _ eq_refl)
    as [_ [_ [Hday _]]].
  repeat split; try reflexivity; apply Hday.
Defined.

(** Every match leaves a suffix of the text. *)

Lemma suffix_refl (s : string) : suffix s s.
Proof. now exists EmptyString. Qed.

Lemma suffix_cons (c : ascii) (r s : string) :
  suffix (String c r) s -> suffix r s.
Proof.
  intros [pre ->]. exists (pre ++ String c EmptyString).
  now rewrite AggregateFacts.append_assoc.
Qed.

Lemma suffix_trans (a b c : string) : suffix a b -> suffix b c -> suffix a c.
Proof.
  intros [p ->] [q ->]. exists (q ++ p). now rewrite AggregateFacts.append_assoc.
Qed.

Lemma ch_suffix (ok : ascii -> bool) (s : string) (v : Z) (r : string) :
  In (v, r) (ch ok s) -> suffix r s.
Proof.
  intros H. apply in_ch in H as [c [-> _]].
  apply (suffix_cons c). apply suffix_refl.
Qed.

Lemma two_suffix (p q : ascii -> bool) (s : string) (v : Z) (r : string) :
  In (v, r) (two p q s) -> suffix r s.
Proof.
  intros H. apply in_two in H as [a [b [-> _]]].
  apply (suffix_cons b), (suffix_cons a), suffix_refl.
Qed.

Lemma spaces_suffix (s : string) (v : Z) (r : string) :
  In (v, r) (spaces s) -> suffix r s.
Proof.
  induction s as [|c s IH]; simpl; [intros []|].
  destruct (is_space_re c); [|intros []].
  intros H. apply in_app_or in H as [H|[[= _ <-]|[]]].
  - destruct (IH H) as [pre ->]. now exists (String c pre).
  - apply (suffix_cons c), suffix_refl.
Qed.

Lemma re_Y_suffix (s : string) (v : Z) (r : string) :
  In (v, r) (re_Y s) -> suffix r s.
Proof.
  unfold re_Y. intros H.
  apply in_bind in H as [x [s1 [H1 H2]]].
  apply in_bind in H2 as [y [s2 [H2 H3]]].
  apply in_ret in H3 as [_ ->].
  eauto using suffix_trans, two_suffix.
Qed.

Lemma re_m_suffix (s : string) (v : Z) (r : string) :
  In (v, r) (re_m s) -> suffix r s.
Proof.
  unfold re_m. intros H. split_alt H; eauto using two_suffix, ch_suffix.
Qed.

Lemma re_d_suffix (s : string) (v : Z) (r : string) :
  In (v, r) (re_d s) -> suffix r s.
Proof.
  unfold re_d. intros H. split_alt H; eauto using two_suffix, ch_suffix.
  apply in_bind in H as [x [s1 [H1 H2]]].
  eauto using suffix_trans, ch_suffix.
Qed.

Lemma re_M_suffix (s : string) (v : Z) (r : string) :
  In (v, r) (re_M s) -> suffix r s.
Proof.
  unfold re_M. intros H. split_alt H; eauto using two_suffix, ch_suffix.
Qed.

(** The marker of the half of the day closes the match. *)
Lemma re_p_end (s : string) (pm : bool) (r : string) :
  In (pm, r) (re_p s) ->
  exists c1 c2, s = String c1 (String c2 r)
                /\ lower_char c1 = (if pm then "p" else "a")%char
                /\ lower_char c2 = "m"%char.
Proof.
  unfold re_p, lit_nocase. intros H. split_alt H;
    apply in_bind in H as [x [s1 [H1 H2]]];
    apply in_bind in H2 as [y [s2 [H2 H3]]];
    apply in_ret in H3 as [-> ->];
    apply in_ch in H1 as [c1 [-> [Hc1 _]]];
    apply in_ch in H2 as [c2 [-> [Hc2 _]]];
    apply Ascii.eqb_eq in Hc1, Hc2; eauto.
Qed.

Lemma format_regex_end (s r : string) (Y m d h M : Z) (pm : bool) :
  In (Y, m, d, h, M, pm, r) (format_regex s) ->
  exists pre c1 c2,
    s = pre ++ String c1 (String c2 r)
    /\ lower_char c1 = (if pm then "p" else "a")%char
    /\ lower_char c2 = "m"%char.
Proof.
  unfold format_regex. intros H.
  apply in_bind in H as [Y' [s1 [HY H]]]. apply re_Y_suffix in HY.
  apply in_bind in H as [? [s2 [H2 H]]]. apply ch_suffix in H2.
  apply in_bind in H as [m' [s3 [Hm H]]]. apply re_m_suffix in Hm.
  apply in_bind in H as [? [s4 [H4 H]]]. apply ch_suffix in H4.
  apply in_bind in H as [d' [s5 [Hd H]]]. apply re_d_suffix in Hd.
  apply in_bind in H as [? [s6 [H6 H]]]. apply spaces_suffix in H6.
  apply in_bind in H as [h' [s7 [Hh H]]]. apply re_m_suffix in Hh.
  apply in_bind in H as [? [s8 [H8 H]]]. apply ch_suffix in H8.
  apply in_bind in H as [M' [s9 [HM H]]]. apply re_M_suffix in HM.
  apply in_bind in H as [? [s10 [H10 H]]]. apply spaces_suffix in H10.
  apply in_bind in H as [p' [s11 [Hp H]]].
  apply in_ret in H as [[= -> -> -> -> -> ->] ->].
  apply re_p_end in Hp as [c1 [c2 [-> [Hc1 Hc2]]]].
  assert (Hs : suffix (String c1 (String c2 s11)) s)
    by eauto 12 using suffix_trans.
  destruct Hs as [pre ->]. eauto 6.
Qed.

(** The last character of a text. *)

Lemma snoc_inj (a b : string) (x y : ascii) :
  a ++ String x EmptyString = b ++ String y EmptyString -> a = b /\ x = y.
Proof.
  revert b. induction a as [|c a IH]; intros [|c' b]; simpl; intros E.
  - injection E as ->. auto.
  - injection E as _ E. destruct b; discriminate.
  - injection E as _ E. destruct a; discriminate.
  - injection E as -> E. destruct (IH b E) as [-> ->]. auto.
Qed.

Lemma snoc_cases (s : string) :
  s = EmptyString \/ exists init c, s = init ++ String c EmptyString.
Proof.
  induction s as [|c s IH]; [now left|right].
  destruct IH as [->|[init [c' ->]]].
  - now exists EmptyString, c.
  - now exists (String c init), c'.
Qed.

Lemma snoc_two (pre : string) (c1 c2 : ascii) :
  pre ++ String c1 (String c2 EmptyString)
  = (pre ++ String c1 EmptyString) ++ String c2 EmptyString.
Proof. now rewrite AggregateFacts.append_assoc. Qed.

(** The two characters that end [x t], when neither is a space that
    [x] could end with, are the two that end [t]. *)
Lemma ends_in_time (x t pre : string) (c1 c2 : ascii) :
  (x ++ " ") ++ t = pre ++ String c1 (String c2 EmptyString) ->
  c1 <> " "%char -> c2 <> " "%char ->
  exists pre', t = pre' ++ String c1 (String c2 EmptyString).
Proof.
  intros Hs H1 H2. rewrite snoc_two in Hs.
  destruct (snoc_cases t) as [->|[init [c ->]]].
  - rewrite AggregateFacts.append_assoc in Hs. cbn [append] in Hs.
    apply snoc_inj in Hs as [_ E]. congruence.
  - rewrite <- AggregateFacts.append_assoc in Hs.
    apply snoc_inj in Hs as [Hs <-].
    destruct (snoc_cases init) as [->|[init' [c' ->]]].
    + rewrite AggregateFacts.append_assoc in Hs. cbn [append] in Hs.
      apply snoc_inj in Hs as [_ E]. congruence.
    + rewrite <- AggregateFacts.append_assoc in Hs.
      apply snoc_inj in Hs as [_ <-].
      exists init'. now rewrite AggregateFacts.append_assoc.
Qed.

Lemma strptime_raises_ValueError (s : string) (e : exn) :
  strptime s = Raise e -> e = ValueError.
Proof.
  unfold strptime.
  destruct (format_regex s) as [|[[[[[[Y m] dd] h] M] pm] r] others].
  - now intros [= <-].
  - destruct (negb (is_empty r)); [now intros [= <-]|].
    destruct ((1 <=? Y) && (dd <=? days_in_month Y m)); [discriminate|].
    now intros [= <-].
Qed.

(** The text of a time that [strptime] accepts ends in the two letters of
    AM or PM. *)
Lemma strptime_time_end (date time : string) (d : datetime) :
  strptime (date ++ " " ++ time) = Ok d ->
  exists pre c1 c2,
    time = pre ++ String c1 (String c2 EmptyString)
    /\ (lower_char c1 = "a" \/ lower_char c1 = "p")%char
    /\ lower_char c2 = "m"%char.
Proof.
  unfold strptime.
  destruct (format_regex _) as [|[[[[[[Y m] dd] h] M] pm] r] others] eqn:E;
    [discriminate|].
  assert (Hin : In (Y, m, dd, h, M, pm, r) (format_regex (date ++ " " ++ time)))
    by (rewrite E; now left).
  destruct r; [|discriminate]. intros _.
  apply format_regex_end in Hin as [pre [c1 [c2 [Hs [Hc1 Hc2]]]]].
  assert (Hc1' : (lower_char c1 = "a" \/ lower_char c1 = "p")%char)
    by (destruct pm; auto).
  rewrite <- AggregateFacts.append_assoc in Hs.
  destruct (ends_in_time date time pre c1 c2 Hs) as [pre' ->].
  - intros ->. destruct Hc1'; discriminate.
  - intros ->. discriminate.
  - eauto 6.
Qed.

Lemma none_not_a_time (pre : string) (c1 c2 : ascii) :
  str None = pre ++ String c1 (String c2 EmptyString) ->
  lower_char c2 = "m"%char -> False.
Proof.
  intros H Hc2. rewrite snoc_two in H.
  change (str None) with ("Non" ++ String "e" EmptyString) in H.
  apply snoc_inj in H as [_ <-]. discriminate Hc2.
Qed.

(** A game without a date or without a time has no [datetime]: the
    property raises [ValueError].  When it returns, the time of the game
    is a text that ends in AM or PM, in any letter case. *)
Theorem datetime_needs_date_and_time (game : nhl.Game.t) :
  (nhl.Game._date game = None ->
     nhl.Game.datetime game = Raise ValueError)
  /\ (nhl.Game._time game = None ->
      nhl.Game.datetime game = Raise ValueError)
  /\ (forall d,
        nhl.Game.datetime game = Ok d ->
        exists pre c1 c2,
          nhl.Game._time game = Some (pre ++ String c1 (String c2 EmptyString))
          /\ (lower_char c1 = "a" \/ lower_char c1 = "p")%char
          /\ lower_char c2 = "m"%char).
Proof.
  unfold nhl.Game.datetime. split; [|split].
  - intros ->. reflexivity.
  - intros ->.
    destruct (strptime _) as [d|e] eqn:E.
    + apply strptime_time_end in E as [pre [c1 [c2 [Ht [_ Hc2]]]]].
      apply none_not_a_time in Ht; [contradiction|assumption].
    + now rewrite (strptime_raises_ValueError _ _ E).
  - intros d E. destruct (nhl.Game._time game) as [t|] eqn:Ht.
    + apply strptime_time_end in E as [pre [c1 [c2 [Ht' H]]]].
      cbn [str] in Ht'. subst t. eauto.
    + apply strptime_time_end in E as [pre [c1 [c2 [Hn [_ Hc2]]]]].
      apply none_not_a_time in Hn; [contradiction|assumption].
Qed.

(** *** The texts of the table *)

Ltac by_enum x lo n tac :=
  lazymatch n with
  | O => exfalso; lia
  | S ?k =>
      let Hne := fresh "Hne" in
      destruct (Z.eq_dec x lo) as [->|Hne];
      [ tac | let lo' := eval compute in (lo + 1) in by_enum x lo' k tac ]
  end.
(** Each number of the text, with the separator after it. *)

Lemma month_dash {B} (K : Z -> matcher B) (m : Z) (r : string) :
  1 <= m <= 12 ->
  (m' <~ re_m ;; _ <~ lit "-" ;; K m') (two_digits m ++ String "-" r) = K m r.
Proof.
  intros Hm. by_enum m 1 12%nat ltac:(cbn; rewrite ?app_nil_r; reflexivity).
Qed.
Lemma bind_single {A B} (p : matcher A) (k : A -> matcher B) s a s' :
  p s = [(a, s')] -> m_bind p k s = k a s'.
Proof. intros H. unfold m_bind. rewrite H. simpl. apply app_nil_r. Qed.

Lemma two_digits_match (n : Z) (r : string) :
  0 <= n <= 99 -> two is_digit is_digit (two_digits n ++ r) = [(n, r)].
Proof.
  intros Hn.
  assert (Hq : 0 <= n / 10 <= 9) by (Z.div_mod_to_equations; lia).
  assert (Hr : 0 <= n mod 10 <= 9) by (Z.div_mod_to_equations; lia).
  assert (E : n = 10 * (n / 10) + n mod 10) by (Z.div_mod_to_equations; lia).
  unfold two_digits. rewrite E at 3.
  generalize dependent (n / 10). generalize dependent (n mod 10).
  intros b Hb a Ha _.
  by_enum a 0 10%nat ltac:(idtac; by_enum b 0 10%nat ltac:(reflexivity)).
Qed.

Lemma year_dash {B} (K : Z -> matcher B) (Y : Z) (r : string) :
  0 <= Y <= 9999 ->
  (Y' <~ re_Y ;; _ <~ lit "-" ;; K Y') (four_digits Y ++ String "-" r) = K Y r.
Proof.
  intros HY.
  assert (Hq : 0 <= Y / 100 <= 99) by (Z.div_mod_to_equations; lia).
  assert (Hr : 0 <= Y mod 100 <= 99) by (Z.div_mod_to_equations; lia).
  assert (E : Y = 100 * (Y / 100) + Y mod 100) by (Z.div_mod_to_equations; lia).
  assert (HreY : re_Y (four_digits Y ++ String "-" r) = [(Y, String "-" r)]).
  { unfold re_Y, four_digits. rewrite AggregateFacts.append_assoc.
    rewrite (bind_single _ _ _ _ _ (two_digits_match _ _ Hq)).
    rewrite (bind_single _ _ _ _ _ (two_digits_match _ _ Hr)).
    unfold m_ret. now rewrite <- E. }
  rewrite (bind_single _ _ _ _ _ HreY).
  cbn. apply app_nil_r.
Qed.

Lemma day_spaces {B} (K : Z -> matcher B) (d : Z) (c : ascii) (r : string) :
  1 <= d <= 31 -> is_space_re c = false ->
  (d' <~ re_d ;; _ <~ spaces ;; K d') (two_digits d ++ String " " (String c r))
  = K d (String c r).
Proof.
  intros Hd Hc.
  by_enum d 1 31%nat
    ltac:(cbn -[is_space_re]; rewrite Hc; cbn; rewrite ?app_nil_r; reflexivity).
Qed.

Lemma minute_spaces {B} (K : Z -> matcher B) (M : Z) (c : ascii) (r : string) :
  0 <= M <= 59 -> is_space_re c = false ->
  (M' <~ re_M ;; _ <~ spaces ;; K M') (two_digits M ++ String " " (String c r))
  = K M (String c r).
Proof.
  intros HM Hc.
  by_enum M 0 60%nat
    ltac:(cbn -[is_space_re]; rewrite Hc; cbn; rewrite ?app_nil_r; reflexivity).
Qed.

Lemma hour_colon {B} (K : Z -> matcher B) (h : Z) (r : string) :
  0 <= h <= 23 ->
  (h' <~ re_m ;; _ <~ lit ":" ;; K h') (hour_text h ++ String ":" r)
  = K (hour12 h) r.
Proof.
  intros Hh.
  by_enum h 0 24%nat ltac:(cbn; rewrite ?app_nil_r; reflexivity).
Qed.

Lemma half_of_day (h : Z) (x : Z * Z * Z * Z * Z) :
  (p <~ re_p ;; m_ret (x, p)) (if h <? 12 then "AM" else "PM")
  = [((x, negb (h <? 12)), EmptyString)].
Proof. destruct (h <? 12); reflexivity. Qed.

Lemma hour_text_head (h : Z) :
  0 <= h <= 23 ->
  exists c r, hour_text h = String c r /\ is_space_re c = false.
Proof.
  intros Hh. by_enum h 0 24%nat ltac:(do 2 eexists; split; reflexivity).
Qed.

Lemma format_regex_text (Y m d h M : Z) :
  0 <= Y <= 9999 -> 1 <= m <= 12 -> 1 <= d <= 31 -> 0 <= h <= 23 ->
  0 <= M <= 59 ->
  format_regex (date_text Y m d ++ " " ++ time_text h M)
  = [((Y, m, d, hour12 h, M, negb (h <? 12)), EmptyString)].
Proof.
  intros HY Hm Hd Hh HM.
  unfold date_text, time_text. rewrite !AggregateFacts.append_assoc.
  cbn [append].
  destruct (hour_text_head h Hh) as [c [r [Ehour Hc]]].
  unfold format_regex.
  rewrite year_dash by assumption.
  rewrite month_dash by assumption.
  rewrite Ehour. cbn [append].
  rewrite day_spaces by assumption.
  change (String c (r ++ String ":" ?x)) with (String c r ++ String ":" x).
  rewrite <- Ehour.
  rewrite hour_colon by assumption.
  assert (Ehalf : exists c' r', (if h <? 12 then "AM" else "PM") = String c' r'
                                /\ is_space_re c' = false)
    by (destruct (h <? 12); do 2 eexists; split; reflexivity).
  destruct Ehalf as [c' [r' [Ehalf Hc']]].
  rewrite Ehalf.
  rewrite minute_spaces by assumption.
  rewrite <- Ehalf. apply half_of_day.
Qed.

(** A date written [YYYY-MM-DD] and a time written [H:MM AM] or [H:MM PM]
    give back the date and the time they were written from: the hour of
    the 12-hour clock is turned into the hour of the day, with 12 AM as 0
    and 12 PM as 12. *)
Theorem datetime_of_table_text (game : nhl.Game.t) (Y m d h M : Z) :
  1 <= Y <= 9999 -> 1 <= m <= 12 -> 1 <= d <= days_in_month Y m ->
  0 <= h <= 23 -> 0 <= M <= 59 ->
  nhl.Game._date game = Some (date_text Y m d) ->
  nhl.Game._time game = Some (time_text h M) ->
  nhl.Game.datetime game = Ok (mk_datetime Y m d h M 0 0).
Proof.
  intros HY Hm Hd Hh HM Edate Etime.
  pose proof (days_in_month_le Y m) as Hle.
  unfold nhl.Game.datetime, strptime. rewrite Edate, Etime. cbn [str].
  rewrite format_regex_text by lia. cbn [is_empty negb].
  assert (H1 : (1 <=? Y) && (d <=? days_in_month Y m) = true).
  { apply andb_true_iff. split; apply Z.leb_le; lia. }
  rewrite H1. do 2 f_equal.
  by_enum h 0 24%nat ltac:(reflexivity).
Qed.

Lemma datetime_of_table_text_demo :
  nhl.Game.datetime (Demo.game "2017-10-05" "7:00 PM" "L" "" "18,532")
  = Ok (mk_datetime 2017 10 5 19 0 0 0).
Proof.
  apply (datetime_of_table_text
           (Demo.game "2017-10-05" "7:00 PM" "L" "" "18,532") 2017 10 5 19 0);
    try reflexivity; vm_compute; split; discriminate.
Defined.

End DatetimeFacts.

(** ** Edges of the result, the overtime code and the attendance *)

Module GameEdges.

Import Py Text PyFacts.

(** The result of a game whose result cell holds a text.  A text that is
    neither "w" nor "l" in any letter case, the empty text of a game that
    was not played among them, is reported as [LOSS], and so without a
    look at the overtime cell.  A loss needs the overtime cell: with the
    cell missing the property raises [AttributeError]; with a cell that
    holds a text it returns [LOSS] or [OVERTIME_LOSS], unless the first
    run of digits of the cell has more than 4300 digits, the one case in
    which it raises [ValueError]; and a loss in a shootout is an
    [OVERTIME_LOSS] exactly when the constant [SHOOTOUT] is not 0. *)
Theorem result_edges
    (WIN LOSS OVERTIME_LOSS : string) (SHOOTOUT : Z)
    (game : nhl.Game.t) (text : string) :
  nhl.Game._result game = Some text ->
  (lower text <> "w" -> lower text <> "l" ->
     nhl.Game.result WIN LOSS OVERTIME_LOSS SHOOTOUT game = Ok LOSS)
  /\ (lower text = "l" -> nhl.Game._overtime game = None ->
      nhl.Game.result WIN LOSS OVERTIME_LOSS SHOOTOUT game
      = Raise AttributeError)
  /\ (lower text = "l" ->
      forall o, nhl.Game._overtime game = Some o ->
      nhl.Game.result WIN LOSS OVERTIME_LOSS SHOOTOUT game = Ok LOSS
      \/ nhl.Game.result WIN LOSS OVERTIME_LOSS SHOOTOUT game
         = Ok OVERTIME_LOSS
      \/ (nhl.Game.result WIN LOSS OVERTIME_LOSS SHOOTOUT game
          = Raise ValueError
          /\ exists pre ds post,
               o = pre ++ ds ++ post /\ no_digit pre = true
               /\ all_digits ds = true /\ starts_with_digit post = false
               /\ int_max_str_digits < Z.of_nat (String.length ds)))
  /\ (lower text = "l" ->
      forall o pre ds post,
        nhl.Game._overtime game = Some o ->
        o = pre ++ ds ++ post -> no_digit pre = true ->
        all_digits ds = true -> starts_with_digit post = false ->
        int_max_str_digits < Z.of_nat (String.length ds) ->
        nhl.Game.result WIN LOSS OVERTIME_LOSS SHOOTOUT game
        = Raise ValueError)
  /\ (lower text = "l" ->
      forall o, nhl.Game._overtime game = Some o -> lower o = "so" ->
      nhl.Game.result WIN LOSS OVERTIME_LOSS SHOOTOUT game
      = Ok (if SHOOTOUT =? 0 then LOSS else OVERTIME_LOSS)).
Proof.
  intros Htext. unfold nhl.Game.result. rewrite Htext.
  split; [|split; [|split; [|split]]].
  - intros Hw Hl. apply String.eqb_neq in Hw, Hl. now rewrite Hw, Hl.
  - intros -> Ho. cbn [String.eqb Ascii.eqb Bool.eqb].
    unfold nhl.Game.overtime. now rewrite Ho.
  - intros -> o Ho. cbn [String.eqb Ascii.eqb Bool.eqb].
    destruct (AccessorFacts.overtime_returns_or_long SHOOTOUT game o Ho)
      as [[n ->] | [-> Hlong]]; cbn [bind].
    + destruct (negb (n =? 0)); auto.
    + right. right. split; [reflexivity|exact Hlong].
  - intros -> o pre ds post Ho -> Hpre Hds Hpost Hlen.
    cbn [String.eqb Ascii.eqb Bool.eqb].
    assert (Hne : ds <> EmptyString).
    { intros ->. unfold int_max_str_digits in Hlen. simpl in Hlen. lia. }
    rewrite (AccessorFacts.overtime_first_run SHOOTOUT game pre ds post)
      by assumption.
    apply Z.leb_gt in Hlen. rewrite Hlen. reflexivity.
  - intros -> o Ho Hso. cbn [String.eqb Ascii.eqb Bool.eqb].
    unfold nhl.Game.overtime. rewrite Ho, Hso.
    cbn [String.eqb Ascii.eqb Bool.eqb bind].
    destruct (SHOOTOUT =? 0); reflexivity.
Qed.

(** The attendance is the number that the digits of the cell write, with
    the commas taken out wherever they stand, and it is never negative;
    a cell with more than 4300 digits raises [ValueError]. *)
Theorem attendance_of_digits_and_commas
    (game : nhl.Game.t) (text : string) :
  nhl.Game._attendance game = Some text ->
  all_digits (remove_char "," text) = true ->
  remove_char "," text <> EmptyString ->
  (Z.of_nat (String.length (remove_char "," text)) <= int_max_str_digits ->
     nhl.Game.attendance game = Ok (decimal_value (remove_char "," text)))
  /\ (int_max_str_digits < Z.of_nat (String.length (remove_char "," text)) ->
      nhl.Game.attendance game = Raise ValueError)
  /\ 0 <= decimal_value (remove_char "," text).
Proof.
  intros Htext Hds Hne. unfold nhl.Game.attendance. rewrite Htext.
  split; [|split].
  - intros Hlen. now apply int_of_str_all_digits.
  - intros Hlen. now apply int_of_str_too_long.
  - apply decimal_value_bounds. exact Hds.
Qed.

(** The games of the examples. *)

Lemma result_edges_demo :
  nhl.Game.result Demo.WIN Demo.LOSS Demo.OVERTIME_LOSS Demo.SHOOTOUT
    (Demo.game "2018-04-07" "7:00 PM" "" "" "")
  = Ok Demo.LOSS
  /\ nhl.Game.result Demo.WIN Demo.LOSS Demo.OVERTIME_LOSS Demo.SHOOTOUT
       (Demo.game "2017-10-10" "8:00 PM" "L" "so" "18,006")
     = Ok Demo.OVERTIME_LOSS.
Proof.
  split.
  - exact (proj1 (result_edges Demo.WIN Demo.LOSS Demo.OVERTIME_LOSS
                    Demo.SHOOTOUT (Demo.game "2018-04-07" "7:00 PM" "" "" "")
                    EmptyString eq_refl)
             ltac:(discriminate) ltac:(discriminate)).
  - exact (proj2 (proj2 (proj2 (proj2
             (result_edges Demo.WIN Demo.LOSS Demo.OVERTIME_LOSS
                Demo.SHOOTOUT
                (Demo.game "2017-10-10" "8:00 PM" "L" "so" "18,006")
                "L" eq_refl))))
             eq_refl "so" eq_refl eq_refl).
Defined.

Lemma attendance_of_digits_and_commas_demo :
  nhl.Game.attendance (Demo.game "2017-10-05" "7:00 PM" "L" "" "1,8,532")
  = Ok 18532
  /\ 0 <= 18532.
Proof.
  pose proof (attendance_of_digits_and_commas
                (Demo.game "2017-10-05" "7:00 PM" "L" "" "1,8,532") "1,8,532"
                eq_refl eq_refl ltac:(discriminate)) as [Hok [_ Hpos]].
  split; [exact (Hok ltac:(discriminate))|exact Hpos].
Defined.

End GameEdges.

(** ** More on the teams of a season *)

Module SeasonMore.

Import nba.Teams Aggregate AggregateFacts.

Lemma first_seen_extends (seen ks : list key) :
  exists new, first_seen seen ks = (seen ++ new)%list
              /\ (List.length new <= List.length ks)%nat.
Proof.
  revert seen. induction ks as [|k ks IH]; intros seen; simpl.
  - exists []. now rewrite app_nil_r.
  - destruct (mem k seen).
    + destruct (IH seen) as [new [-> Hlen]]. exists new. split; [reflexivity|lia].
    + destruct (IH (seen ++ [k])%list) as [new [-> Hlen]].
      exists (k :: new). rewrite <- app_assoc. split; [reflexivity|simpl; lia].
Qed.

Lemma first_seen_distinct (seen ks : list key) :
  NoDup (seen ++ ks) -> first_seen seen ks = (seen ++ ks)%list.
Proof.
  revert seen. induction ks as [|k ks IH]; intros seen Hnd; simpl.
  - now rewrite app_nil_r.
  - assert (Hk : mem k seen = false).
    { destruct (mem k seen) eqn:E; [|reflexivity].
      apply mem_In in E. apply NoDup_remove_2 in Hnd.
      exfalso. apply Hnd. apply in_or_app. now left. }
    rewrite Hk, IH; rewrite <- app_assoc; [reflexivity|exact Hnd].
Qed.

Lemma index_of_distinct (ks : list key) (i : nat) (k : key) :
  NoDup ks -> nth_error ks i = Some k -> index_of k ks = Some i.
Proof.
  revert i. induction ks as [|k0 ks IH]; intros i Hnd Hi.
  - destruct i; discriminate.
  - inversion Hnd as [|? ? Hnotin Hnd']; subst. destruct i as [|i]; simpl in *.
    + injection Hi as ->. now rewrite key_eqb_refl.
    + destruct (key_eqb k0 k) eqn:E.
      * apply key_eqb_eq in E. subst k0. apply nth_error_In in Hi. contradiction.
      * now rewrite (IH i Hnd' Hi).
Qed.

Section season.

Variable Scheme : Type.
Variable PARSING_SCHEME : Scheme.
Variable _parse_field : Scheme -> string -> string -> option string.
Variable Doc : Type.
Variable pq : string -> Doc.
Variable SEASON_PAGE_URL : string -> string.
Variable _get_stats_table : Doc -> string -> list string.
Variable _find_year_for_season : string -> string.

Local Abbreviation add_from :=
  (_add_stats_data_from Scheme PARSING_SCHEME _parse_field).
Local Abbreviation add := (_add_stats_data Scheme PARSING_SCHEME _parse_field).
Local Abbreviation abbr_of := (abbr_of Scheme PARSING_SCHEME _parse_field).
Local Abbreviation rows_of := (rows_of Scheme PARSING_SCHEME _parse_field).
Local Abbreviation merged := (merged Scheme PARSING_SCHEME _parse_field).
Local Abbreviation first_rank :=
  (first_rank Scheme PARSING_SCHEME _parse_field).
Local Abbreviation season := (season _find_year_for_season).
Local Abbreviation offense_table :=
  (offense_table Doc pq SEASON_PAGE_URL _get_stats_table _find_year_for_season).
Local Abbreviation opponent_table :=
  (opponent_table Doc pq SEASON_PAGE_URL _get_stats_table _find_year_for_season).
Local Abbreviation abbreviations :=
  (abbreviations Scheme PARSING_SCHEME _parse_field Doc pq SEASON_PAGE_URL
     _get_stats_table _find_year_for_season).
Local Abbreviation retrieve :=
  (_retrieve_all_teams Scheme PARSING_SCHEME _parse_field Doc pq
     SEASON_PAGE_URL _get_stats_table _find_year_for_season).
Local Abbreviation new_team :=
  (nba.Team.__init__ Scheme PARSING_SCHEME _parse_field).

(** [_add_stats_data] only extends the dictionary it is given: a key that
    is bound stays bound, with its rows followed by its rows of the new
    table; the keys keep their order, and the new ones, at most one for
    each row, come after them.  An empty table changes nothing. *)
Theorem add_stats_data_extends (teams_list : list string) (d : dict) :
  (forall k v,
      dict_get d k = Some v ->
      exists v', dict_get (add teams_list d) k = Some v'
                 /\ data v' = data v ++ join (rows_of k teams_list))
  /\ (exists new,
        keys (add teams_list d) = (keys d ++ new)%list
        /\ (List.length new <= List.length teams_list)%nat)
  /\ add [] d = d.
Proof.
  unfold _add_stats_data. split; [|split].
  - intros k v Hget. rewrite get_add_from, Hget. cbn [Aggregate.after]. eauto.
  - rewrite keys_add_from.
    destruct (first_seen_extends (keys d) (map abbr_of teams_list))
      as [new [-> Hlen]].
    exists new. now rewrite length_map in Hlen.
  - reflexivity.
Qed.

(** A team that the offense table lacks is parsed from its opponent rows
    alone, and its rank is the place of its first row in the opponent
    table: the count of ranks starts again at 1 for the second table. *)
Theorem opponent_only_team (year : option string) (k : key) (j : nat) :
  index_of k (map abbr_of (offense_table year)) = None ->
  index_of k (map abbr_of (opponent_table year)) = Some j ->
  exists n,
    nth_error (abbreviations year) n = Some k
    /\ nth_error (retrieve year) n
       = Some (new_team (join (rows_of k (opponent_table year)))
                        (Z.of_nat j + 1) (Some (season year))).
Proof.
  intros Hoff Hopp.
  assert (Hin : In k (abbreviations year)).
  { unfold Aggregate.abbreviations. rewrite first_seen_In. right.
    rewrite map_app, in_app_iff. right.
    apply mem_In. rewrite index_of_mem. fold abbr_of. now rewrite Hopp. }
  destruct (In_nth_error _ _ Hin) as [n Hn].
  exists n. split; [exact Hn|].
  rewrite retrieve_by_abbreviation, nth_error_map, Hn. cbn [option_map].
  unfold Aggregate.merged, Aggregate.first_rank. fold abbr_of.
  rewrite Hoff, Hopp.
  rewrite (index_of_none_rows Scheme PARSING_SCHEME _parse_field _ _ Hoff).
  reflexivity.
Qed.

(** When no abbreviation comes twice in the offense table, the teams come
    in the order of that table and their ranks count up from 1: the team
    at place [i] is the team of the offense row at place [i], and its
    rank is [i + 1]. *)
Theorem teams_in_rank_order (year : option string) (i : nat) (row : string) :
  NoDup (map abbr_of (offense_table year)) ->
  nth_error (offense_table year) i = Some row ->
  nth_error (abbreviations year) i = Some (abbr_of row)
  /\ exists team,
       nth_error (retrieve year) i = Some team
       /\ team = new_team (merged (offense_table year) (opponent_table year)
                                  (abbr_of row))
                          (Z.of_nat i + 1) (Some (season year))
       /\ nba.Team.rank team = Py.Ok (Z.of_nat i + 1).
Proof.
  intros Hnd Hrow.
  assert (Hkey : nth_error (map abbr_of (offense_table year)) i
                 = Some (abbr_of row))
    by (rewrite nth_error_map, Hrow; reflexivity).
  assert (Habbr : nth_error (abbreviations year) i = Some (abbr_of row)).
  { unfold Aggregate.abbreviations. rewrite map_app, first_seen_app.
    rewrite (first_seen_distinct [] _ Hnd). cbn [app].
    destruct (first_seen_extends (map abbr_of (offense_table year))
                (map abbr_of (opponent_table year))) as [new [-> _]].
    rewrite nth_error_app1; [exact Hkey|].
    apply nth_error_Some. rewrite Hkey. discriminate. }
  split; [exact Habbr|].
  eexists. split.
  - rewrite retrieve_by_abbreviation, nth_error_map, Habbr. reflexivity.
  - unfold Aggregate.first_rank. fold abbr_of.
    rewrite (index_of_distinct _ _ _ Hnd Hkey). split; reflexivity.
Qed.

(** The shape of the collection of a season: every team carries the
    season that was read, there are at most as many teams as rows in the
    two tables, none when both tables are empty, and at least one as soon
    as a table has a row. *)
Theorem teams_collection_shape (year : option string) :
  Forall (fun team => nba.Team._year team = Some (season year)) (retrieve year)
  /\ (__len__ (retrieve year)
      <= List.length (offense_table year) + List.length (opponent_table year))%nat
  /\ (offense_table year = [] -> opponent_table year = [] -> retrieve year = [])
  /\ (offense_table year <> [] \/ opponent_table year <> [] ->
      retrieve year <> []).
Proof.
  rewrite retrieve_by_abbreviation. unfold __len__.
  split; [|split; [|split]].
  - apply Forall_map. apply Forall_forall. intros k _. reflexivity.
  - rewrite length_map. unfold Aggregate.abbreviations.
    destruct (first_seen_extends []
                (map abbr_of (offense_table year ++ opponent_table year)))
      as [new [-> Hlen]].
    rewrite length_map, length_app in Hlen. exact Hlen.
  - intros Hoff Hopp. unfold Aggregate.abbreviations.
    rewrite Hoff, Hopp. reflexivity.
  - intros Hrows Hnil. apply map_eq_nil in Hnil.
    assert (Hnone : forall k, ~ In k (abbreviations year))
      by (intros k; rewrite Hnil; intros []).
    unfold Aggregate.abbreviations in Hnone.
    destruct (offense_table year ++ opponent_table year)%list
      as [|row rows] eqn:E.
    + apply app_eq_nil in E as [E1 E2]. destruct Hrows; congruence.
    + apply (Hnone (abbr_of row)). rewrite first_seen_In. right.
      cbn [map]. now left.
Qed.

End season.

(** The season of the examples. *)

Lemma teams_in_rank_order_demo :
  nth_error
    (abbreviations Demo.Scheme Demo.PARSING_SCHEME Demo._parse_field Demo.Doc
       Demo.pq Demo.SEASON_PAGE_URL Demo._get_stats_table
       Demo._find_year_for_season (Some "2018")) 1
  = Some (Some "HOU")
  /\ exists team,
       nth_error Demo.teams 1 = Some team
       /\ team = DemoMore.team_of
                   ("HOU;Houston Rockets;.462;9458;"
                    ++ "HOU;Houston Rockets;.463;8981;") 2
       /\ nba.Team.rank team = Py.Ok 2.
Proof.
  apply (teams_in_rank_order Demo.Scheme Demo.PARSING_SCHEME
           Demo._parse_field Demo.Doc Demo.pq Demo.SEASON_PAGE_URL
           Demo._get_stats_table Demo._find_year_for_season
           (Some "2018") 1%nat "HOU;Houston Rockets;.462;9458;").
  - repeat constructor; simpl; intuition discriminate.
  - reflexivity.
Defined.

Lemma opponent_only_team_demo :
  exists n,
    nth_error
      (abbreviations Demo.Scheme Demo.PARSING_SCHEME Demo._parse_field
         Demo.Doc (fun _ => DemoMore.late_page) Demo.SEASON_PAGE_URL
         Demo._get_stats_table Demo._find_year_for_season (Some "2018")) n
    = Some (Some "SEA")
    /\ nth_error
         (_retrieve_all_teams Demo.Scheme Demo.PARSING_SCHEME
            Demo._parse_field Demo.Doc (fun _ => DemoMore.late_page)
            Demo.SEASON_PAGE_URL Demo._get_stats_table
            Demo._find_year_for_season (Some "2018")) n
       = Some (DemoMore.team_of "SEA;Seattle SuperSonics;.440;8000;" 1).
Proof.
  exact (opponent_only_team Demo.Scheme Demo.PARSING_SCHEME
           Demo._parse_field Demo.Doc (fun _ => DemoMore.late_page)
           Demo.SEASON_PAGE_URL Demo._get_stats_table
           Demo._find_year_for_season (Some "2018") (Some "SEA") 0%nat
           eq_refl eq_refl).
Defined.

End SeasonMore.

(** ** The scans behind the two lookups *)

Module ScanFacts.

Import Py Lookup Scan.

Lemma getitem_skip (before rest : list nba.Team.t) (q : string) :
  Forall (other_team q) before ->
  nba.Teams.__getitem__ (before ++ rest) q = nba.Teams.__getitem__ rest q.
Proof.
  induction 1 as [|team before [a [Ha Hne]] _ IH]; simpl.
  - reflexivity.
  - rewrite Ha. apply String.eqb_neq in Hne. now rewrite Hne.
Qed.

Lemma getitem_cases (teams : list nba.Team.t) (q : string) :
  (Forall (other_team q) teams
   /\ nba.Teams.__getitem__ teams q = Raise ValueError)
  \/ exists before team after,
       teams = (before ++ team :: after)%list
       /\ Forall (other_team q) before
       /\ ((named q team /\ nba.Teams.__getitem__ teams q = Ok team)
           \/ (nba.Team.abbreviation team = None
               /\ nba.Teams.__getitem__ teams q = Raise AttributeError)).
Proof.
  induction teams as [|team rest IH].
  - left. split; [constructor|reflexivity].
  - cbn [nba.Teams.__getitem__].
    destruct (nba.Team.abbreviation team) as [a|] eqn:Ha.
    + destruct (String.eqb (upper a) (upper q)) eqn:E.
      * right. exists [], team, rest. split; [reflexivity|].
        split; [constructor|]. left. split; [|reflexivity].
        exists a. apply String.eqb_eq in E. auto.
      * assert (Hother : other_team q team).
        { exists a. apply String.eqb_neq in E. auto. }
        destruct IH as [[Hall Hres]|[before [t [after [-> [Hall Hres]]]]]].
        -- left. split; [now constructor|exact Hres].
        -- right. exists (team :: before), t, after.
           split; [reflexivity|]. split; [now constructor|exact Hres].
    + right. exists [], team, rest. split; [reflexivity|].
      split; [constructor|]. right. auto.
Qed.

Lemma other_not_named (q : string) (team : nba.Team.t) :
  other_team q team -> named q team -> False.
Proof. intros [a [Ha Hne]] [a' [Ha' He]]. congruence. Qed.

(** The search behind [Teams.__getitem__], for any list of teams.  It
    returns the first team of that name, every team before it having
    another abbreviation; it raises [ValueError] exactly when every team
    has another abbreviation; and it raises [AttributeError] exactly
    when it meets a team without an abbreviation before any team of that
    name. *)
Theorem getitem_scan (teams : list nba.Team.t) (q : string) :
  (forall team,
      nba.Teams.__getitem__ teams q = Ok team <->
      exists before after,
        teams = (before ++ team :: after)%list
        /\ Forall (other_team q) before /\ named q team)
  /\ (nba.Teams.__getitem__ teams q = Raise ValueError <->
      Forall (other_team q) teams)
  /\ (nba.Teams.__getitem__ teams q = Raise AttributeError <->
      exists before team after,
        teams = (before ++ team :: after)%list
        /\ Forall (other_team q) before
        /\ nba.Team.abbreviation team = None).
Proof.
  split; [|split].
  - intros team. split.
    + intros Hres.
      destruct (getitem_cases teams q)
        as [[_ H]|[before [t [after [Hteams [Hall [[Hn H]|[_ H]]]]]]]];
        rewrite H in Hres; try discriminate.
      injection Hres as <-. eauto.
    + intros [before [after [-> [Hall [a [Ha He]]]]]].
      rewrite (getitem_skip _ _ _ Hall). cbn [nba.Teams.__getitem__].
      rewrite Ha. apply String.eqb_eq in He. now rewrite He.
  - split.
    + intros Hres.
      destruct (getitem_cases teams q)
        as [[Hall _]|[before [t [after [Hteams [Hall [[Hn H]|[_ H]]]]]]]];
        [exact Hall|rewrite H in Hres; discriminate..].
    + intros Hall. rewrite <- (app_nil_r teams).
      now rewrite (getitem_skip _ _ _ Hall).
  - split.
    + intros Hres.
      destruct (getitem_cases teams q)
        as [[_ H]|[before [t [after [Hteams [Hall [[Hn H]|[Hnone H]]]]]]]];
        [rewrite H in Hres; discriminate..|eauto 6].
    + intros [before [team [after [-> [Hall Hnone]]]]].
      rewrite (getitem_skip _ _ _ Hall). cbn [nba.Teams.__getitem__].
      now rewrite Hnone.
Qed.

Lemma call_skip (before rest : list nhl.Game.t) (date : datetime) :
  Forall (other_day date) before ->
  nhl.Schedule.__call__ (before ++ rest) date = nhl.Schedule.__call__ rest date.
Proof.
  induction 1 as [|game before [d [Hd Hne]] _ IH]; simpl.
  - reflexivity.
  - rewrite Hd. cbn [bind]. fold (same_dayb d date).
    destruct (same_dayb d date) eqn:E; [|exact IH].
    apply LookupFacts.same_dayb_same_day in E. contradiction.
Qed.

Lemma call_cases (games : list nhl.Game.t) (date : datetime) :
  (Forall (other_day date) games
   /\ nhl.Schedule.__call__ games date = Raise ValueError)
  \/ exists before game after,
       games = (before ++ game :: after)%list
       /\ Forall (other_day date) before
       /\ ((on_date date game /\ nhl.Schedule.__call__ games date = Ok game)
           \/ ((exists e, nhl.Game.datetime game = Raise e)
               /\ nhl.Schedule.__call__ games date = Raise ValueError)).
Proof.
  induction games as [|game rest IH].
  - left. split; [constructor|reflexivity].
  - cbn [nhl.Schedule.__call__].
    destruct (nhl.Game.datetime game) as [d|e] eqn:Hd; cbn [bind].
    + fold (same_dayb d date). destruct (same_dayb d date) eqn:E.
      * right. exists [], game, rest. split; [reflexivity|].
        split; [constructor|]. left. split; [|reflexivity].
        exists d. apply LookupFacts.same_dayb_same_day in E. auto.
      * assert (Hother : other_day date game).
        { exists d. split; [exact Hd|]. intros H.
          apply LookupFacts.same_dayb_same_day in H. congruence. }
        destruct IH as [[Hall Hres]|[before [g [after [-> [Hall Hres]]]]]].
        -- left. split; [now constructor|exact Hres].
        -- right. exists (game :: before), g, after.
           split; [reflexivity|]. split; [now constructor|exact Hres].
    + right. exists [], game, rest. split; [reflexivity|].
      split; [constructor|]. right. split; [eauto|].
      unfold nhl.Game.datetime in Hd.
      now rewrite (DatetimeFacts.strptime_raises_ValueError _ _ Hd).
Qed.

(** The search behind [Schedule.__call__], for any list of games.  It
    returns the first game of that day, every game before it having a
    readable date of another day; the only error it raises is
    [ValueError]; and a game whose date and time cannot be read stops
    the search with that error, whatever games come after it. *)
Theorem call_scan (games : list nhl.Game.t) (date : datetime) :
  (forall game,
      nhl.Schedule.__call__ games date = Ok game <->
      exists before after,
        games = (before ++ game :: after)%list
        /\ Forall (other_day date) before /\ on_date date game)
  /\ (forall e, nhl.Schedule.__call__ games date = Raise e -> e = ValueError)
  /\ (forall before game after e,
        games = (before ++ game :: after)%list ->
        Forall (other_day date) before ->
        nhl.Game.datetime game = Raise e ->
        nhl.Schedule.__call__ games date = Raise ValueError).
Proof.
  split; [|split].
  - intros game. split.
    + intros Hres.
      destruct (call_cases games date)
        as [[_ H]|[before [g [after [Hgames [Hall [[Hn H]|[_ H]]]]]]]];
        rewrite H in Hres; try discriminate.
      injection Hres as <-. eauto.
    + intros [before [after [-> [Hall [d [Hd Hsame]]]]]].
      rewrite (call_skip _ _ _ Hall). cbn [nhl.Schedule.__call__].
      rewrite Hd. cbn [bind]. fold (same_dayb d date).
      apply LookupFacts.same_dayb_same_day in Hsame. now rewrite Hsame.
  - intros e Hres.
    destruct (call_cases games date)
      as [[_ H]|[before [g [after [Hgames [Hall [[Hn H]|[_ H]]]]]]]];
      rewrite H in Hres; congruence.
  - intros before game after e -> Hall Hd.
    rewrite (call_skip _ _ _ Hall). cbn [nhl.Schedule.__call__].
    rewrite Hd. cbn [bind]. unfold nhl.Game.datetime in Hd.
    now rewrite (DatetimeFacts.strptime_raises_ValueError _ _ Hd).
Qed.

End ScanFacts.

(** ** Looking up the teams of a season *)

Module SeasonLookup.

Import nba.Teams Aggregate AggregateFacts.

Lemma getitem_map (F : key -> nba.Team.t) (ks : list key) (a : string) :
  (forall k, In k ks ->
     exists a', k = Some a' /\ nba.Team.abbreviation (F k) = k) ->
  In (Some a) ks ->
  (forall a', In (Some a') ks -> Py.upper a' = Py.upper a -> a' = a) ->
  __getitem__ (map F ks) a = Py.Ok (F (Some a)).
Proof.
  induction ks as [|k ks IH]; intros Hkeys Hin Huniq; [destruct Hin|].
  cbn [map __getitem__].
  destruct (Hkeys k (or_introl eq_refl)) as [a0 [-> Ha0]]. rewrite Ha0.
  destruct (String.eqb (Py.upper a0) (Py.upper a)) eqn:E.
  - apply String.eqb_eq in E.
    rewrite (Huniq a0 (or_introl eq_refl) E). reflexivity.
  - apply IH.
    + intros k Hk. apply Hkeys. now right.
    + destruct Hin as [[= ->]|Hin]; [|exact Hin].
      now rewrite String.eqb_refl in E.
    + intros a' Ha'. apply Huniq. now right.
Qed.

Section season.

Variable Scheme : Type.
Variable PARSING_SCHEME : Scheme.
Variable _parse_field : Scheme -> string -> string -> option string.
Variable Doc : Type.
Variable pq : string -> Doc.
Variable SEASON_PAGE_URL : string -> string.
Variable _get_stats_table : Doc -> string -> list string.
Variable _find_year_for_season : string -> string.

Local Abbreviation merged := (merged Scheme PARSING_SCHEME _parse_field).
Local Abbreviation first_rank :=
  (first_rank Scheme PARSING_SCHEME _parse_field).
Local Abbreviation season := (season _find_year_for_season).
Local Abbreviation offense_table :=
  (offense_table Doc pq SEASON_PAGE_URL _get_stats_table _find_year_for_season).
Local Abbreviation opponent_table :=
  (opponent_table Doc pq SEASON_PAGE_URL _get_stats_table _find_year_for_season).
Local Abbreviation abbreviations :=
  (abbreviations Scheme PARSING_SCHEME _parse_field Doc pq SEASON_PAGE_URL
     _get_stats_table _find_year_for_season).
Local Abbreviation new_teams :=
  (nba.Teams.__init__ Scheme PARSING_SCHEME _parse_field Doc pq
     SEASON_PAGE_URL _get_stats_table _find_year_for_season).
Local Abbreviation new_team :=
  (nba.Team.__init__ Scheme PARSING_SCHEME _parse_field).

(** Every team of the two tables can be looked up.  When the joined rows
    of each abbreviation are parsed to that abbreviation again, and no
    two abbreviations of the season are the same up to letter case,
    indexing [Teams(year)] by an abbreviation of the tables returns the
    team built from the joined rows of that abbreviation, with the rank
    of its first row. *)
Theorem lookup_after_retrieve (year : option string) (a : string) :
  (forall k, In k (abbreviations year) ->
     exists a',
       k = Some a'
       /\ _parse_field PARSING_SCHEME
            (merged (offense_table year) (opponent_table year) k)
            "abbreviation" = k) ->
  In (Some a) (abbreviations year) ->
  (forall a', In (Some a') (abbreviations year) ->
              Py.upper a' = Py.upper a -> a' = a) ->
  __getitem__ (new_teams year) a
  = Py.Ok (new_team (merged (offense_table year) (opponent_table year) (Some a))
                    (first_rank (offense_table year) (opponent_table year)
                                (Some a))
                    (Some (season year))).
Proof.
  intros Hkeys Hin Huniq. unfold nba.Teams.__init__.
  rewrite retrieve_by_abbreviation.
  apply (getitem_map
           (fun k =>
              new_team (merged (offense_table year) (opponent_table year) k)
                       (first_rank (offense_table year) (opponent_table year) k)
                       (Some (season year)))); assumption.
Qed.

End season.

Lemma lookup_after_retrieve_demo :
  __getitem__ Demo.teams "DET"
  = Py.Ok (DemoMore.team_of
             ("DET;Detroit Pistons;.449;8335;"
              ++ "DET;Detroit Pistons;.461;8421;") 3).
Proof.
  apply (lookup_after_retrieve Demo.Scheme Demo.PARSING_SCHEME
           Demo._parse_field Demo.Doc Demo.pq Demo.SEASON_PAGE_URL
           Demo._get_stats_table Demo._find_year_for_season
           (Some "2018") "DET").
  - intros k Hin. vm_compute in Hin.
    decompose [or] Hin; subst; try contradiction; eexists; split; reflexivity.
  - right. right. left. reflexivity.
  - intros a' Hin Hup. vm_compute in Hin.
    decompose [or] Hin; try contradiction;
      match goal with H : Some _ = Some _ |- _ => injection H as <- end;
      first [reflexivity | discriminate Hup].
Defined.

End SeasonLookup.
(** ** What the two lookups compare *)

Module LookupKeys.

Import Py Lookup Scan.

Lemma getitem_same_upper (teams : list nba.Team.t) (q q' : string) :
  upper q' = upper q ->
  nba.Teams.__getitem__ teams q' = nba.Teams.__getitem__ teams q.
Proof.
  intros Hq. induction teams as [|team rest IH]; simpl.
  - reflexivity.
  - now rewrite Hq, IH.
Qed.

Lemma call_same_day (games : list nhl.Game.t) (date date' : datetime) :
  year date = year date' -> month date = month date' -> day date = day date' ->
  nhl.Schedule.__call__ games date = nhl.Schedule.__call__ games date'.
Proof.
  intros Hy Hm Hd. induction games as [|game rest IH]; simpl.
  - reflexivity.
  - rewrite Hy, Hm, Hd. destruct (nhl.Game.datetime game); simpl.
    + now rewrite IH.
    + reflexivity.
Qed.

(** C8.  The lookup by abbreviation ignores letter case: it compares the
    upper-cased abbreviation of a team with the upper-cased query.  A
    query [q'] in any letter case of [q] has the result of the upper-case
    query; it returns a team exactly when that team is the first of the
    list whose abbreviation is [q] up to case, the teams before it having
    other abbreviations; and it raises [ValueError] exactly when every
    team has an abbreviation other than [q] up to case. *)
Theorem getitem_ignores_case (teams : list nba.Team.t) (q q' : string) :
  upper q' = upper q ->
  nba.Teams.__getitem__ teams q' = nba.Teams.__getitem__ teams (upper q)
  /\ (forall team,
        nba.Teams.__getitem__ teams q' = Ok team <->
        exists before after,
          teams = (before ++ team :: after)%list
          /\ Forall (other_team q) before /\ named q team)
  /\ (nba.Teams.__getitem__ teams q' = Raise ValueError <->
      Forall (other_team q) teams).
Proof.
  intros Hq. rewrite (getitem_same_upper teams q q' Hq).
  split; [|split].
  - symmetry. apply getitem_same_upper, PyFacts.upper_idem.
  - intros team. split.
    + intros Hres.
      destruct (ScanFacts.getitem_cases teams q)
        as [[_ H]|[before [t [after [Hteams [Hall [[Hn H]|[_ H]]]]]]]];
        rewrite H in Hres; try discriminate.
      injection Hres as <-. eauto.
    + intros [before [after [-> [Hall [a [Ha He]]]]]].
      rewrite (ScanFacts.getitem_skip _ _ _ Hall).
      cbn [nba.Teams.__getitem__].
      rewrite Ha. apply String.eqb_eq in He. now rewrite He.
  - split.
    + intros Hres.
      destruct (ScanFacts.getitem_cases teams q)
        as [[Hall _]|[before [t [after [Hteams [Hall [[Hn H]|[_ H]]]]]]]];
        [exact Hall|rewrite H in Hres; discriminate..].
    + intros Hall. rewrite <- (app_nil_r teams).
      now rewrite (ScanFacts.getitem_skip _ _ _ Hall).
Qed.

(** C9.  The lookup by date looks at the calendar day only.  Two
    datetimes with the same year, month and day give the same result,
    whatever their times of day; the call returns a game exactly when
    that game is the first of the schedule whose date has the year, the
    month and the day asked for, the games before it being of other
    days; and the only error it raises is [ValueError], which it raises
    when every game is of another day or when the date and time of a
    game cannot be read before a game of the day is met. *)
Theorem call_ignores_time_of_day
    (games : list nhl.Game.t) (date date' : datetime) :
  year date = year date' -> month date = month date' -> day date = day date' ->
  nhl.Schedule.__call__ games date = nhl.Schedule.__call__ games date'
  /\ (forall game,
        nhl.Schedule.__call__ games date = Ok game <->
        exists before after,
          games = (before ++ game :: after)%list
          /\ Forall (other_day date') before /\ on_date date' game)
  /\ (forall e,
        nhl.Schedule.__call__ games date = Raise e <->
        e = ValueError
        /\ (Forall (other_day date') games
            \/ exists before game after e',
                 games = (before ++ game :: after)%list
                 /\ Forall (other_day date') before
                 /\ nhl.Game.datetime game = Raise e')).
Proof.
  intros Hy Hm Hd. rewrite (call_same_day games date date' Hy Hm Hd).
  split; [reflexivity|]. split.
  - intros game. split.
    + intros Hres.
      destruct (ScanFacts.call_cases games date')
        as [[_ H]|[before [g [after [Hgames [Hall [[Hn H]|[_ H]]]]]]]];
        rewrite H in Hres; try discriminate.
      injection Hres as <-. eauto.
    + intros [before [after [-> [Hall [d [Hdt Hsame]]]]]].
      rewrite (ScanFacts.call_skip _ _ _ Hall). cbn [nhl.Schedule.__call__].
      rewrite Hdt. cbn [bind]. fold (same_dayb d date').
      apply LookupFacts.same_dayb_same_day in Hsame. now rewrite Hsame.
  - intros e. split.
    + intros Hres.
      destruct (ScanFacts.call_cases games date')
        as [[Hall H]|[before [g [after [Hgames [Hall [[Hn H]|[[e' He'] H]]]]]]]];
        rewrite H in Hres; try discriminate.
      * split; [congruence|now left].
      * split; [congruence|]. right. exists before, g, after, e'. auto.
    + intros [-> [Hall|[before [game [after [e' [-> [Hall Hdt]]]]]]]].
      * rewrite <- (app_nil_r games).
        now rewrite (ScanFacts.call_skip _ _ _ Hall).
      * rewrite (ScanFacts.call_skip _ _ _ Hall).
        cbn [nhl.Schedule.__call__]. rewrite Hdt. cbn [bind].
        unfold nhl.Game.datetime in Hdt.
        now rewrite (DatetimeFacts.strptime_raises_ValueError _ _ Hdt).
Qed.

(** Detroit is found under any letter case, and the game of the seventh
    of October at any time of that day. *)

Lemma getitem_ignores_case_demo :
  nba.Teams.__getitem__ Demo.teams "dEt"
  = nba.Teams.__getitem__ Demo.teams "DET"
  /\ nba.Teams.__getitem__ Demo.teams "dEt"
     = Ok (DemoMore.team_of
             ("DET;Detroit Pistons;.449;8335;"
              ++ "DET;Detroit Pistons;.461;8421;") 3)
  /\ nba.Teams.__getitem__ Demo.teams "xyz" = Raise ValueError.
Proof.
  split; [|split].
  - exact (proj1 (getitem_ignores_case Demo.teams "Det" "dEt" eq_refl)).
  - apply (proj1 (proj2 (getitem_ignores_case Demo.teams "Det" "dEt"
                           eq_refl))).
    exists [DemoMore.team_of
              ("GSW;Golden State Warriors;.495;9304;"
               ++ "GSW;Golden State Warriors;.435;8350;") 1;
            DemoMore.team_of
              ("HOU;Houston Rockets;.462;9458;"
               ++ "HOU;Houston Rockets;.463;8981;") 2], [].
    split; [vm_compute; reflexivity|]. split.
    + repeat constructor; eexists; (split; [reflexivity|discriminate]).
    + eexists. split; reflexivity.
  - apply (proj2 (proj2 (getitem_ignores_case Demo.teams "XYZ" "xyz"
                           eq_refl))).
    repeat constructor; eexists; (split; [reflexivity|discriminate]).
Defined.

Lemma call_ignores_time_of_day_demo :
  nhl.Schedule.__call__ Demo.games Demo.evening
  = nhl.Schedule.__call__ Demo.games Demo.morning
  /\ nhl.Schedule.__call__ Demo.games Demo.evening
     = Ok (Demo.game "2017-10-07" "7:30 PM" "W" "OT" "17,565").
Proof.
  split.
  - exact (proj1 (call_ignores_time_of_day Demo.games Demo.evening
                    Demo.morning eq_refl eq_refl eq_refl)).
  - apply (proj1 (proj2 (call_ignores_time_of_day Demo.games Demo.evening
                           Demo.morning eq_refl eq_refl eq_refl))).
    exists [Demo.game "2017-10-05" "7:00 PM" "L" "" "18,532"],
           [Demo.game "2017-10-10" "8:00 PM" "L" "SO" "18,006"].
    split; [reflexivity|]. split.
    + repeat constructor. eexists. split; [reflexivity|].
      intros [_ [_ H]]. discriminate H.
    + eexists. split; [reflexivity|]. repeat split.
Defined.

End LookupKeys.

